(** * machine-api-provider-aws: the provider identity codec, the compute
    backend adapter and the machine lifecycle reconciler

    A shallow embedding of
      - internal/aws/util.go   (ParseRegionFromAZ, VerifyProviderID, ParseProviderID, random)
      - internal/aws/ec2.go    (LaunchInstance, TerminateInstance, DescribeInstance,
                                DescribeInstanceStatus)
      - controllers/node_controller.go and the AWSMachine controller
                               (Reconcile, reconcileDelete, reconcileStatus,
                                getInstanceAddresses, ensureAWSMachineForNode)

    Go strings are [string] (bytes), pointers are [option], slices are
    [list], maps are [gmap]; a call that leaves the process (EC2, the
    Kubernetes API server, library code with no source here) is a node of a
    program tree whose answer is supplied by the environment; a Go panic is
    a value of [completion]. *)

From Stdlib Require Import ZArith Ascii.
From stdpp Require Import base strings gmap list.

Local Open Scope Z_scope.

(** ** Go strings *)

Module gostrings.

(** [strings.HasPrefix(s, prefix)]. *)
Fixpoint HasPrefix (s prefix : string) {struct prefix} : bool :=
  match prefix, s with
  | EmptyString, _ => true
  | String _ _, EmptyString => false
  | String p prefix', String c s' => if Ascii.eqb p c then HasPrefix s' prefix' else false
  end.

(** [strings.HasSuffix(s, string(c))] for a one-byte suffix. *)
Fixpoint HasSuffixByte (s : string) (c : ascii) : bool :=
  match s with
  | EmptyString => false
  | String d EmptyString => Ascii.eqb d c
  | String _ s' => HasSuffixByte s' c
  end.

(** [strings.Contains(s, substr)]. *)
Fixpoint Contains (s substr : string) : bool :=
  HasPrefix s substr ||
  match s with
  | EmptyString => false
  | String _ s' => Contains s' substr
  end.

(** [strings.IndexByte(s, c) >= 0]. *)
Fixpoint ContainsByte (s : string) (c : ascii) : bool :=
  match s with
  | EmptyString => false
  | String d s' => Ascii.eqb d c || ContainsByte s' c
  end.

(** [strings.Split(s, string(sep))] for a one-byte separator: the pieces of
    [s] between the separators, empty ones included; a string without separator
    is returned whole, so the result is never empty. *)
Fixpoint Split (s : string) (sep : ascii) : list string :=
  match s with
  | EmptyString => [EmptyString]
  | String c s' =>
      if Ascii.eqb c sep then EmptyString :: Split s' sep
      else match Split s' sep with
           | [] => [String c EmptyString]
           | piece :: pieces => String c piece :: pieces
           end
  end.

End gostrings.

(** ** Regular expressions, as far as package regexp is used

    The two expressions of util.go use character classes, concatenation,
    [*], [+] and the anchors [^] and [$]. Go compiles them with the Perl
    flags: a negated class matches a newline, [.] does not, and [$] is the
    end of the text. The special bytes of both expressions are ASCII, so
    matching bytes and matching UTF-8 runes agree. *)

Module regexp.

Inductive regex : Type :=
| Fail                                  (* no string *)
| Eps                                   (* the empty string *)
| Class (p : ascii -> bool)             (* one byte of a class *)
| Cat (r1 r2 : regex)
| Alt (r1 r2 : regex)
| Star (r : regex).

Definition Plus (r : regex) : regex := Cat r (Star r).

Definition Byte (c : ascii) : regex := Class (Ascii.eqb c).
Definition NotByte (c : ascii) : regex := Class (fun d => negb (Ascii.eqb c d)).
(** [.] without the s flag: any byte but a newline. *)
Definition Dot : regex := NotByte "010"%char.

Fixpoint Lit (s : string) : regex :=
  match s with
  | EmptyString => Eps
  | String c s' => Cat (Byte c) (Lit s')
  end.

Fixpoint nullable (r : regex) : bool :=
  match r with
  | Fail => false
  | Eps => true
  | Class _ => false
  | Cat r1 r2 => nullable r1 && nullable r2
  | Alt r1 r2 => nullable r1 || nullable r2
  | Star _ => true
  end.

(** Brzozowski derivative: the strings [s] such that [c :: s] matches. *)
Fixpoint deriv (c : ascii) (r : regex) : regex :=
  match r with
  | Fail => Fail
  | Eps => Fail
  | Class p => if p c then Eps else Fail
  | Cat r1 r2 =>
      if nullable r1 then Alt (Cat (deriv c r1) r2) (deriv c r2)
      else Cat (deriv c r1) r2
  | Alt r1 r2 => Alt (deriv c r1) (deriv c r2)
  | Star r1 => Cat (deriv c r1) (Star r1)
  end.

(** [regexp.MustCompile("^r$").MatchString(s)]: the whole of [s] matches. *)
Fixpoint MatchString (r : regex) (s : string) : bool :=
  match s with
  | EmptyString => nullable r
  | String c s' => MatchString (deriv c r) s'
  end.

(** [regexp.MustCompile("r$").ReplaceAll(s, "")] for an [r] that does not
    match the empty string: the leftmost suffix of [s] that matches [r] is
    cut off; there can be no second match after one that ends the text. *)
Fixpoint ReplaceAllSuffix (r : regex) (s : string) : string :=
  if MatchString r s then EmptyString
  else match s with
       | EmptyString => EmptyString
       | String c s' => String c (ReplaceAllSuffix r s')
       end.

(** The language of an expression, to reason about [MatchString]. *)
Inductive lang : regex -> string -> Prop :=
| lang_eps : lang Eps EmptyString
| lang_class p c : p c = true -> lang (Class p) (String c EmptyString)
| lang_cat r1 r2 s1 s2 : lang r1 s1 -> lang r2 s2 -> lang (Cat r1 r2) (s1 +:+ s2)
| lang_alt_l r1 r2 s : lang r1 s -> lang (Alt r1 r2) s
| lang_alt_r r1 r2 s : lang r2 s -> lang (Alt r1 r2) s
| lang_star_nil r : lang (Star r) EmptyString
| lang_star_cons r s1 s2 : lang r s1 -> lang (Star r) s2 -> lang (Star r) (s1 +:+ s2).

End regexp.

(** ** internal/aws/util.go *)

(** Errors. [AwsErr] is an [awserr.Error] with its [Code()]; [StatusErr] is
    an API status error of the Kubernetes client with its reason;
    [OtherErr] is any other error value of a library; the rest are made by
    this repository with [errors.Errorf], [errors.New] or [errors.Wrapf],
    and carry the format string and its arguments. *)
Inductive error : Type :=
| AwsErr (code message : string)
| StatusErr (reason message : string)
| OtherErr (message : string)
| ErrInvalidProviderID (s : string)             (* "invalid ProviderID: %q" *)
| ErrCannotDetermineSubnet (vpcID : string)     (* "cannot determine subnet from VPC: %#v" *)
| ErrNoInstances                                (* "no instances" *)
| ErrMissingCloudConfig (secretName : string)   (* "secret %q missing cloud-config" *)
| ErrRequeueAfter (RequeueAfter : Z) (format name : string)
                                   (* Wrapf(&RequeueAfterError{RequeueAfter}, format, name) *)
| ErrUnknownState (name state : string).        (* "machine %q has unknown state %q" *)

(** [apierrors.IsNotFound]. *)
Definition IsNotFound (e : error) : bool :=
  match e with
  | StatusErr reason _ => String.eqb reason "NotFound"
  | _ => false
  end.

Module awsutil.
Import regexp.

Definition is_lower (c : ascii) : bool :=
  (97 <=? nat_of_ascii c)%nat && (nat_of_ascii c <=? 122)%nat.

(** [var re = regexp.MustCompile(`[a-z]$`)]; the anchor is in
    [ReplaceAllSuffix]. *)
Definition re : regex := Class is_lower.

Definition ParseRegionFromAZ (s : string) : string := ReplaceAllSuffix re s.

(** [var providerIDRegex = regexp.MustCompile("^[^:]+://.*[^/]$")]. *)
Definition providerIDRegex : regex :=
  Cat (Plus (NotByte ":")) (Cat (Lit "://") (Cat (Star Dot) (NotByte "/"))).

Record ProviderID : Type := mkProviderID {
  AvailabilityZone : string;
  Region : string;
  InstanceID : string
}.

Definition VerifyProviderID (s : string) : bool := MatchString providerIDRegex s.

(** [ParseProviderID] returns a pointer and an error. The two indexings
    [ss[len(ss)-2]] and [ss[len(ss)-1]] are in range for every string that
    passed [VerifyProviderID] (lemma [Split_verified_length]), so [nth]'s
    default is never returned. *)
Definition ParseProviderID (s : string) : option ProviderID * option error :=
  if negb (VerifyProviderID s) then (None, Some (ErrInvalidProviderID s))
  else
    let ss := gostrings.Split s "/" in
    let az := nth (length ss - 2) ss EmptyString in
    let id := nth (length ss - 1) ss EmptyString in
    (Some {| AvailabilityZone := az; InstanceID := id; Region := ParseRegionFromAZ az |},
     None).

End awsutil.

(** [fmt.Sprintf("aws:///%s/%s", az, id)], the one place where the
    controller writes a provider identity (Reconcile, after a launch). *)
Definition formatProviderID (az id : string) : string :=
  "aws:///" +:+ az +:+ "/" +:+ id.

(** ** Types of the AWS SDK, as far as the code reads or writes them

    A pointer field is an [option]; [aws.StringValue], [aws.BoolValue] and
    [aws.Int64Value] read a nil pointer as the zero value. The elements of
    a slice of pointers are taken to be non-nil, as the SDK unmarshals
    them. *)

Module aws.

Record Config : Type := mkConfig {
  Region : string;
  Credentials : option (string * string)   (* credentials.NewStaticCredentials *)
}.

Definition StringValue (p : option string) : string := default EmptyString p.
Definition BoolValue (p : option bool) : bool := default false p.
Definition Int64Value (p : option Z) : Z := default 0 p.
Definition StringSlice (ss : list string) : list (option string) := Some <$> ss.

End aws.

Module ec2.

Definition InstanceStateNamePending : string := "pending".
Definition InstanceStateNameRunning : string := "running".
Definition InstanceStateNameShuttingDown : string := "shutting-down".
Definition InstanceStateNameTerminated : string := "terminated".
Definition InstanceStateNameStopping : string := "stopping".
Definition InstanceStateNameStopped : string := "stopped".
Definition SubnetStateAvailable : string := "available".

Record InstanceState : Type := { Name : option string }.

Record Placement : Type := { AvailabilityZone : option string }.

Record InstanceNetworkInterfaceAssociation : Type := {
  PublicDnsName : option string;
  PublicIp : option string
}.

Record InstanceNetworkInterface : Type := {
  PrivateDnsName : option string;
  PrivateIpAddress : option string;
  Association : option InstanceNetworkInterfaceAssociation
}.

Record Instance : Type := {
  InstanceId : option string;
  State : option InstanceState;
  InstancePlacement : option Placement;
  NetworkInterfaces : list InstanceNetworkInterface
}.

Record Reservation : Type := { Instances : list Instance }.

Record DescribeInstancesOutput : Type := { Reservations : list Reservation }.

Record SecurityGroup : Type := { GroupId : option string }.

Record Subnet : Type := {
  SubnetId : option string;
  MapPublicIpOnLaunch : option bool;
  AvailableIpAddressCount : option Z
}.

Record Filter : Type := { FilterName : string; Values : list (option string) }.

Record EbsBlockDevice : Type := {
  VolumeSize : Z;
  VolumeType : string;
  Encrypted : bool
}.

Record BlockDeviceMapping : Type := {
  DeviceName : string;
  Ebs : EbsBlockDevice
}.

Record Tag : Type := { Key : string; Value : string }.

Record TagSpecification : Type := { ResourceType : string; Tags : list Tag }.

Inductive IamInstanceProfileSpecification : Type :=
| IamArn (arn : string)
| IamName (name : string).

Record RunInstancesInput : Type := {
  BlockDeviceMappings : list BlockDeviceMapping;
  ImageId : string;
  InstanceType : string;
  KeyName : string;
  MaxCount : Z;
  MinCount : Z;
  TagSpecifications : list TagSpecification;
  UserData : string;
  IamInstanceProfile : IamInstanceProfileSpecification;
  SecurityGroupIds : list (option string);
  InputSubnetId : option string;
  InputPlacement : option Placement
}.

End ec2.

(** ** Types of the Kubernetes API, of machine-api and of this repository *)

Record ObjectKey : Type := { keyNamespace : string; keyName : string }.

Record ObjectReference : Type := {
  refAPIVersion : string;
  refKind : string;
  refName : string;
  refNamespace : string
}.

(** [metav1.ObjectMeta]; [DeletionTimestamp] is a pointer to a time, a time
    being the seconds since Go's zero time. *)
Record ObjectMeta : Type := {
  Name : string;
  Namespace : string;
  DeletionTimestamp : option Z;
  Finalizers : list string;
  Annotations : gmap string string
}.

(** [IsZero] of a [metav1.Time] pointer: nil, or the zero time. *)
Definition IsZero (t : option Z) : bool :=
  match t with
  | None => true
  | Some z => z =? 0
  end.

Definition NamespaceSystem : string := "kube-system".

Module machinev1.

Inductive MachineAddressType : Type :=
| MachineInternalDNS | MachineInternalIP | MachineExternalDNS | MachineExternalIP.

Record MachineAddress : Type := { Type_ : MachineAddressType; Address : string }.

(** [machinev1.Machine], the owner: its name, namespace and
    [Spec.ConfigRef.Name]. *)
Record Machine : Type := {
  MachineName : string;
  MachineNamespace : string;
  ConfigRefName : string
}.

(** [machinev1.Config]: [Status.Ready] and [Status.DataSecretName]. *)
Record Config : Type := {
  Ready : bool;
  DataSecretName : option string
}.

End machinev1.

Record Secret : Type := { Data : gmap string string }.

Record Node : Type := {
  NodeName : string;
  NodeAnnotations : gmap string string;
  NodeProviderID : string               (* n.Spec.ProviderID *)
}.

Module infrav1.

Definition MachineFinalizer : string := "awsmachine.infrastructure.crit.sh".
Definition NodeOwnerLabelName : string := "infrastructure.crit.sh/awsmachine".

Record AWSBlockDeviceMapping : Type := {
  DeviceName : string;
  VolumeSize : Z;
  VolumeType : string;
  Encrypted : bool
}.

Record AWSMachineSpec : Type := {
  ProviderID : option string;
  AMI : string;
  BlockDevices : list AWSBlockDeviceMapping;
  InstanceType : string;
  IAMInstanceProfile : string;
  KeyName : string;
  Tags : gmap string string;
  SecurityGroupIDs : list string;
  SecurityGroupNames : list string;
  AvailabilityZone : string;
  Region : string;
  SubnetIDs : list string;
  PublicIP : bool;
  VPCID : string;
  SecretRef : option ObjectReference;
  FailureDomain : option string
}.

Record AWSMachineStatus : Type := {
  Ready : bool;
  Addresses : list machinev1.MachineAddress;
  InstanceState : string;
  FailureReason : option string;
  FailureMessage : option string
}.

Record AWSMachine : Type := {
  APIVersion : string;
  Meta : ObjectMeta;
  Spec : AWSMachineSpec;
  Status : AWSMachineStatus
}.

(** In-place assignments to fields of [am]. *)
Definition setProviderID (am : AWSMachine) (id : option string) : AWSMachine :=
  let s := Spec am in
  {| APIVersion := APIVersion am; Meta := Meta am; Status := Status am;
     Spec := {| ProviderID := id; AMI := AMI s; BlockDevices := BlockDevices s;
                InstanceType := InstanceType s; IAMInstanceProfile := IAMInstanceProfile s;
                KeyName := KeyName s; Tags := Tags s;
                SecurityGroupIDs := SecurityGroupIDs s;
                SecurityGroupNames := SecurityGroupNames s;
                AvailabilityZone := AvailabilityZone s; Region := Region s;
                SubnetIDs := SubnetIDs s; PublicIP := PublicIP s; VPCID := VPCID s;
                SecretRef := SecretRef s; FailureDomain := FailureDomain s |} |}.

Definition setStatus (am : AWSMachine) (st : AWSMachineStatus) : AWSMachine :=
  {| APIVersion := APIVersion am; Meta := Meta am; Spec := Spec am; Status := st |}.

Definition setInstanceState (am : AWSMachine) (state : string) : AWSMachine :=
  let st := Status am in
  setStatus am {| Ready := Ready st; Addresses := Addresses st; InstanceState := state;
                  FailureReason := FailureReason st; FailureMessage := FailureMessage st |}.

Definition setAddresses (am : AWSMachine) (a : list machinev1.MachineAddress) : AWSMachine :=
  let st := Status am in
  setStatus am {| Ready := Ready st; Addresses := a; InstanceState := InstanceState st;
                  FailureReason := FailureReason st; FailureMessage := FailureMessage st |}.

Definition setReady (am : AWSMachine) (b : bool) : AWSMachine :=
  let st := Status am in
  setStatus am {| Ready := b; Addresses := Addresses st; InstanceState := InstanceState st;
                  FailureReason := FailureReason st; FailureMessage := FailureMessage st |}.

Definition setFinalizers (am : AWSMachine) (f : list string) : AWSMachine :=
  let m := Meta am in
  {| APIVersion := APIVersion am; Spec := Spec am; Status := Status am;
     Meta := {| Name := Name m; Namespace := Namespace m;
                DeletionTimestamp := DeletionTimestamp m; Finalizers := f;
                Annotations := Annotations m |} |}.

End infrav1.

(** ** controller-runtime's controllerutil

    [AddFinalizer] returns at the first entry equal to the finalizer and
    appends it otherwise; [RemoveFinalizer] drops every entry equal to
    it. *)

Module controllerutil.
Import infrav1.

Definition containsString (f : list string) (s : string) : bool :=
  existsb (String.eqb s) f.

Definition AddFinalizer (am : AWSMachine) (finalizer : string) : AWSMachine :=
  let f := Finalizers (Meta am) in
  if containsString f finalizer then am
  else setFinalizers am (f ++ [finalizer]).

Definition RemoveFinalizer (am : AWSMachine) (finalizer : string) : AWSMachine :=
  let f := Finalizers (Meta am) in
  setFinalizers am (filter (fun e => negb (String.eqb e finalizer)) f).

End controllerutil.

(** [ctrl.Result]; a [time.Duration] is a number of nanoseconds. *)
Record Result : Type := { Requeue : bool; RequeueAfter : Z }.

Definition Second : Z := 1000000000.
Definition ResultZero : Result := {| Requeue := false; RequeueAfter := 0 |}.

(** ** Programs that call the environment

    Every call that leaves the process, or enters a library whose source
    is not part of this repository, is a [Call] node; the environment's
    answer is the argument of the continuation. A value and an error that
    Go returns together from such a call are a [result]. *)

Inductive result (A : Type) : Type :=
| Ok (a : A)
| Err (e : error).
Arguments Ok {A} a.
Arguments Err {A} e.

(** How a Go function ends: it returns, or it panics. *)
Inductive completion (A : Type) : Type :=
| Done (a : A)
| Panic (msg : string).
Arguments Done {A} a.
Arguments Panic {A} msg.

Definition NilDereference : string := "invalid memory address or nil pointer dereference".
Definition IndexOutOfRange : string := "index out of range".
Definition NilMapAssignment : string := "assignment to entry in nil map".

Inductive call : Type :=
(* the EC2 client *)
| DescribeInstancesWithContext (cfg : aws.Config) (InstanceIds : list (option string))
| TerminateInstances (cfg : aws.Config) (InstanceIds : list (option string))
| DescribeSecurityGroupsWithContext (cfg : aws.Config) (Filters : list ec2.Filter)
| DescribeSubnetsWithContext (cfg : aws.Config) (Filters : list ec2.Filter)
| RunInstancesWithContext (cfg : aws.Config) (input : ec2.RunInstancesInput)
(* math/rand, compress/gzip, encoding/base64, encoding/json *)
| RandIntn (n : nat)
| GzipWrite (data : string)
| Base64EncodeToString (data : string)
| JsonMarshal (ref : ObjectReference)
(* the Kubernetes client, machine-api's util and patch packages *)
| ClientGetAWSMachine (key : ObjectKey)
| ClientGetConfig (key : ObjectKey)
| ClientGetSecret (key : ObjectKey)
| ClientUpdate (am : infrav1.AWSMachine)
| ClientList
| ClientCreate (am : infrav1.AWSMachine)
| GetOwnerMachine (meta : ObjectMeta)
| PatchNewHelper (am : infrav1.AWSMachine)
| PatchHelperPatch (before after : infrav1.AWSMachine)
| KubernetesNewForConfig
(* nodeutil.PatchNode: the node it reads and hands to the function, by its
   annotations (nil, or a map), and the patch it sends for what the function
   assigned *)
| PatchNodeGet (name : string)
| PatchNode (name key value : string).

Definition resp (c : call) : Type :=
  match c with
  | DescribeInstancesWithContext _ _ => result ec2.DescribeInstancesOutput
  | TerminateInstances _ _ => option error
  | DescribeSecurityGroupsWithContext _ _ => result (list ec2.SecurityGroup)
  | DescribeSubnetsWithContext _ _ => result (list ec2.Subnet)
  | RunInstancesWithContext _ _ => result (list ec2.Instance)
  | RandIntn _ => nat
  | GzipWrite _ => result string
  | Base64EncodeToString _ => string
  | JsonMarshal _ => result string
  | ClientGetAWSMachine _ => result infrav1.AWSMachine
  | ClientGetConfig _ => result machinev1.Config
  | ClientGetSecret _ => result Secret
  | ClientUpdate _ => option error
  | ClientList => result (list infrav1.AWSMachine)
  | ClientCreate _ => option error
  | GetOwnerMachine _ => result (option machinev1.Machine)
  | PatchNewHelper _ => option error
  | PatchHelperPatch _ _ => option error
  | KubernetesNewForConfig => option error
  | PatchNodeGet _ => result (option (gmap string string))
  | PatchNode _ _ _ => option error
  end.

Inductive prog (A : Type) : Type :=
| Ret (a : A)
| Call (c : call) (k : resp c -> prog A).
Arguments Ret {A} a.
Arguments Call {A} c k.

Fixpoint bind {A B : Type} (p : prog A) (f : A -> prog B) : prog B :=
  match p with
  | Ret a => f a
  | Call c k => Call c (fun r => bind (k r) f)
  end.

#[global] Instance prog_ret : MRet prog := fun A a => Ret a.
#[global] Instance prog_bind : MBind prog := fun A B f p => bind p f.

Definition perform (c : call) : prog (resp c) := Call c Ret.

(** Sequencing that stops at a panic. *)
Definition bindc {A B : Type} (p : prog (completion A))
    (f : A -> prog (completion B)) : prog (completion B) :=
  c ← p;
  match c with
  | Done a => f a
  | Panic msg => Ret (Panic msg)
  end.

Notation "x ←! p ; q" := (bindc p (fun x => q))
  (at level 20, p at level 100, q at level 200, right associativity, only parsing).
Notation "' x ←! p ; q" := (bindc p (fun x => q))
  (at level 20, x pattern, p at level 100, q at level 200, right associativity, only parsing).

(** An environment answers every call from a state of its own; running a
    program against it gives the events in order, the value and the
    environment's last state. *)
Definition event : Type := { c : call & resp c }.
Definition handler (W : Type) : Type := forall c : call, W -> resp c * W.

Fixpoint run {W A : Type} (h : handler W) (p : prog A) (w : W) : list event * A * W :=
  match p with
  | Ret a => ([], a, w)
  | Call c k =>
      let '(r, w1) := h c w in
      let '(t, a, w2) := run h (k r) w1 in
      (existT c r :: t, a, w2)
  end.

Definition calls (t : list event) : list call := projT1 <$> t.

(** ** internal/aws/ec2.go *)

Module awsec2.
Import infrav1.

(** [random] of util.go: [ss[rand.Intn(len(ss))]]. *)
Definition random (ss : list string) : prog (completion string) :=
  i ← perform (RandIntn (length ss));
  match ss !! i with
  | Some s => Ret (Done s)
  | None => Ret (Panic IndexOutOfRange)
  end.

Definition convertBlockDevices (blockDevices : list AWSBlockDeviceMapping)
  : list ec2.BlockDeviceMapping :=
  (fun b => {| ec2.DeviceName := DeviceName b;
               ec2.Ebs := {| ec2.VolumeSize := VolumeSize b;
                             ec2.VolumeType := VolumeType b;
                             ec2.Encrypted := Encrypted b |} |}) <$> blockDevices.

(** The order in which Go ranges over a map is not specified; the model
    takes the order of [map_to_list]. *)
Definition convertTags (tags : gmap string string) : list ec2.Tag :=
  (fun kv => {| ec2.Key := kv.1; ec2.Value := kv.2 |}) <$> map_to_list tags.

Definition nonempty {A : Type} (l : list A) : bool :=
  match l with
  | [] => false
  | _ :: _ => true
  end.

Definition subnetEligible (publicIP : bool) (subnet : ec2.Subnet) : bool :=
  Bool.eqb (aws.BoolValue (ec2.MapPublicIpOnLaunch subnet)) publicIP
  && negb (aws.Int64Value (ec2.AvailableIpAddressCount subnet) <? 1).

(** The [input] of [LaunchInstance] as it is when [RunInstancesWithContext]
    is called: the fields set at its declaration, the instance profile,
    the security group ids, the subnet and the placement. *)
Definition runInstancesInput (m : AWSMachine) (userData : string)
    (sgIds : list (option string)) (subnet : string) : ec2.RunInstancesInput :=
  let spec := Spec m in
  {| ec2.BlockDeviceMappings := convertBlockDevices (BlockDevices spec);
     ec2.ImageId := AMI spec;
     ec2.InstanceType := InstanceType spec;
     ec2.KeyName := KeyName spec;
     ec2.MaxCount := 1;
     ec2.MinCount := 1;
     ec2.TagSpecifications :=
       [ {| ec2.ResourceType := "instance"; ec2.Tags := convertTags (Tags spec) |} ];
     ec2.UserData := userData;
     ec2.IamInstanceProfile :=
       if gostrings.HasPrefix (IAMInstanceProfile spec) "arn"
       then ec2.IamArn (IAMInstanceProfile spec)
       else ec2.IamName (IAMInstanceProfile spec);
     ec2.SecurityGroupIds := sgIds;
     ec2.InputSubnetId := Some subnet;
     ec2.InputPlacement :=
       if String.eqb (AvailabilityZone spec) "" then None
       else Some {| ec2.AvailabilityZone := Some (AvailabilityZone spec) |} |}.

(** [LaunchInstance] from [sinput := ...] to its end, with the security
    group ids that [input] holds at that point. *)
Definition launchInSubnet (cfg : aws.Config) (m : AWSMachine) (userData : string)
    (sgIds : list (option string)) : prog (completion (option ec2.Instance * option error)) :=
  let spec := Spec m in
  let filters :=
    [ {| ec2.FilterName := "vpc-id"; ec2.Values := aws.StringSlice [VPCID spec] |};
      {| ec2.FilterName := "state";
         ec2.Values := aws.StringSlice [ec2.SubnetStateAvailable] |} ]
    ++ (if String.eqb (AvailabilityZone spec) "" then []
        else [ {| ec2.FilterName := "availability-zone";
                  ec2.Values := aws.StringSlice [AvailabilityZone spec] |} ])
    ++ (if nonempty (SubnetIDs spec)
        then [ {| ec2.FilterName := "subnet-id";
                  ec2.Values := aws.StringSlice (SubnetIDs spec) |} ]
        else []) in
  sresp ← perform (DescribeSubnetsWithContext cfg filters);
  match sresp with
  | Err err => Ret (Done (None, Some err))
  | Ok Subnets =>
      if negb (nonempty Subnets)
      then Ret (Done (None, Some (ErrCannotDetermineSubnet (VPCID spec))))
      else
        let subnets :=
          (fun subnet => aws.StringValue (ec2.SubnetId subnet))
            <$> filter (fun subnet => subnetEligible (PublicIP spec) subnet) Subnets in
        if negb (nonempty subnets)
        then Ret (Done (None, Some (ErrCannotDetermineSubnet (VPCID spec))))
        else
          subnet ←! random subnets;
          resp ← perform (RunInstancesWithContext cfg
                            (runInstancesInput m userData sgIds subnet));
          match resp with
          | Err err => Ret (Done (None, Some err))
          | Ok [] => Ret (Done (None, Some ErrNoInstances))
          | Ok (instance :: _) => Ret (Done (Some instance, None))
          end
  end.

(** [LaunchInstance]: the security group ids of the record, then those of
    the groups found by name, then the subnet and the launch. *)
Definition LaunchInstance (cfg : aws.Config) (m : AWSMachine) (userData : string)
  : prog (completion (option ec2.Instance * option error)) :=
  let spec := Spec m in
  let sgIds0 :=
    if nonempty (SecurityGroupIDs spec) then aws.StringSlice (SecurityGroupIDs spec)
    else [] in
  if nonempty (SecurityGroupNames spec) then
    resp ← perform (DescribeSecurityGroupsWithContext cfg
                      [ {| ec2.FilterName := "group-name";
                           ec2.Values := aws.StringSlice (SecurityGroupNames spec) |} ]);
    match resp with
    | Err err => Ret (Done (None, Some err))
    | Ok SecurityGroups =>
        launchInSubnet cfg m userData (sgIds0 ++ (ec2.GroupId <$> SecurityGroups))
    end
  else launchInSubnet cfg m userData sgIds0.

Definition TerminateInstance (cfg : aws.Config) (instanceID : string) : prog (option error) :=
  perform (TerminateInstances cfg (aws.StringSlice [instanceID])).

Definition InstanceNotFound : string := "InvalidInstanceID.NotFound".

Definition DescribeInstance (cfg : aws.Config) (instanceID : string)
  : prog (option ec2.Instance * bool * option error) :=
  resp ← perform (DescribeInstancesWithContext cfg (aws.StringSlice [instanceID]));
  match resp with
  | Err err =>
      match err with
      | AwsErr code _ =>
          if String.eqb code InstanceNotFound then Ret (None, false, None)
          else Ret (None, false, Some err)
      | _ => Ret (None, false, Some err)
      end
  | Ok out =>
      match ec2.Reservations out with
      | r0 :: _ =>
          match ec2.Instances r0 with
          | instance :: _ => Ret (Some instance, true, None)
          | [] => Ret (None, false, None)
          end
      | [] => Ret (None, false, None)
      end
  end.

(** [instance.State.Name] dereferences [instance] and [instance.State]. *)
Definition DescribeInstanceStatus (cfg : aws.Config) (instanceID : string)
  : prog (completion (string * option error)) :=
  '(instance, exists_, err) ← DescribeInstance cfg instanceID;
  match err with
  | Some e => Ret (Done (EmptyString, Some e))
  | None =>
      if negb exists_ then Ret (Done (ec2.InstanceStateNameTerminated, None))
      else match instance with
           | None => Ret (Panic NilDereference)
           | Some i =>
               match ec2.State i with
               | None => Ret (Panic NilDereference)
               | Some st => Ret (Done (aws.StringValue (ec2.Name st), None))
               end
           end
  end.

End awsec2.

(** ** controllers: the AWSMachine reconciler and the node reconciler *)

Module controllers.
Import machinev1 infrav1 awsec2.

(** [getInstanceAddresses] ranges over [instance.NetworkInterfaces]: a nil
    [instance] is dereferenced. *)
Definition eniAddresses (eni : ec2.InstanceNetworkInterface) : list MachineAddress :=
  [ {| Type_ := MachineInternalDNS; Address := aws.StringValue (ec2.PrivateDnsName eni) |};
    {| Type_ := MachineInternalIP; Address := aws.StringValue (ec2.PrivateIpAddress eni) |} ]
  ++ match ec2.Association eni with
     | Some assoc =>
         [ {| Type_ := MachineExternalDNS;
              Address := aws.StringValue (ec2.PublicDnsName assoc) |};
           {| Type_ := MachineExternalIP;
              Address := aws.StringValue (ec2.PublicIp assoc) |} ]
     | None => []
     end.

Definition getInstanceAddresses (instance : option ec2.Instance)
  : completion (list MachineAddress) :=
  match instance with
  | None => Panic NilDereference
  | Some i => Done (concat (eniAddresses <$> ec2.NetworkInterfaces i))
  end.

Definition TenSeconds : Z := 10 * Second.

(** [reconcileDelete]; [*am.Spec.ProviderID] dereferences the provider
    identity before anything else. *)
Definition reconcileDelete (am : AWSMachine) : prog (completion (option error)) :=
  match ProviderID (Spec am) with
  | None => Ret (Panic NilDereference)
  | Some s =>
      match awsutil.ParseProviderID s with
      | (_, Some err) => Ret (Done (Some err))
      | (None, None) => Ret (Panic NilDereference)
      | (Some p, None) =>
          let awscfg := aws.mkConfig (awsutil.Region p) None in
          '(state, err) ←! DescribeInstanceStatus awscfg (awsutil.InstanceID p);
          match err with
          | Some e => Ret (Done (Some e))
          | None =>
              let name := Name (Meta am) in
              if String.eqb state ec2.InstanceStateNamePending then
                Ret (Done (Some (ErrRequeueAfter TenSeconds
                  "machine %q pending, waiting until ready to delete" name)))
              else if String.eqb state ec2.InstanceStateNameStopping then
                Ret (Done (Some (ErrRequeueAfter TenSeconds
                  "machine %q stopping, waiting until stopped to delete" name)))
              else if String.eqb state ec2.InstanceStateNameRunning
                      || String.eqb state ec2.InstanceStateNameStopped then
                terr ← TerminateInstance awscfg (awsutil.InstanceID p);
                match terr with
                | Some e => Ret (Done (Some e))
                | None =>
                    Ret (Done (Some (ErrRequeueAfter TenSeconds
                      "machine %q terminating" name)))
                end
              else if String.eqb state ec2.InstanceStateNameShuttingDown then
                Ret (Done (Some (ErrRequeueAfter TenSeconds
                  "machine %q terminating" name)))
              else if String.eqb state ec2.InstanceStateNameTerminated then
                Ret (Done None)
              else
                Ret (Done (Some (ErrUnknownState name state)))
          end
      end
  end.

(** [reconcileStatus] assigns to fields of [am] as it goes: the record as
    it is when the function returns or panics is part of the value. The
    [exists] flag of [DescribeInstance] is dropped. *)
Definition reconcileStatus (am : AWSMachine) : prog (AWSMachine * completion (option error)) :=
  match ProviderID (Spec am) with
  | None => Ret (am, Panic NilDereference)
  | Some s =>
      match awsutil.ParseProviderID s with
      | (_, Some err) => Ret (am, Done (Some err))
      | (None, None) => Ret (am, Panic NilDereference)
      | (Some p, None) =>
          let awscfg := aws.mkConfig (awsutil.Region p) None in
          st ← DescribeInstanceStatus awscfg (awsutil.InstanceID p);
          match st with
          | Panic msg => Ret (am, Panic msg)
          | Done (_, Some err) => Ret (am, Done (Some err))
          | Done (state, None) =>
              let am := setInstanceState am state in
              if negb (Ready (Status am)) then
                '(instance, _, err) ← DescribeInstance awscfg (awsutil.InstanceID p);
                match err with
                | Some e => Ret (am, Done (Some e))
                | None =>
                    match getInstanceAddresses instance with
                    | Panic msg => Ret (am, Panic msg)
                    | Done addresses =>
                        let am := setAddresses am addresses in
                        let am := setReady am true in
                        Ret (am, Done None)
                    end
                end
              else Ret (am, Done None)
          end
      end
  end.

(** The statements of [Reconcile] after [AddFinalizer], on the record [am]
    that the deferred patch will read. The failure that
    [m.Status.SetFailure] records after a failed launch is written to the
    local copy [m] of the owner only, which no call sends anywhere. *)
Definition ReconcileBody (am : AWSMachine) (m : Machine)
  : prog (AWSMachine * completion (Result * option error)) :=
  let refresh (am : AWSMachine) : prog (AWSMachine * completion (Result * option error)) :=
    '(am, c) ← reconcileStatus am;
    match c with
    | Panic msg => Ret (am, Panic msg)
    | Done (Some err) => Ret (am, Done (ResultZero, Some err))
    | Done None => Ret (am, Done (ResultZero, None))
    end in
  match ProviderID (Spec am) with
  | Some _ => refresh am
  | None =>
      rcfg ← perform (ClientGetConfig {| keyName := ConfigRefName m;
                                         keyNamespace := MachineNamespace m |});
      match rcfg with
      | Err err => Ret (am, Done (ResultZero, Some err))
      | Ok cfg =>
          if negb (machinev1.Ready cfg)
          then Ret (am, Done ({| Requeue := false; RequeueAfter := 5 * Second |}, None))
          else
            match DataSecretName cfg with
            | None => Ret (am, Panic NilDereference)
            | Some secretName =>
                rs ← perform (ClientGetSecret {| keyName := secretName;
                                                 keyNamespace := MachineNamespace m |});
                match rs with
                | Err err => Ret (am, Done (ResultZero, Some err))
                | Ok s =>
                    match Data s !! "cloud-config" with
                    | None =>
                        Ret (am, Done (ResultZero, Some (ErrMissingCloudConfig secretName)))
                    | Some userData =>
                        let awscfg := aws.mkConfig (Region (Spec am)) None in
                        rcred ←
                          match SecretRef (Spec am) with
                          | None => Ret (Ok awscfg)
                          | Some ref =>
                              rs ← perform (ClientGetSecret
                                              {| keyName := refName ref;
                                                 keyNamespace := MachineNamespace m |});
                              match rs with
                              | Err err => Ret (Err err)
                              | Ok s =>
                                  let id := default "" (Data s !! "AWS_ACCESS_KEY_ID") in
                                  let secret :=
                                    default "" (Data s !! "AWS_SECRET_ACCESS_KEY") in
                                  if negb (String.eqb id "") && negb (String.eqb secret "")
                                  then Ret (Ok (aws.mkConfig (Region (Spec am))
                                                             (Some (id, secret))))
                                  else Ret (Ok awscfg)
                              end
                          end;
                        match rcred with
                        | Err err => Ret (am, Done (ResultZero, Some err))
                        | Ok awscfg =>
                            rz ← perform (GzipWrite userData);
                            match rz with
                            | Err err => Ret (am, Done (ResultZero, Some err))
                            | Ok data =>
                                encoded ← perform (Base64EncodeToString data);
                                launched ← LaunchInstance awscfg am encoded;
                                match launched with
                                | Panic msg => Ret (am, Panic msg)
                                | Done (_, Some err) =>
                                    Ret (am, Done (ResultZero, Some err))
                                | Done (None, None) => Ret (am, Panic NilDereference)
                                | Done (Some instance, None) =>
                                    match ec2.InstancePlacement instance with
                                    | None => Ret (am, Panic NilDereference)
                                    | Some placement =>
                                        let am := setProviderID am (Some (formatProviderID
                                          (aws.StringValue (ec2.AvailabilityZone placement))
                                          (aws.StringValue (ec2.InstanceId instance)))) in
                                        match getInstanceAddresses (Some instance) with
                                        | Panic msg => Ret (am, Panic msg)
                                        | Done addresses =>
                                            let am := setAddresses am addresses in
                                            let am := setReady am true in
                                            refresh am
                                        end
                                    end
                                end
                            end
                        end
                    end
                end
            end
      end
  end.

(** [defer func() { if err := patchHelper.Patch(ctx, am); err != nil {
    if reterr == nil { reterr = err } } }()]: the patch is sent when the
    body has returned and when it has panicked, with the record as the
    body left it; a panic goes on after it. *)
Definition deferPatch (before : AWSMachine)
    (body : prog (AWSMachine * completion (Result * option error)))
  : prog (completion (Result * option error)) :=
  '(am, c) ← body;
  perr ← perform (PatchHelperPatch before am);
  match c with
  | Panic msg => Ret (Panic msg)
  | Done (res, reterr) =>
      match perr, reterr with
      | Some err, None => Ret (Done (res, Some err))
      | _, _ => Ret (Done (res, reterr))
      end
  end.

(** [AWSMachineReconciler.Reconcile]. The error of [reconcileDelete] is
    logged and dropped. *)
Definition Reconcile (req : ObjectKey) : prog (completion (Result * option error)) :=
  got ← perform (ClientGetAWSMachine req);
  match got with
  | Err err =>
      if IsNotFound err then Ret (Done (ResultZero, None))
      else Ret (Done (ResultZero, Some err))
  | Ok am =>
      if negb (IsZero (DeletionTimestamp (Meta am))) then
        _ ←! reconcileDelete am;
        let am := controllerutil.RemoveFinalizer am MachineFinalizer in
        uerr ← perform (ClientUpdate am);
        match uerr with
        | Some err => Ret (Done (ResultZero, Some err))
        | None => Ret (Done (ResultZero, None))
        end
      else if bool_decide (FailureMessage (Status am) ≠ None) then
        Ret (Done (ResultZero, None))
      else
        owner ← perform (GetOwnerMachine (Meta am));
        match owner with
        | Err err => Ret (Done (ResultZero, Some err))
        | Ok None => Ret (Done (ResultZero, None))
        | Ok (Some m) =>
            herr ← perform (PatchNewHelper am);
            match herr with
            | Some err => Ret (Done (ResultZero, Some err))
            | None =>
                deferPatch am
                  (ReconcileBody (controllerutil.AddFinalizer am MachineFinalizer) m)
            end
        end
  end.

(** [NodeReconciler.setAWSMachineAnnotation]. [nodeutil.PatchNode] reads
    the node of that name, calls the function it is handed on that node
    and sends what the function changed. The function takes
    [n.GetAnnotations()] and assigns [annotations[NodeOwnerLabelName]]:
    on a node whose annotation map is nil the assignment panics, and
    nothing is sent. *)
Definition setAWSMachineAnnotation (m : AWSMachine) (name : string)
  : prog (completion (option error)) :=
  let ref := {| refAPIVersion := APIVersion m; refKind := "AWSMachine";
                refName := Name (Meta m); refNamespace := Namespace (Meta m) |} in
  rdata ← perform (JsonMarshal ref);
  match rdata with
  | Err err => Ret (Done (Some err))
  | Ok data =>
      kerr ← perform KubernetesNewForConfig;
      match kerr with
      | Some err => Ret (Done (Some err))
      | None =>
          got ← perform (PatchNodeGet name);
          match got with
          | Err err => Ret (Done (Some err))
          | Ok None => Ret (Panic NilMapAssignment)
          | Ok (Some annotations) =>
              err ← perform (PatchNode name NodeOwnerLabelName data);
              Ret (Done err)
          end
      end
  end.

Definition emptySpec (providerID : option string) : AWSMachineSpec :=
  {| ProviderID := providerID; AMI := ""; BlockDevices := []; InstanceType := "";
     IAMInstanceProfile := ""; KeyName := ""; Tags := ∅; SecurityGroupIDs := [];
     SecurityGroupNames := []; AvailabilityZone := ""; Region := ""; SubnetIDs := [];
     PublicIP := false; VPCID := ""; SecretRef := None; FailureDomain := None |}.

(** [NodeReconciler.ensureAWSMachineForNode]. The [exists] flag of
    [DescribeInstance] is dropped here as well. *)
Definition ensureAWSMachineForNode (n : Node) : prog (completion (option error)) :=
  if bool_decide (is_Some (NodeAnnotations n !! NodeOwnerLabelName)) then Ret (Done None)
  else
    listed ← perform ClientList;
    match listed with
    | Err err => Ret (Done (Some err))
    | Ok Items =>
        match find (fun m => match ProviderID (Spec m) with
                             | Some id => String.eqb id (NodeProviderID n)
                             | None => false
                             end) Items with
        | Some m => setAWSMachineAnnotation m (NodeName n)
        | None =>
            match awsutil.ParseProviderID (NodeProviderID n) with
            | (_, Some err) => Ret (Done (Some err))
            | (None, None) => Ret (Panic NilDereference)
            | (Some p, None) =>
                let awscfg := aws.mkConfig (awsutil.Region p) None in
                '(instance, _, err) ← DescribeInstance awscfg (awsutil.InstanceID p);
                match err with
                | Some e => Ret (Done (Some e))
                | None =>
                    addresses ←! Ret (getInstanceAddresses instance);
                    let am :=
                      {| APIVersion := "";
                         Meta := {| Name := NodeName n; Namespace := NamespaceSystem;
                                    DeletionTimestamp := None; Finalizers := [];
                                    Annotations := ∅ |};
                         Spec := emptySpec (Some (NodeProviderID n));
                         Status := {| Ready := false; Addresses := addresses;
                                      InstanceState := ""; FailureReason := None;
                                      FailureMessage := None |} |} in
                    cerr ← perform (ClientCreate am);
                    match cerr with
                    | Some e => Ret (Done (Some e))
                    | None => setAWSMachineAnnotation am (NodeName n)
                    end
                end
            end
        end
    end.

End controllers.

(** ** internal/aws/route53.go

    The two paged listings of the SDK take a function that is called with
    every page and with a flag for the last one, and that says whether to
    go on. The environment is the [Listing]: the pages that the service
    delivers, in order, and the error of the request that fails after
    them, if one does. *)

Module route53.

(** [strings.TrimPrefix]. *)
Fixpoint stripPrefix (s prefix : string) {struct prefix} : option string :=
  match prefix, s with
  | EmptyString, _ => Some s
  | String _ _, EmptyString => None
  | String p prefix', String c s' => if Ascii.eqb p c then stripPrefix s' prefix' else None
  end.

Definition TrimPrefix (s prefix : string) : string := default s (stripPrefix s prefix).

(** [strings.TrimSuffix(s, string(c))] for a one-byte suffix. *)
Fixpoint TrimSuffix (s : string) (c : ascii) : string :=
  match s with
  | EmptyString => EmptyString
  | String d EmptyString => if Ascii.eqb d c then EmptyString else s
  | String d s' => String d (TrimSuffix s' c)
  end.

(** [strings.SplitAfterN(s, string(sep), 2)]: [s] cut after its first
    separator, or [s] alone when it has none. *)
Fixpoint SplitAfterN2 (s : string) (sep : ascii) : list string :=
  match s with
  | EmptyString => [EmptyString]
  | String c s' =>
      if Ascii.eqb c sep then [String c EmptyString; s']
      else match SplitAfterN2 s' sep with
           | [first; second] => [String c first; second]
           | _ => [s]
           end
  end.

Inductive Error : Type :=
| ErrInvalidName (name : string)        (* "invalid name: %#v" *)
| ErrNoHostedZone (name : string)       (* "cannot determine HostedZoneId for name: %#v" *)
| ErrRequest (err : error).             (* the error of the listing *)

Record HostedZone : Type := { ZoneName : option string; ZoneId : option string }.

Record ResourceRecord : Type := { Value : option string }.

Record ResourceRecordSet : Type := {
  SetName : option string;
  ResourceRecords : list ResourceRecord
}.

Record Listing (P : Type) : Type := { Pages : list P; Failure : option error }.
Arguments Pages {P} l.
Arguments Failure {P} l.

(** [List...PagesWithContext(ctx, input, fn)]: [fn] is called with each
    page until it returns false or the pages end; the error is that of
    the request after the pages delivered, when [fn] let it be made. The
    value is the state of the variables that [fn] assigns to. *)
Fixpoint eachPage {P S : Type} (pages : list P) (failure : option error)
    (fn : P -> bool -> S -> S * bool) (s : S) : S * option error :=
  match pages with
  | [] => (s, failure)
  | page :: rest =>
      let lastPage :=
        match rest, failure with
        | [], None => true
        | _, _ => false
        end in
      let '(s1, more) := fn page lastPage s in
      if more && negb lastPage then eachPage rest failure fn s1 else (s1, None)
  end.

Definition ParseDomain (name : string) : string * option Error :=
  match SplitAfterN2 name "." with
  | [_; domain] => (domain, None)
  | _ => (EmptyString, Some (ErrInvalidName name))
  end.

(** [LookupZoneID]: the zones of all pages are put into a map from name to
    id, a later zone replacing an earlier one of the same name; then the
    name is cut after its first dot. *)
Definition LookupZoneID (listing : Listing (list HostedZone)) (name : string)
  : string * option Error :=
  let fn (page : list HostedZone) (lastPage : bool) (zones : gmap string string) :=
    (foldl (fun zones zone =>
              <[ TrimSuffix (aws.StringValue (ZoneName zone)) "."
                 := TrimPrefix (aws.StringValue (ZoneId zone)) "/hostedzone/" ]> zones)
           zones page,
     negb lastPage) in
  match eachPage (Pages listing) (Failure listing) fn ∅ with
  | (_, Some err) => (EmptyString, Some (ErrRequest err))
  | (zones, None) =>
      match SplitAfterN2 name "." with
      | [_; domain] =>
          match zones !! domain with
          | Some zone => (zone, None)
          | None => (EmptyString, Some (ErrNoHostedZone name))
          end
      | _ => (EmptyString, Some (ErrInvalidName name))
      end
  end.

(** The loop of [List] over the record sets of one page: the values of
    the records are appended until a set has another name, at which the
    function returns false. *)
Fixpoint appendRecords (sets : list ResourceRecordSet) (name : string) (addrs : list string)
  : list string * bool :=
  match sets with
  | [] => (addrs, true)
  | rs :: rest =>
      if negb (String.eqb (TrimSuffix (aws.StringValue (SetName rs)) ".") name)
      then (addrs, false)
      else appendRecords rest name
             (addrs ++ ((fun rr => aws.StringValue (Value rr)) <$> ResourceRecords rs))
  end.

Definition List (listing : Listing (list ResourceRecordSet)) (name : string)
  : list string * option Error :=
  let fn (page : list ResourceRecordSet) (lastPage : bool) (addrs : list string) :=
    let '(addrs1, complete) := appendRecords page name addrs in
    (addrs1, complete && negb lastPage) in
  match eachPage (Pages listing) (Failure listing) fn [] with
  | (_, Some err) => ([], Some (ErrRequest err))
  | (addrs, None) => (addrs, None)
  end.

End route53.

(** ** controllers: [NodeReconciler.Reconcile]

    The node reconciler reads the node and the owner machine and updates
    the machine; these calls are added to those above, which
    [ensureAWSMachineForNode] makes. What it uses of [machinev1.Machine]
    is [Spec.InfrastructureRef]. The annotation key
    [machinev1.NodeOwnerLabelName] is a constant of machine-api, a
    parameter here. *)

Module nodes.
Import infrav1 controllers.

Record Machine : Type := {
  MachineName : string;
  InfrastructureRef : ObjectReference
}.

Definition setInfrastructureRef (m : Machine) (ref : ObjectReference) : Machine :=
  {| MachineName := MachineName m; InfrastructureRef := ref |}.

Inductive ncall : Type :=
| Base (c : call)
| ClientGetNode (key : ObjectKey)
| JsonUnmarshal (data : string)
| ClientGetMachine (key : ObjectKey)
| ClientUpdateMachine (m : Machine).

Definition nresp (c : ncall) : Type :=
  match c with
  | Base c => resp c
  | ClientGetNode _ => result Node
  | JsonUnmarshal _ => result ObjectReference
  | ClientGetMachine _ => result Machine
  | ClientUpdateMachine _ => option error
  end.

Inductive nprog (A : Type) : Type :=
| NRet (a : A)
| NCall (c : ncall) (k : nresp c -> nprog A).
Arguments NRet {A} a.
Arguments NCall {A} c k.

Fixpoint nbind {A B : Type} (p : nprog A) (f : A -> nprog B) : nprog B :=
  match p with
  | NRet a => f a
  | NCall c k => NCall c (fun r => nbind (k r) f)
  end.

(** A program over the calls above, as a program of the node reconciler. *)
Fixpoint lift {A : Type} (p : prog A) : nprog A :=
  match p with
  | Ret a => NRet a
  | Call c k => NCall (Base c) (fun r => lift (k r))
  end.

Definition nperform (c : ncall) : nprog (nresp c) := NCall c NRet.

Definition nevent : Type := { c : ncall & nresp c }.
Definition nhandler (W : Type) : Type := forall c : ncall, W -> nresp c * W.

Fixpoint nrun {W A : Type} (h : nhandler W) (p : nprog A) (w : W) : list nevent * A * W :=
  match p with
  | NRet a => ([], a, w)
  | NCall c k =>
      let '(r, w1) := h c w in
      let '(t, a, w2) := nrun h (k r) w1 in
      (existT c r :: t, a, w2)
  end.

Definition ncalls (t : list nevent) : list ncall := projT1 <$> t.

Definition MissingInfraAnnotation : error :=
  OtherErr "cannot find AWSMachine, missing infra annotation".

(** [ensureMachineHasInfraRef]. *)
Definition ensureMachineHasInfraRef (am : AWSMachine) (ref : ObjectReference)
  : nprog (option error) :=
  nbind (nperform (ClientGetMachine {| keyNamespace := NamespaceSystem; keyName := refName ref |}))
    (fun got =>
       match got with
       | Err err => NRet (Some err)
       | Ok m =>
           if String.eqb (refKind (InfrastructureRef m)) "AWSMachine"
              && String.eqb (refName (InfrastructureRef m)) (Name (Meta am))
           then NRet None
           else
             let m := setInfrastructureRef m
                        {| refAPIVersion := APIVersion am; refKind := "AWSMachine";
                           refName := Name (Meta am); refNamespace := Namespace (Meta am) |} in
             nperform (ClientUpdateMachine m)
       end).

Section Reconcile.
Variable machineOwnerLabelName : string.   (* machinev1.NodeOwnerLabelName *)

(** [NodeReconciler.Reconcile]. The annotations are read from the node
    once, before [ensureAWSMachineForNode]; the annotation that
    [setAWSMachineAnnotation] patches goes to the API server, not into
    that map. *)
Definition Reconcile (req : ObjectKey) : nprog (completion (Result * option error)) :=
  nbind (nperform (ClientGetNode req))
    (fun got =>
       match got with
       | Err err =>
           if IsNotFound err then NRet (Done (ResultZero, None))
           else NRet (Done (ResultZero, Some err))
       | Ok n =>
           let annotations := NodeAnnotations n in
           nbind (match annotations !! NodeOwnerLabelName with
                 | Some _ => NRet (Done None)
                 | None => lift (ensureAWSMachineForNode n)
                 end)
             (fun ensured =>
                match ensured with
                | Panic msg => NRet (Panic msg)
                | Done (Some err) => NRet (Done (ResultZero, Some err))
                | Done None =>
                    match annotations !! machineOwnerLabelName with
                    | None => NRet (Done (ResultZero, None))
                    | Some refData =>
                        nbind (nperform (JsonUnmarshal refData))
                          (fun parsed =>
                             match parsed with
                             | Err err => NRet (Done (ResultZero, Some err))
                             | Ok ref =>
                                 match annotations !! NodeOwnerLabelName with
                                 | None =>
                                     NRet (Done (ResultZero, Some MissingInfraAnnotation))
                                 | Some awsRefData =>
                                     nbind (nperform (JsonUnmarshal awsRefData))
                                       (fun parsed =>
                                          match parsed with
                                          | Err err => NRet (Done (ResultZero, Some err))
                                          | Ok amRef =>
                                              nbind (nperform (Base (ClientGetAWSMachine
                                                      {| keyNamespace := NamespaceSystem;
                                                         keyName := refName amRef |})))
                                                (fun got =>
                                                   match got with
                                                   | Err err =>
                                                       NRet (Done (ResultZero, Some err))
                                                   | Ok am =>
                                                       nbind (ensureMachineHasInfraRef am ref)
                                                         (fun err =>
                                                            NRet (Done (ResultZero, err)))
                                                   end)
                                          end)
                                 end
                             end)
                    end
                end)
       end).

End Reconcile.

End nodes.

(** * Notions used in the statements *)

(** The number of occurrences of a byte. *)
Fixpoint countByte (s : string) (c : ascii) : nat :=
  match s with
  | EmptyString => 0
  | String d s' => (if Ascii.eqb d c then 1 else 0) + countByte s' c
  end%nat.

(** All bytes of a string are in a class. *)
Fixpoint allBytes (p : ascii -> bool) (s : string) : bool :=
  match s with
  | EmptyString => true
  | String c s' => p c && allBytes p s'
  end.

Definition notByte (c d : ascii) : bool := negb (Ascii.eqb c d).

(** *** What the specification calls a malformed identity *)

(** [strings.TrimPrefix]-like: [s] after the first occurrence of [sep]. *)
Fixpoint after (s sep : string) : option string :=
  if gostrings.HasPrefix s sep then Some (String.substring (String.length sep)
                                            (String.length s - String.length sep) s)
  else match s with
       | EmptyString => None
       | String _ s' => after s' sep
       end.

Definition missingSchemeSeparator (s : string) : bool := negb (gostrings.Contains s "://").
Definition trailingSlash (s : string) : bool := gostrings.HasSuffixByte s "/".
(** Fewer than two [/]-delimited segments after the scheme separator. *)
Definition tooFewSegments (s : string) : bool :=
  match after s "://" with
  | Some rest => (length (gostrings.Split rest "/") <? 2)%nat
  | None => false
  end.

(** A program is [safe] when, as long as the environment answers within
    [R], every call it makes is in [G] and its value is in [Q]. *)
Inductive safe {A : Type} (R : forall c, resp c -> Prop) (G : call -> Prop) (Q : A -> Prop)
  : prog A -> Prop :=
| safe_ret a : Q a -> safe R G Q (Ret a)
| safe_call c k : G c -> (forall r, R c r -> safe R G Q (k r)) -> safe R G Q (Call c k).

(** *** The answers of the backend to a describe call *)

(** The backend reports that an instance is not found with the error code
    [InvalidInstanceID.NotFound], or with an answer that holds no
    instance. *)
Definition reportsNotFound (r : result ec2.DescribeInstancesOutput) : bool :=
  match r with
  | Err (AwsErr code _) => String.eqb code "InvalidInstanceID.NotFound"
  | Err _ => false
  | Ok out =>
      match ec2.Reservations out with
      | [] => true
      | r0 :: _ => negb (awsec2.nonempty (ec2.Instances r0))
      end
  end.

(** The backend reports the first instance of its answer, in a state. *)
Definition reportsState (r : result ec2.DescribeInstancesOutput) (state : string) : Prop :=
  exists out r0 rs i is_ st,
    r = Ok out /\ ec2.Reservations out = r0 :: rs /\ ec2.Instances r0 = i :: is_ /\
    ec2.State i = Some st /\ aws.StringValue (ec2.Name st) = state.

(** *** Environments for the scenarios *)

(** An environment without state that answers every call with nothing:
    no error, no object, empty lists. *)
Definition nothing (c : call) : resp c :=
  match c with
  | DescribeInstancesWithContext _ _ => Ok {| ec2.Reservations := [] |}
  | TerminateInstances _ _ => None
  | DescribeSecurityGroupsWithContext _ _ => Ok []
  | DescribeSubnetsWithContext _ _ => Ok []
  | RunInstancesWithContext _ _ => Ok []
  | RandIntn _ => 0%nat
  | GzipWrite data => Ok data
  | Base64EncodeToString data => data
  | JsonMarshal ref => Ok (refName ref)
  | ClientGetAWSMachine _ => Err (StatusErr "NotFound" "not found")
  | ClientGetConfig _ => Err (StatusErr "NotFound" "not found")
  | ClientGetSecret _ => Err (StatusErr "NotFound" "not found")
  | ClientUpdate _ => None
  | ClientList => Ok []
  | ClientCreate _ => None
  | GetOwnerMachine _ => Ok None
  | PatchNewHelper _ => None
  | PatchHelperPatch _ _ => None
  | KubernetesNewForConfig => None
  | PatchNodeGet _ => Ok (Some ∅)
  | PatchNode _ _ _ => None
  end.

Definition silent : handler unit := fun c w => (nothing c, w).

Definition withDescribe {W : Type} (r : result ec2.DescribeInstancesOutput) (h : handler W)
  : handler W :=
  fun c =>
    match c as c0 return W -> resp c0 * W with
    | DescribeInstancesWithContext _ _ => fun w => (r, w)
    | c0 => h c0
    end.

Definition withAWSMachine {W : Type} (am : infrav1.AWSMachine) (h : handler W) : handler W :=
  fun c =>
    match c as c0 return W -> resp c0 * W with
    | ClientGetAWSMachine _ => fun w => (Ok am, w)
    | c0 => h c0
    end.

Definition withOwner {W : Type} (m : machinev1.Machine) (h : handler W) : handler W :=
  fun c =>
    match c as c0 return W -> resp c0 * W with
    | GetOwnerMachine _ => fun w => (Ok (Some m), w)
    | c0 => h c0
    end.

(** An instance in a state, in an availability zone, with one network
    interface. *)
Definition instanceIn (state : string) : ec2.Instance :=
  {| ec2.InstanceId := Some "i-0abc";
     ec2.State := Some {| ec2.Name := Some state |};
     ec2.InstancePlacement := Some {| ec2.AvailabilityZone := Some "us-east-1a" |};
     ec2.NetworkInterfaces :=
       [ {| ec2.PrivateDnsName := Some "ip-10-0-0-7.ec2.internal";
            ec2.PrivateIpAddress := Some "10.0.0.7";
            ec2.Association := None |} ] |}.

Definition describes (state : string) : result ec2.DescribeInstancesOutput :=
  Ok {| ec2.Reservations := [ {| ec2.Instances := [instanceIn state] |} ] |}.

Definition notFound : result ec2.DescribeInstancesOutput :=
  Err (AwsErr "InvalidInstanceID.NotFound" "The instance ID 'i-0abc' does not exist").

(** *** The deletion protocol, in the words of the specification *)

Inductive protocolOutcome : Type :=
| RetryAfterDelay                       (* not safe yet *)
| TerminateThenRetry                    (* issue terminate, then retry *)
| ProtocolSuccess                       (* safe to finalize *)
| FatalUnknownState (state : string).

(** pending or stopping: retry; running or stopped: terminate, then
    retry; shutting-down: retry; terminated: success; any other value: a
    fatal error naming the state. *)
Definition deletionProtocol (state : string) : protocolOutcome :=
  if String.eqb state "pending" || String.eqb state "stopping" then RetryAfterDelay
  else if String.eqb state "running" || String.eqb state "stopped" then TerminateThenRetry
  else if String.eqb state "shutting-down" then RetryAfterDelay
  else if String.eqb state "terminated" then ProtocolSuccess
  else FatalUnknownState state.

Ltac run_simpl :=
  unfold bindc, mbind, prog_bind, perform; cbn [bind run].

(** *** Records for the scenarios *)

Definition machineRecord (providerID : option string) (deletion : option Z)
    (finalizers : list string) (ready : bool) : infrav1.AWSMachine :=
  {| infrav1.APIVersion := "infrastructure.crit.sh/v1alpha1";
     infrav1.Meta := {| Name := "worker-0"; Namespace := "kube-system";
                        DeletionTimestamp := deletion; Finalizers := finalizers;
                        Annotations := ∅ |};
     infrav1.Spec :=
       {| infrav1.ProviderID := providerID; infrav1.AMI := "ami-0123";
          infrav1.BlockDevices := []; infrav1.InstanceType := "m5.large";
          infrav1.IAMInstanceProfile := "worker"; infrav1.KeyName := "";
          infrav1.Tags := ∅; infrav1.SecurityGroupIDs := [];
          infrav1.SecurityGroupNames := ["workers"];
          infrav1.AvailabilityZone := "us-east-1a"; infrav1.Region := "us-east-1";
          infrav1.SubnetIDs := []; infrav1.PublicIP := false; infrav1.VPCID := "vpc-1";
          infrav1.SecretRef := None; infrav1.FailureDomain := None |};
     infrav1.Status :=
       {| infrav1.Ready := ready; infrav1.Addresses := []; infrav1.InstanceState := "";
          infrav1.FailureReason := None; infrav1.FailureMessage := None |} |}.

(** A launched machine that is being deleted and carries the finalizer. *)
Definition deletingMachine : infrav1.AWSMachine :=
  machineRecord (Some "aws:///us-east-1a/i-0abc") (Some 63700000000)
                [infrav1.MachineFinalizer] true.

(** A machine with the finalizer that is deleted before it was launched. *)
Definition deletingUnlaunched : infrav1.AWSMachine :=
  machineRecord None (Some 63700000000) [infrav1.MachineFinalizer] false.

(** A launched machine whose status was not yet refreshed. *)
Definition launchedMachine : infrav1.AWSMachine :=
  machineRecord (Some "aws:///us-east-1a/i-0abc") None [] false.

(** A machine that is still to be launched. *)
Definition newMachine : infrav1.AWSMachine := machineRecord None None [] false.

Definition ownerMachine : machinev1.Machine :=
  {| machinev1.MachineName := "worker-0"; machinev1.MachineNamespace := "kube-system";
     machinev1.ConfigRefName := "worker-0-config" |}.

Definition worker0 : ObjectKey := {| keyNamespace := "kube-system"; keyName := "worker-0" |}.

Definition usEast1 : aws.Config := aws.mkConfig "us-east-1" None.

(** A node that joined without a machine record. *)
Definition node0 : Node :=
  {| NodeName := "ip-10-0-0-7"; NodeAnnotations := ∅;
     NodeProviderID := "aws:///us-east-1a/i-0abc" |}.

(** *** Launching *)

(** The record without its security group names. *)
Definition withoutSecurityGroupNames (m : infrav1.AWSMachine) : infrav1.AWSMachine :=
  let s := infrav1.Spec m in
  {| infrav1.APIVersion := infrav1.APIVersion m; infrav1.Meta := infrav1.Meta m;
     infrav1.Status := infrav1.Status m;
     infrav1.Spec :=
       {| infrav1.ProviderID := infrav1.ProviderID s; infrav1.AMI := infrav1.AMI s;
          infrav1.BlockDevices := infrav1.BlockDevices s;
          infrav1.InstanceType := infrav1.InstanceType s;
          infrav1.IAMInstanceProfile := infrav1.IAMInstanceProfile s;
          infrav1.KeyName := infrav1.KeyName s; infrav1.Tags := infrav1.Tags s;
          infrav1.SecurityGroupIDs := infrav1.SecurityGroupIDs s;
          infrav1.SecurityGroupNames := [];
          infrav1.AvailabilityZone := infrav1.AvailabilityZone s;
          infrav1.Region := infrav1.Region s; infrav1.SubnetIDs := infrav1.SubnetIDs s;
          infrav1.PublicIP := infrav1.PublicIP s; infrav1.VPCID := infrav1.VPCID s;
          infrav1.SecretRef := infrav1.SecretRef s;
          infrav1.FailureDomain := infrav1.FailureDomain s |} |}.

(** The lookup of the security groups by name. *)
Definition securityGroupLookup (cfg : aws.Config) (m : infrav1.AWSMachine) : call :=
  DescribeSecurityGroupsWithContext cfg
    [ {| ec2.FilterName := "group-name";
         ec2.Values := aws.StringSlice (infrav1.SecurityGroupNames (infrav1.Spec m)) |} ].

(** The event answers a call of [LaunchInstance] with the error [e]. *)
Definition answeredWith (e : error) (ev : event) : Prop :=
  match ev with
  | existT c r =>
      match c as c0 return resp c0 -> Prop with
      | DescribeSecurityGroupsWithContext _ _ => fun r => r = Err e
      | DescribeSubnetsWithContext _ _ => fun r => r = Err e
      | RunInstancesWithContext _ _ => fun r => r = Err e
      | _ => fun _ => False
      end r
  end.

Definition withSubnets {W : Type} (r : result (list ec2.Subnet)) (h : handler W) : handler W :=
  fun c =>
    match c as c0 return W -> resp c0 * W with
    | DescribeSubnetsWithContext _ _ => fun w => (r, w)
    | c0 => h c0
    end.

Definition withRunInstances {W : Type} (r : result (list ec2.Instance)) (h : handler W)
  : handler W :=
  fun c =>
    match c as c0 return W -> resp c0 * W with
    | RunInstancesWithContext _ _ => fun w => (r, w)
    | c0 => h c0
    end.

Definition privateSubnet : ec2.Subnet :=
  {| ec2.SubnetId := Some "subnet-1"; ec2.MapPublicIpOnLaunch := Some false;
     ec2.AvailableIpAddressCount := Some 250 |}.

(** A backend in which no security group has the name asked for, one
    subnet is eligible and the launch succeeds. *)
Definition launchingBackend : handler unit :=
  withSubnets (Ok [privateSubnet]) (withRunInstances (Ok [instanceIn "pending"]) silent).

(** *** The API server keeps the record *)

(** The state of the cluster: the record as the API server stores it, and
    the state of everything else. *)
Record cluster (O : Type) : Type := mkCluster { stored : infrav1.AWSMachine; outside : O }.
Arguments mkCluster {O} stored outside.
Arguments stored {O} c.
Arguments outside {O} c.

(** An environment [env] decides whether a call fails and answers the calls
    that do not concern the record; a read that succeeds returns the stored
    record, an update or a patch that succeeds stores the record it
    carries. *)
Definition apiServer {O : Type} (env : handler O) : handler (cluster O) :=
  fun c =>
    match c as c0 return cluster O -> resp c0 * cluster O with
    | ClientGetAWSMachine key => fun w =>
        let '(r, o) := env (ClientGetAWSMachine key) (outside w) in
        (match r with Ok _ => Ok (stored w) | Err e => Err e end, mkCluster (stored w) o)
    | ClientUpdate am => fun w =>
        let '(r, o) := env (ClientUpdate am) (outside w) in
        (r, mkCluster (match r with None => am | Some _ => stored w end) o)
    | PatchHelperPatch before after => fun w =>
        let '(r, o) := env (PatchHelperPatch before after) (outside w) in
        (r, mkCluster (match r with None => after | Some _ => stored w end) o)
    | c0 => fun w =>
        let '(r, o) := env c0 (outside w) in (r, mkCluster (stored w) o)
    end.

(** [Reconcile] invoked [n] times in a row. *)
Fixpoint reconcileTimes {W : Type} (h : handler W) (req : ObjectKey) (n : nat) (w : W)
  : list event * W :=
  match n with
  | O => ([], w)
  | S n' =>
      let '(t, _, w1) := run h (controllers.Reconcile req) w in
      let '(t', w2) := reconcileTimes h req n' w1 in
      (t ++ t', w2)
  end.

(** The calls of [LaunchInstance]. *)
Definition launchCall (c : call) : bool :=
  match c with
  | DescribeSecurityGroupsWithContext _ _ | DescribeSubnetsWithContext _ _
  | RandIntn _ | RunInstancesWithContext _ _ => true
  | _ => false
  end.

(** The calls that read the record and its owner, describe the instance
    and patch the record. *)
Definition refreshCall (c : call) : bool :=
  match c with
  | ClientGetAWSMachine _ | GetOwnerMachine _ | PatchNewHelper _
  | DescribeInstancesWithContext _ _ | PatchHelperPatch _ _ => true
  | _ => false
  end.

Definition addFinalizer (f : list string) : list string :=
  if controllerutil.containsString f infrav1.MachineFinalizer then f
  else f ++ [infrav1.MachineFinalizer].

(** [am'] is [am] but for the observed status (ready, addresses, instance
    state) and the finalizer of this controller. *)
Definition refreshed (am am' : infrav1.AWSMachine) : Prop :=
  infrav1.APIVersion am' = infrav1.APIVersion am /\
  infrav1.Spec am' = infrav1.Spec am /\
  Name (infrav1.Meta am') = Name (infrav1.Meta am) /\
  Namespace (infrav1.Meta am') = Namespace (infrav1.Meta am) /\
  DeletionTimestamp (infrav1.Meta am') = DeletionTimestamp (infrav1.Meta am) /\
  Annotations (infrav1.Meta am') = Annotations (infrav1.Meta am) /\
  (Finalizers (infrav1.Meta am') = Finalizers (infrav1.Meta am) \/
   Finalizers (infrav1.Meta am') = addFinalizer (Finalizers (infrav1.Meta am))) /\
  infrav1.FailureReason (infrav1.Status am') = infrav1.FailureReason (infrav1.Status am) /\
  infrav1.FailureMessage (infrav1.Status am') = infrav1.FailureMessage (infrav1.Status am).

(** What [Reconcile] may be answered and may call while the stored record
    is a refreshed [am0]. *)
Definition answersRefreshed (am0 : infrav1.AWSMachine) (c : call) : resp c -> Prop :=
  match c as c0 return resp c0 -> Prop with
  | ClientGetAWSMachine _ => fun r =>
      match r with
      | Ok am => refreshed am0 am
      | Err _ => True
      end
  | _ => fun _ => True
  end.

Definition callsRefreshed (am0 : infrav1.AWSMachine) (c : call) : Prop :=
  refreshCall c = true /\ launchCall c = false /\
  match c with
  | PatchHelperPatch _ after => refreshed am0 after
  | _ => True
  end.

Definition withConfig {W : Type} (cfg : machinev1.Config) (h : handler W) : handler W :=
  fun c =>
    match c as c0 return W -> resp c0 * W with
    | ClientGetConfig _ => fun w => (Ok cfg, w)
    | c0 => h c0
    end.

Definition withSecret {W : Type} (s : Secret) (h : handler W) : handler W :=
  fun c =>
    match c as c0 return W -> resp c0 * W with
    | ClientGetSecret _ => fun w => (Ok s, w)
    | c0 => h c0
    end.

(** The record can be read, the owner is set and the instance is described
    as running. *)
Definition running : handler unit :=
  withAWSMachine launchedMachine
    (withOwner ownerMachine (withDescribe (describes "running") silent)).

(** The record can be read, the owner is set, its config is ready, the
    bootstrap secret holds the cloud-config, the launch succeeds and the
    instance is then described as pending. *)
Definition provisioning : handler unit :=
  withAWSMachine newMachine
    (withOwner ownerMachine
       (withConfig {| machinev1.Ready := true;
                      machinev1.DataSecretName := Some "worker-0-data" |}
          (withSecret {| Data := {[ "cloud-config" := "#cloud-config" ]} |}
             (withDescribe (describes "pending") launchingBackend)))).

(** [strings.Join(ss, string(sep))]. *)
Fixpoint Join (ss : list string) (sep : ascii) : string :=
  match ss with
  | [] => EmptyString
  | [x] => x
  | x :: rest => x +:+ String sep (Join rest sep)
  end.

(** The answer that an event gives to a subnet lookup. *)
Definition subnetsAnswer (ev : event) : option (result (list ec2.Subnet)) :=
  match ev with
  | existT c r =>
      match c as c0 return resp c0 -> option (result (list ec2.Subnet)) with
      | DescribeSubnetsWithContext _ _ => fun r => Some r
      | _ => fun _ => None
      end r
  end.

#[global] Instance MachineAddressType_eq_dec : EqDecision machinev1.MachineAddressType.
Proof. solve_decision. Defined.

(** The addresses of one type, in their order. *)
Definition addressesOf (ty : machinev1.MachineAddressType)
    (l : list machinev1.MachineAddress) : list string :=
  machinev1.Address <$> filter (fun a => machinev1.Type_ a = ty) l.

(** A subnet that gives public addresses, and a backend that has only
    that subnet. *)
Definition publicSubnet : ec2.Subnet :=
  {| ec2.SubnetId := Some "subnet-9"; ec2.MapPublicIpOnLaunch := Some true;
     ec2.AvailableIpAddressCount := Some 12 |}.

Definition publicOnly : handler unit := withSubnets (Ok [publicSubnet]) silent.

(** The subnet filters of the scenario record. *)
Definition scenarioFilters : list ec2.Filter :=
  [ {| ec2.FilterName := "vpc-id"; ec2.Values := [Some "vpc-1"] |};
    {| ec2.FilterName := "state"; ec2.Values := [Some "available"] |};
    {| ec2.FilterName := "availability-zone"; ec2.Values := [Some "us-east-1a"] |} ].

(** *** What the reconciler writes *)

(** The calls that write to the cluster. *)
Definition isWrite (c : call) : bool :=
  match c with
  | ClientUpdate _ | ClientCreate _ | PatchHelperPatch _ _ | PatchNode _ _ _ => true
  | _ => false
  end.

(** [am'] differs from [am] at most in the finalizers, in the observed
    status (ready, addresses, instance state) and in a provider identity
    that [am] did not have. *)
Definition written (am am' : infrav1.AWSMachine) : Prop :=
  infrav1.APIVersion am' = infrav1.APIVersion am /\
  Name (infrav1.Meta am') = Name (infrav1.Meta am) /\
  Namespace (infrav1.Meta am') = Namespace (infrav1.Meta am) /\
  DeletionTimestamp (infrav1.Meta am') = DeletionTimestamp (infrav1.Meta am) /\
  Annotations (infrav1.Meta am') = Annotations (infrav1.Meta am) /\
  infrav1.FailureReason (infrav1.Status am') = infrav1.FailureReason (infrav1.Status am) /\
  infrav1.FailureMessage (infrav1.Status am') = infrav1.FailureMessage (infrav1.Status am) /\
  infrav1.Spec am'
    = infrav1.Spec (infrav1.setProviderID am (infrav1.ProviderID (infrav1.Spec am'))) /\
  (forall id, infrav1.ProviderID (infrav1.Spec am) = Some id ->
              infrav1.ProviderID (infrav1.Spec am') = Some id).

(** The record that a write carries is a [written] form of [am]; [Reconcile]
    creates nothing and patches no node. *)
Definition writesOnly (am : infrav1.AWSMachine) (c : call) : Prop :=
  match c with
  | ClientUpdate am' | PatchHelperPatch _ am' => written am am'
  | ClientCreate _ | PatchNode _ _ _ => False
  | _ => True
  end.

(** A provider identity comes with the ready flag: [am'] has no identity
    and the status of [am], or an identity made by [formatProviderID] and
    ready set. *)
Definition identityWithReady (am am' : infrav1.AWSMachine) : Prop :=
  (infrav1.ProviderID (infrav1.Spec am') = None /\ infrav1.Status am' = infrav1.Status am) \/
  (exists az id,
     infrav1.ProviderID (infrav1.Spec am') = Some (formatProviderID az id) /\
     infrav1.Ready (infrav1.Status am') = true).

Definition patchesIdentityWithReady (am : infrav1.AWSMachine) (c : call) : Prop :=
  match c with
  | PatchHelperPatch _ am' => identityWithReady am am'
  | _ => True
  end.

(** *** The credentials of a launch *)

(** The static credentials that a secret gives: its access key id and
    secret access key when neither is missing or empty. *)
Definition staticCredentials (s : Secret) : option (string * string) :=
  let id := default EmptyString (Data s !! "AWS_ACCESS_KEY_ID") in
  let secret := default EmptyString (Data s !! "AWS_SECRET_ACCESS_KEY") in
  if negb (String.eqb id "") && negb (String.eqb secret "") then Some (id, secret) else None.

(** The calls of the backend that a launch makes go to [cfg]. *)
Definition launchesWith (cfg : aws.Config) (c : call) : Prop :=
  match c with
  | DescribeSecurityGroupsWithContext cfg' _ | DescribeSubnetsWithContext cfg' _
  | RunInstancesWithContext cfg' _ => cfg' = cfg
  | _ => True
  end.

(** A read of the secret [key] that succeeds returns [s0]. *)
Definition answersSecret (key : ObjectKey) (s0 : Secret) (c : call) : resp c -> Prop :=
  match c as c0 return resp c0 -> Prop with
  | ClientGetSecret k => fun r =>
      match r with
      | Ok s => k = key -> s = s0
      | Err _ => True
      end
  | _ => fun _ => True
  end.

(** A secret with both keys, and one with the access key id only. *)
Definition fullCredentials : Secret :=
  {| Data := {[ "AWS_ACCESS_KEY_ID" := "AKIAEXAMPLE"; "AWS_SECRET_ACCESS_KEY" := "s3cr3t";
                "cloud-config" := "#cloud-config" ]} |}.

Definition halfCredentials : Secret :=
  {| Data := {[ "AWS_ACCESS_KEY_ID" := "AKIAEXAMPLE"; "cloud-config" := "#cloud-config" ]} |}.

Definition credentialsRef : ObjectReference :=
  {| refAPIVersion := "v1"; refKind := "Secret"; refName := "aws-credentials";
     refNamespace := "kube-system" |}.

(** The scenario record with a reference to a credentials secret. *)
Definition machineWithSecretRef : infrav1.AWSMachine :=
  {| infrav1.APIVersion := infrav1.APIVersion newMachine;
     infrav1.Meta := infrav1.Meta newMachine;
     infrav1.Status := infrav1.Status newMachine;
     infrav1.Spec :=
       {| infrav1.ProviderID := None; infrav1.AMI := "ami-0123";
          infrav1.BlockDevices := []; infrav1.InstanceType := "m5.large";
          infrav1.IAMInstanceProfile := "worker"; infrav1.KeyName := "";
          infrav1.Tags := ∅; infrav1.SecurityGroupIDs := [];
          infrav1.SecurityGroupNames := ["workers"];
          infrav1.AvailabilityZone := "us-east-1a"; infrav1.Region := "us-east-1";
          infrav1.SubnetIDs := []; infrav1.PublicIP := false; infrav1.VPCID := "vpc-1";
          infrav1.SecretRef := Some credentialsRef; infrav1.FailureDomain := None |} |}.

(** An environment in which every secret read is [s]. *)
Definition provisioningWith (s : Secret) : handler unit :=
  withOwner ownerMachine
    (withConfig {| machinev1.Ready := true;
                   machinev1.DataSecretName := Some "worker-0-data" |}
       (withSecret s (withDescribe (describes "pending") launchingBackend))).

(** *** Listings of Route 53 *)

(** The longest prefix of a list whose elements all pass a test. *)
Fixpoint takeWhile {A : Type} (f : A -> bool) (l : list A) : list A :=
  match l with
  | [] => []
  | x :: rest => if f x then x :: takeWhile f rest else []
  end.

(** The name of a zone or of a record set as the code compares it. *)
Definition zoneKey (zone : route53.HostedZone) : string :=
  route53.TrimSuffix (aws.StringValue (route53.ZoneName zone)) ".".

Definition namedAs (name : string) (rs : route53.ResourceRecordSet) : bool :=
  String.eqb (route53.TrimSuffix (aws.StringValue (route53.SetName rs)) ".") name.

(** The values of the records of some record sets, in order. *)
Definition recordValues (sets : list route53.ResourceRecordSet) : list string :=
  concat ((fun rs => (fun rr => aws.StringValue (route53.Value rr))
                       <$> route53.ResourceRecords rs) <$> sets).

(** The assignment to the map of zones. *)
Definition insertZone (zones : gmap string string) (zone : route53.HostedZone)
  : gmap string string :=
  <[ zoneKey zone
     := route53.TrimPrefix (aws.StringValue (route53.ZoneId zone)) "/hostedzone/" ]> zones.

Definition zoneOf (name id : string) : route53.HostedZone :=
  {| route53.ZoneName := Some name; route53.ZoneId := Some id |}.

Definition recordSet (name : string) (values : list string) : route53.ResourceRecordSet :=
  {| route53.SetName := Some name;
     route53.ResourceRecords := (fun v => {| route53.Value := Some v |}) <$> values |}.

(** *** Nodes and their records *)

(** An API server that lists the given records. *)
Definition withList {W : Type} (Items : list infrav1.AWSMachine) (h : handler W) : handler W :=
  fun c =>
    match c as c0 return W -> resp c0 * W with
    | ClientList => fun w => (Ok Items, w)
    | c0 => h c0
    end.

(** The reference to a record, as a node's annotation carries it. *)
Definition referenceTo (m : infrav1.AWSMachine) : ObjectReference :=
  {| refAPIVersion := infrav1.APIVersion m; refKind := "AWSMachine";
     refName := Name (infrav1.Meta m);
     refNamespace := Namespace (infrav1.Meta m) |}.

(** The record holds the provider identity of the node. *)
Definition recordOf (n : Node) (m : infrav1.AWSMachine) : Prop :=
  infrav1.ProviderID (infrav1.Spec m) = Some (NodeProviderID n).

(** The first instance of a describe answer. *)
Definition firstInstance (r : result ec2.DescribeInstancesOutput) : option ec2.Instance :=
  match r with
  | Ok out =>
      match ec2.Reservations out with
      | r0 :: _ => head (ec2.Instances r0)
      | [] => None
      end
  | Err _ => None
  end.

(** The event is the marshalling of a reference, answered with [data]. *)
Definition marshalled (ref : ObjectReference) (data : string) (ev : event) : Prop :=
  match ev with
  | existT c r =>
      match c as c0 return resp c0 -> Prop with
      | JsonMarshal ref' => fun r => ref' = ref /\ r = Ok data
      | _ => fun _ => False
      end r
  end.

(** The event is a read of [PatchNode] that found a node whose annotation
    map is nil. *)
Definition readsNilMap (ev : event) : Prop :=
  match ev with
  | existT c r =>
      match c as c0 return resp c0 -> Prop with
      | PatchNodeGet _ => fun r => r = Ok None
      | _ => fun _ => False
      end r
  end.

Definition patchesNode (c : call) : Prop :=
  match c with
  | PatchNode _ _ _ => True
  | _ => False
  end.

(** The calls that write the annotation of a node for a record, in an
    invocation with the events [t]: the reference to the record is
    marshalled, the node is read by its name, and the patch sets the
    annotation [NodeOwnerLabelName] of that node to what the marshalling
    of the reference returned in [t]. *)
Definition annotates (n : Node) (m : infrav1.AWSMachine) (t : list event) (c : call) : Prop :=
  match c with
  | JsonMarshal ref => ref = referenceTo m
  | KubernetesNewForConfig => True
  | PatchNodeGet name => name = NodeName n
  | PatchNode name key data =>
      name = NodeName n /\ key = infrav1.NodeOwnerLabelName /\
      Exists (marshalled (referenceTo m) data) t
  | _ => False
  end.

(** *** The node reconciler *)

(** The calls of [ensureAWSMachineForNode]. *)
Definition ensureCall (c : call) : Prop :=
  match c with
  | ClientList | DescribeInstancesWithContext _ _ | ClientCreate _
  | JsonMarshal _ | KubernetesNewForConfig | PatchNodeGet _ | PatchNode _ _ _ => True
  | _ => False
  end.

(** The machine names the record as its infrastructure, as
    [ensureMachineHasInfraRef] compares them: by kind and name. *)
Definition linked (m : nodes.Machine) (am : infrav1.AWSMachine) : Prop :=
  refKind (nodes.InfrastructureRef m) = "AWSMachine" /\
  refName (nodes.InfrastructureRef m) = Name (infrav1.Meta am).

(** The state of the cluster for the node reconciler: the owner machine as
    the API server stores it, and the state of everything else. An
    environment [env] decides whether a call fails; a read of the machine
    that succeeds returns the stored machine, an update that succeeds
    stores the machine it carries. *)
Definition machineServer {O : Type} (env : nodes.nhandler O)
  : nodes.nhandler (nodes.Machine * O) :=
  fun c =>
    match c as c0 return nodes.Machine * O -> nodes.nresp c0 * (nodes.Machine * O) with
    | nodes.ClientGetMachine key => fun w =>
        let '(r, o) := env (nodes.ClientGetMachine key) w.2 in
        (match r with Ok _ => Ok w.1 | Err e => Err e end, (w.1, o))
    | nodes.ClientUpdateMachine m => fun w =>
        let '(r, o) := env (nodes.ClientUpdateMachine m) w.2 in
        (r, (match r with None => m | Some _ => w.1 end, o))
    | c0 => fun w =>
        let '(r, o) := env c0 w.2 in (r, (w.1, o))
    end.

(** An environment of the node reconciler in which every call succeeds,
    over an environment for the calls of the record reconciler: it reads
    the given node and machine, and decodes a reference from its name. *)
Definition nodeEnv {W : Type} (n : Node) (m : nodes.Machine) (h : handler W)
  : nodes.nhandler W :=
  fun c =>
    match c as c0 return W -> nodes.nresp c0 * W with
    | nodes.Base c0 => h c0
    | nodes.ClientGetNode _ => fun w => (Ok n, w)
    | nodes.JsonUnmarshal data => fun w =>
        (Ok {| refAPIVersion := ""; refKind := ""; refName := data; refNamespace := "" |}, w)
    | nodes.ClientGetMachine _ => fun w => (Ok m, w)
    | nodes.ClientUpdateMachine _ => fun w => (None, w)
    end.

(** The calls of the record reconciler that a handler of the node
    reconciler answers. *)
Definition baseOf {W : Type} (h : nodes.nhandler W) : handler W :=
  fun c => h (nodes.Base c).

(** The calls that [NodeReconciler.Reconcile] makes for a node without
    the annotation of its record. *)
Definition seeksRecord (c : nodes.ncall) : Prop :=
  match c with
  | nodes.ClientGetNode _ | nodes.JsonUnmarshal _ => True
  | nodes.Base c => ensureCall c
  | _ => False
  end.

(** The calls that [NodeReconciler.Reconcile] makes for a node with the
    annotation of its record: reads, and updates of a machine to the
    reference of a record. *)
Definition linksMachine (c : nodes.ncall) : Prop :=
  match c with
  | nodes.ClientGetNode _ | nodes.JsonUnmarshal _ => True
  | nodes.Base (ClientGetAWSMachine key) => keyNamespace key = NamespaceSystem
  | nodes.ClientGetMachine key => keyNamespace key = NamespaceSystem
  | nodes.ClientUpdateMachine m =>
      refKind (nodes.InfrastructureRef m) = "AWSMachine"
  | _ => False
  end.

(** A node that its machine has annotated, and the machine. *)
Definition machineLabel : string := "machine.crit.sh/machine".

Definition ownedNode : Node :=
  {| NodeName := "ip-10-0-0-7";
     NodeAnnotations := {[ machineLabel := "worker-0" ]};
     NodeProviderID := "aws:///us-east-1a/i-0abc" |}.

Definition annotatedNode : Node :=
  {| NodeName := "ip-10-0-0-7";
     NodeAnnotations := {[ machineLabel := "worker-0";
                           infrav1.NodeOwnerLabelName := "ip-10-0-0-7" ]};
     NodeProviderID := "aws:///us-east-1a/i-0abc" |}.

Definition unlinkedMachine : nodes.Machine :=
  {| nodes.MachineName := "worker-0";
     nodes.InfrastructureRef :=
       {| refAPIVersion := ""; refKind := ""; refName := ""; refNamespace := "" |} |}.

(** A call of the node reconciler with its answer. *)
Definition answered (c : nodes.ncall) (r : nodes.nresp c) : nodes.nevent := existT c r.

Definition systemKey (name : string) : ObjectKey :=
  {| keyNamespace := NamespaceSystem; keyName := name |}.

(** An API server on which [PatchNode] reads the node with the given
    answer. *)
Definition withNodeRead {W : Type} (r : result (option (gmap string string)))
    (h : handler W) : handler W :=
  fun c =>
    match c as c0 return W -> resp c0 * W with
    | PatchNodeGet _ => fun w => (r, w)
    | c0 => h c0
    end.

(** What [setAWSMachineAnnotation] does for a node and a record, in the
    events [t] of its run, ending in [r]. *)
Definition annotation_run (n : Node) (m : infrav1.AWSMachine)
    (t : list event) (r : completion (option error)) : Prop :=
  Forall (annotates n m t) (calls t) /\
  (r = Done None ->
   exists data,
     last (calls t) = Some (PatchNode (NodeName n) infrav1.NodeOwnerLabelName data)) /\
  ((exists msg, r = Panic msg) <-> Exists readsNilMap t) /\
  (Exists readsNilMap t ->
   r = Panic NilMapAssignment /\ Forall (fun c => ~ patchesNode c) (calls t)).

(** *** Records that are left alone *)

(** The record can be read and the machine controller has not set its
    owner yet. *)
Definition ownerless : handler unit := withAWSMachine newMachine silent.

(** A record on which a failure was recorded, and an environment in which
    its owner is set. *)
Definition failedMachine : infrav1.AWSMachine :=
  {| infrav1.APIVersion := infrav1.APIVersion newMachine;
     infrav1.Meta := infrav1.Meta newMachine;
     infrav1.Spec := infrav1.Spec newMachine;
     infrav1.Status :=
       {| infrav1.Ready := false; infrav1.Addresses := []; infrav1.InstanceState := "";
          infrav1.FailureReason := Some "CreateError";
          infrav1.FailureMessage := Some "no instances" |} |}.

Definition failed : handler unit := withAWSMachine failedMachine (withOwner ownerMachine silent).

(** * Properties *)

(** ** Strings *)

#[local] Arguments String.append !_ _ / : simpl nomatch.

Section StringFacts.

Lemma append_empty_r (s : string) : s +:+ "" = s.
Proof. induction s as [|c s IH]; simpl; congruence. Qed.

Lemma append_assoc (a b c : string) : (a +:+ b) +:+ c = a +:+ (b +:+ c).
Proof. induction a as [|x a IH]; simpl; congruence. Qed.

Lemma append_eq_empty (a b : string) : a +:+ b = "" -> a = "" /\ b = "".
Proof. destruct a; simpl; [auto | discriminate]. Qed.

Lemma ascii_eqb_true (a b : ascii) : Ascii.eqb a b = true <-> a = b.
Proof. apply Ascii.eqb_eq. Qed.

Lemma ascii_eqb_false (a b : ascii) : Ascii.eqb a b = false <-> a <> b.
Proof. apply Ascii.eqb_neq. Qed.

Lemma Split_nonempty (s : string) (sep : ascii) : gostrings.Split s sep <> [].
Proof.
  destruct s as [|c s]; simpl; [discriminate|].
  destruct (Ascii.eqb c sep); [discriminate|].
  destruct (gostrings.Split s sep); discriminate.
Qed.

(** A string without the separator is one piece. *)
Lemma Split_whole (s : string) (sep : ascii) :
  gostrings.ContainsByte s sep = false -> gostrings.Split s sep = [s].
Proof.
  induction s as [|c s IH]; simpl; [reflexivity|].
  intros H. apply orb_false_iff in H as [Hc Hs].
  rewrite Hc, (IH Hs). reflexivity.
Qed.

(** The first separator ends the first piece. *)
Lemma Split_cons (a b : string) (sep : ascii) :
  gostrings.ContainsByte a sep = false ->
  gostrings.Split (a +:+ String sep b) sep = a :: gostrings.Split b sep.
Proof.
  induction a as [|c a IH]; simpl.
  - intros _. rewrite Ascii.eqb_refl. reflexivity.
  - intros H. apply orb_false_iff in H as [Hc Ha].
    rewrite Hc, (IH Ha). reflexivity.
Qed.


Lemma Split_length (s : string) (sep : ascii) :
  length (gostrings.Split s sep) = S (countByte s sep).
Proof.
  induction s as [|c s IH]; simpl; [reflexivity|].
  destruct (Ascii.eqb c sep); simpl; [congruence|].
  destruct (gostrings.Split s sep) eqn:E; simpl in *; congruence.
Qed.

Lemma countByte_append (a b : string) (c : ascii) :
  countByte (a +:+ b) c = (countByte a c + countByte b c)%nat.
Proof. induction a as [|x a IH]; simpl; [reflexivity|]. rewrite IH. lia. Qed.

Lemma HasPrefix_append (s prefix : string) :
  gostrings.HasPrefix s prefix = true <-> exists rest, s = prefix +:+ rest.
Proof.
  revert s. induction prefix as [|p prefix IH]; intros s; simpl.
  - split; [intros _; exists s; reflexivity | reflexivity].
  - destruct s as [|c s].
    + split; [discriminate | intros [rest H]; discriminate].
    + destruct (Ascii.eqb p c) eqn:E.
      * apply Ascii.eqb_eq in E as ->. rewrite IH.
        split; intros [rest H]; exists rest; congruence.
      * apply Ascii.eqb_neq in E.
        split; [discriminate | intros [rest H]; congruence].
Qed.

Lemma Contains_append (s substr : string) :
  gostrings.Contains s substr = true <-> exists a b, s = a +:+ substr +:+ b.
Proof.
  induction s as [|c s IH].
  - cbn [gostrings.Contains]. rewrite orb_false_r, HasPrefix_append. split.
    + intros [rest H]. exists "", rest. exact H.
    + intros [a [b H]]. symmetry in H. apply append_eq_empty in H as [-> H].
      exists b. symmetry. exact H.
  - cbn [gostrings.Contains]. rewrite orb_true_iff, HasPrefix_append, IH. split.
    + intros [[rest H] | [a [b H]]].
      * exists "", rest. exact H.
      * exists (String c a), b. rewrite H. reflexivity.
    + intros [[|x a] [b H]].
      * left. exists b. exact H.
      * right. exists a, b. change (String c s = String x (a +:+ substr +:+ b)) in H.
        congruence.
Qed.

Lemma HasSuffixByte_append (s : string) (c d : ascii) :
  gostrings.HasSuffixByte (s +:+ String d "") c = Ascii.eqb d c.
Proof.
  induction s as [|x s IH]; simpl; [reflexivity|].
  rewrite IH. destruct (s +:+ String d "") eqn:E; [|reflexivity].
  destruct s; discriminate.
Qed.

End StringFacts.

(** ** Regular expressions: the matcher decides the language *)

Section RegexFacts.
Import regexp.

Lemma lang_empty_nullable (r : regex) (s : string) :
  lang r s -> s = "" -> nullable r = true.
Proof.
  induction 1 as [ | p c Hp | r1 r2 s1 s2 _ IH1 _ IH2 | r1 r2 s _ IH | r1 r2 s _ IH
                 | r | r s1 s2 _ _ _ _ ]; intros Hs; simpl; try reflexivity.
  - discriminate.
  - apply append_eq_empty in Hs as [-> ->]. rewrite IH1, IH2; reflexivity.
  - rewrite (IH Hs). reflexivity.
  - rewrite (IH Hs). apply orb_true_r.
Qed.

Lemma nullable_lang (r : regex) : nullable r = true <-> lang r "".
Proof.
  split; [|intros H; exact (lang_empty_nullable r "" H eq_refl)].
  induction r as [ | | p | r1 IH1 r2 IH2 | r1 IH1 r2 IH2 | r IH ]; simpl; intros H;
    try discriminate.
  - constructor.
  - apply andb_true_iff in H as [H1 H2].
    change "" with ("" +:+ ""). constructor; auto.
  - apply orb_true_iff in H as [H1 | H2]; [apply lang_alt_l | apply lang_alt_r]; auto.
  - constructor.
Qed.

Lemma deriv_sound (c : ascii) (r : regex) :
  forall s, lang (deriv c r) s -> lang r (String c s).
Proof.
  induction r as [ | | p | r1 IH1 r2 IH2 | r1 IH1 r2 IH2 | r IH ]; simpl; intros s H.
  - inversion H.
  - inversion H.
  - destruct (p c) eqn:Hp; inversion H; subst. constructor. exact Hp.
  - assert (Hcat : forall t, lang (Cat (deriv c r1) r2) t -> lang (Cat r1 r2) (String c t)).
    { intros t Ht. inversion Ht; subst.
      change (String c (s1 +:+ s2)) with (String c s1 +:+ s2). constructor; auto. }
    destruct (nullable r1) eqn:Hn; [|auto].
    inversion H; subst; [auto|].
    change (String c s) with ("" +:+ String c s).
    constructor; [apply nullable_lang; exact Hn | auto].
  - inversion H; subst; [apply lang_alt_l | apply lang_alt_r]; auto.
  - inversion H; subst.
    change (String c (s1 +:+ s2)) with (String c s1 +:+ s2). constructor; auto.
Qed.

Lemma deriv_complete (c : ascii) (r : regex) (t : string) :
  lang r t -> forall s, t = String c s -> lang (deriv c r) s.
Proof.
  induction 1 as [ | p d Hp | r1 r2 s1 s2 H1 IH1 H2 IH2 | r1 r2 s0 _ IH | r1 r2 s0 _ IH
                 | r | r s1 s2 H1 IH1 H2 IH2 ]; intros s Hs; simpl.
  - discriminate.
  - injection Hs as -> <-. rewrite Hp. constructor.
  - destruct s1 as [|x s1].
    + simpl in Hs. rewrite (lang_empty_nullable r1 "" H1 eq_refl).
      apply lang_alt_r. auto.
    + simpl in Hs. injection Hs as -> <-.
      assert (lang (Cat (deriv c r1) r2) (s1 +:+ s2)) by (constructor; auto).
      destruct (nullable r1); [apply lang_alt_l|]; assumption.
  - apply lang_alt_l. auto.
  - apply lang_alt_r. auto.
  - discriminate.
  - destruct s1 as [|x s1].
    + simpl in Hs. exact (IH2 s Hs).
    + simpl in Hs. injection Hs as -> <-. constructor; auto.
Qed.

Lemma MatchString_lang (r : regex) (s : string) : MatchString r s = true <-> lang r s.
Proof.
  revert r. induction s as [|c s IH]; intros r; simpl.
  - apply nullable_lang.
  - rewrite IH. split; [apply deriv_sound | intros H; exact (deriv_complete c r _ H s eq_refl)].
Qed.

Lemma lang_Lit (lit s : string) : lang (Lit lit) s <-> s = lit.
Proof.
  revert s. induction lit as [|c lit IH]; intros s; simpl.
  - split; [inversion 1; reflexivity | intros ->; constructor].
  - split.
    + inversion 1 as [ | | r1 r2 s1 s2 H1 H2 | | | | ]; subst.
      unfold Byte in H1. inversion H1 as [ | p0 c0 Hp | | | | | ]; subst.
      apply ascii_eqb_true in Hp as <-.
      apply IH in H2 as ->. reflexivity.
    + intros ->. change (String c lit) with (String c "" +:+ lit).
      constructor; [constructor; apply Ascii.eqb_refl | apply IH; reflexivity].
Qed.


Lemma lang_Star_Class (p : ascii -> bool) (s : string) :
  lang (Star (Class p)) s <-> allBytes p s = true.
Proof.
  split.
  - intros H. remember (Star (Class p)) as r eqn:Hr.
    induction H as [ | | | | | r | r s1 s2 H1 _ H2 IH2 ]; try discriminate.
    + reflexivity.
    + injection Hr as ->. inversion H1 as [ | p0 c0 Hp | | | | | ]; subst. simpl.
      rewrite Hp. apply IH2. reflexivity.
  - induction s as [|c s IH]; simpl; intros H; [constructor|].
    apply andb_true_iff in H as [Hc Hs].
    change (String c s) with (String c "" +:+ s).
    constructor; [constructor; exact Hc | auto].
Qed.

End RegexFacts.

(** ** The provider identity codec *)

Section Codec.
Import regexp awsutil.


(** What [providerIDRegex] accepts: a scheme of at least one byte without
    colon, [://], bytes without newline, and a last byte that is no
    slash. *)
Lemma VerifyProviderID_shape (s : string) :
  VerifyProviderID s = true <->
  exists scheme rest c,
    s = scheme +:+ "://" +:+ rest +:+ String c "" /\
    scheme <> "" /\ allBytes (notByte ":") scheme = true /\
    allBytes (notByte "010") rest = true /\ c <> "/"%char.
Proof.
  unfold VerifyProviderID. rewrite MatchString_lang. unfold providerIDRegex, Plus. split.
  - intros H.
    inversion H as [ | | r1 r2 s1 s2 Hscheme Htail | | | | ]; subst.
    inversion Hscheme as [ | | r1 r2 a b Ha Hb | | | | ]; subst.
    inversion Htail as [ | | r1 r2 l s3 Hl Hrest | | | | ]; subst.
    inversion Hrest as [ | | r1 r2 m e Hm He | | | | ]; subst.
    unfold NotByte in Ha, He.
    inversion Ha as [ | p0 c0 Hc0 | | | | | ]; subst.
    inversion He as [ | p1 c1 Hc1 | | | | | ]; subst.
    change (lang (Lit "://") l) in Hl. apply lang_Lit in Hl as ->.
    apply lang_Star_Class in Hb. apply lang_Star_Class in Hm.
    exists (String c0 b), m, c1. repeat split.
    + discriminate.
    + simpl. apply andb_true_iff. split; [exact Hc0 | exact Hb].
    + exact Hm.
    + change (negb (Ascii.eqb "/" c1) = true) in Hc1.
      apply negb_true_iff, ascii_eqb_false in Hc1. congruence.
  - intros (scheme & rest & c & -> & Hne & Hscheme & Hrest & Hc).
    destruct scheme as [|c0 scheme]; [congruence|].
    simpl in Hscheme. apply andb_true_iff in Hscheme as [Hc0 Hscheme].
    constructor.
    + change (String c0 scheme) with (String c0 "" +:+ scheme).
      constructor; [constructor; exact Hc0 | apply lang_Star_Class; exact Hscheme].
    + constructor; [apply lang_Lit; reflexivity|].
      constructor; [apply lang_Star_Class; exact Hrest|].
      constructor. apply negb_true_iff, ascii_eqb_false. congruence.
Qed.

Lemma verified_has_separator (s : string) :
  VerifyProviderID s = true -> gostrings.Contains s "://" = true.
Proof.
  intros H. apply VerifyProviderID_shape in H as (scheme & rest & c & -> & _).
  apply Contains_append. exists scheme, (rest +:+ String c ""). reflexivity.
Qed.

Lemma verified_no_trailing_slash (s : string) :
  VerifyProviderID s = true -> gostrings.HasSuffixByte s "/" = false.
Proof.
  intros H. apply VerifyProviderID_shape in H as (scheme & rest & c & -> & _ & _ & _ & Hc).
  change (scheme +:+ "://" +:+ rest +:+ String c "")
    with (scheme +:+ ("://" +:+ (rest +:+ String c ""))).
  rewrite <- (append_assoc "://"), <- append_assoc, HasSuffixByte_append.
  apply ascii_eqb_false. exact Hc.
Qed.

(** [ss[len(ss)-2]] and [ss[len(ss)-1]] are in range. *)
Lemma Split_verified_length (s : string) :
  VerifyProviderID s = true -> (3 <= length (gostrings.Split s "/"))%nat.
Proof.
  intros H. apply VerifyProviderID_shape in H as (scheme & rest & c & -> & _).
  rewrite Split_length, countByte_append, countByte_append. simpl. lia.
Qed.

Example parse_us_east :
  ParseProviderID "aws:///us-east-1a/i-0abc" =
  (Some (mkProviderID "us-east-1a" "us-east-1" "i-0abc"), None).
Proof. reflexivity. Qed.

Example parse_one_segment :
  ParseProviderID "aws://i-0abc" =
  (Some (mkProviderID "" "" "i-0abc"), None).
Proof. reflexivity. Qed.

Example parse_trailing_slash :
  ParseProviderID "aws:///us-east-1a/" =
  (None, Some (ErrInvalidProviderID "aws:///us-east-1a/")).
Proof. reflexivity. Qed.

(** C3, as far as it holds: a string without scheme separator, or with a
    trailing slash, is refused by [ParseProviderID] with the invalid
    ProviderID error, and the pointer returned is nil. *)
Theorem ParseProviderID_rejects (s : string) :
  missingSchemeSeparator s = true \/ trailingSlash s = true ->
  ParseProviderID s = (None, Some (ErrInvalidProviderID s)).
Proof.
  unfold missingSchemeSeparator, trailingSlash, ParseProviderID. intros H.
  destruct (VerifyProviderID s) eqn:Hv; [exfalso | reflexivity].
  destruct H as [H | H].
  - rewrite (verified_has_separator s Hv) in H. discriminate.
  - rewrite (verified_no_trailing_slash s Hv) in H. discriminate.
Qed.

Lemma ParseProviderID_rejects_witness :
  ParseProviderID "aws:/us-east-1a/i-0abc"
    = (None, Some (ErrInvalidProviderID "aws:/us-east-1a/i-0abc")) /\
  ParseProviderID "aws:///us-east-1a/i-0abc/"
    = (None, Some (ErrInvalidProviderID "aws:///us-east-1a/i-0abc/")).
Proof.
  split.
  - apply (ParseProviderID_rejects "aws:/us-east-1a/i-0abc"). left. reflexivity.
  - apply (ParseProviderID_rejects "aws:///us-east-1a/i-0abc/"). right. reflexivity.
Defined.

(** C3 as stated fails on the third kind of malformed string: an identity
    with a single segment after the scheme is accepted, with an empty
    availability zone. *)
Lemma ParseProviderID_accepts_one_segment :
  tooFewSegments "aws://i-0abc" = true /\
  ParseProviderID "aws://i-0abc"
    = (Some {| AvailabilityZone := ""; Region := ""; InstanceID := "i-0abc" |}, None).
Proof. split; reflexivity. Qed.

(** C2, as far as it holds: an accepted identity of the form
    [aws:///<zone>/<id>], with zone and id free of slashes, is parsed into
    that zone and id, and formatting them gives the identity back. *)
Theorem format_parse_roundtrip (az id : string) :
  gostrings.ContainsByte az "/" = false ->
  gostrings.ContainsByte id "/" = false ->
  VerifyProviderID (formatProviderID az id) = true ->
  exists p,
    ParseProviderID (formatProviderID az id) = (Some p, None) /\
    AvailabilityZone p = az /\ InstanceID p = id /\ Region p = ParseRegionFromAZ az /\
    formatProviderID (AvailabilityZone p) (InstanceID p) = formatProviderID az id.
Proof.
  intros Haz Hid Hv. unfold ParseProviderID. rewrite Hv. simpl negb. cbv iota.
  assert (Hsplit : gostrings.Split (formatProviderID az id) "/" = ["aws:"; ""; ""; az; id]).
  { unfold formatProviderID.
    change ("aws:///" +:+ az +:+ "/" +:+ id)
      with ("aws:" +:+ String "/" ("" +:+ String "/" ("" +:+ String "/" (az +:+ String "/" id)))).
    rewrite !Split_cons by (reflexivity || assumption).
    rewrite (Split_whole id "/" Hid). reflexivity. }
  rewrite Hsplit. simpl. eexists. repeat split.
Qed.

Lemma format_parse_roundtrip_witness :
  exists p,
    ParseProviderID "aws:///us-east-1a/i-0abc" = (Some p, None) /\
    AvailabilityZone p = "us-east-1a" /\ InstanceID p = "i-0abc" /\
    Region p = "us-east-1" /\
    formatProviderID (AvailabilityZone p) (InstanceID p) = "aws:///us-east-1a/i-0abc".
Proof.
  exact (format_parse_roundtrip "us-east-1a" "i-0abc" eq_refl eq_refl eq_refl).
Defined.

(** C2 as stated fails: an accepted identity with a non-empty part between
    [://] and the zone is not what formatting its fields gives. *)
Lemma format_parse_not_identity :
  VerifyProviderID "aws://cluster-1/us-east-1a/i-0abc" = true /\
  exists p,
    ParseProviderID "aws://cluster-1/us-east-1a/i-0abc" = (Some p, None) /\
    formatProviderID (AvailabilityZone p) (InstanceID p)
      <> "aws://cluster-1/us-east-1a/i-0abc".
Proof.
  split; [reflexivity|]. eexists. split; [reflexivity|]. discriminate.
Qed.

End Codec.

(** ** Running programs *)

Section RunFacts.
Context {W : Type} (h : handler W).

Lemma run_bind {A B : Type} (p : prog A) (f : A -> prog B) (w : W) :
  run h (bind p f) w =
  let '(t1, a, w1) := run h p w in
  let '(t2, b, w2) := run h (f a) w1 in
  (t1 ++ t2, b, w2).
Proof.
  revert w. induction p as [a | c k IH]; intros w; simpl.
  - destruct (run h (f a) w) as [[t2 b] w2]. reflexivity.
  - destruct (h c w) as [r w1]. rewrite IH.
    destruct (run h (k r) w1) as [[t1 a] w2].
    destruct (run h (f a) w2) as [[t2 b] w3]. reflexivity.
Qed.

Lemma run_perform (c : call) (w : W) :
  run h (perform c) w = ([existT c (h c w).1], (h c w).1, (h c w).2).
Proof. unfold perform. simpl. destruct (h c w); reflexivity. Qed.


Lemma safe_bind {A B : Type} R G (Q1 : A -> Prop) (Q : B -> Prop) (p : prog A)
    (f : A -> prog B) :
  safe R G Q1 p -> (forall a, Q1 a -> safe R G Q (f a)) -> safe R G Q (bind p f).
Proof.
  intros Hp Hf. induction Hp as [a Ha | c k Hc _ IH]; simpl.
  - auto.
  - constructor; auto.
Qed.

Lemma safe_weaken {A : Type} R G (Q1 Q : A -> Prop) (p : prog A) :
  safe R G Q1 p -> (forall a, Q1 a -> Q a) -> safe R G Q p.
Proof.
  intros Hp Hq. induction Hp; constructor; auto.
Qed.

(** Against an environment that keeps an invariant [Inv] of its state and
    answers within [R] while the calls are in [G], a safe program makes
    calls in [G] only, ends in [Q] and leaves the invariant in place. *)
Lemma safe_run {A : Type} R G (Q : A -> Prop) (Inv : W -> Prop) (p : prog A) :
  (forall c w, Inv w -> G c -> R c (h c w).1 /\ Inv (h c w).2) ->
  safe R G Q p ->
  forall w, Inv w ->
    Forall G (calls (run h p w).1.1) /\ Q (run h p w).1.2 /\ Inv (run h p w).2.
Proof.
  intros Henv Hp. induction Hp as [a Ha | c k Hc Hk IH]; intros w Hw; simpl.
  - split; [constructor | auto].
  - destruct (Henv c w Hw Hc) as [Hr Hw1].
    destruct (h c w) as [r w1]; simpl in *.
    specialize (IH r Hr w1 Hw1).
    destruct (run h (k r) w1) as [[t a] w2]; simpl in *.
    destruct IH as (Ht & Ha & Hw2). repeat split; auto.
Qed.

End RunFacts.

(** ** The compute backend adapter *)

Section Adapter.
Import awsec2.
Context {W : Type} (h : handler W).

Lemma run_DescribeInstance (cfg : aws.Config) (id : string) (w : W) :
  run h (DescribeInstance cfg id) w =
  let c := DescribeInstancesWithContext cfg (aws.StringSlice [id]) in
  let r : result ec2.DescribeInstancesOutput := (h c w).1 in
  ([existT c r],
   match r with
   | Err (AwsErr code msg) =>
       if String.eqb code InstanceNotFound then (None, false, None)
       else (None, false, Some (AwsErr code msg))
   | Err e => (None, false, Some e)
   | Ok out =>
       match ec2.Reservations out with
       | r0 :: _ =>
           match ec2.Instances r0 with
           | i :: _ => (Some i, true, None)
           | [] => (None, false, None)
           end
       | [] => (None, false, None)
       end
   end,
   (h c w).2).
Proof.
  unfold DescribeInstance. run_simpl. cbv zeta.
  destruct (h _ w) as [r w1]. cbn [fst snd].
  destruct r as [out | e].
  - destruct (ec2.Reservations out) as [|r0 rs]; [reflexivity|].
    destruct (ec2.Instances r0); reflexivity.
  - destruct e; try reflexivity.
    destruct (String.eqb code InstanceNotFound); reflexivity.
Qed.



(** C7: an instance that the backend reports as not found is a value of
    [DescribeInstance] (nil, [exists = false], no error) and the state
    [terminated] of [DescribeInstanceStatus], without error; every other
    error of the backend is returned as the error of both. *)
Theorem describe_not_found_is_a_value (cfg : aws.Config) (id : string) (w : W) :
  let r : result ec2.DescribeInstancesOutput :=
    (h (DescribeInstancesWithContext cfg (aws.StringSlice [id])) w).1 in
  (reportsNotFound r = true ->
     (run h (DescribeInstance cfg id) w).1.2 = (None, false, None) /\
     (run h (DescribeInstanceStatus cfg id) w).1.2
       = Done (ec2.InstanceStateNameTerminated, None)) /\
  (forall e, r = Err e -> reportsNotFound r = false ->
     (run h (DescribeInstance cfg id) w).1.2 = (None, false, Some e) /\
     (run h (DescribeInstanceStatus cfg id) w).1.2 = Done ("", Some e)).
Proof.
  cbv zeta. unfold DescribeInstanceStatus, mbind, prog_bind.
  rewrite run_bind, run_DescribeInstance. cbv zeta.
  destruct (h _ w) as [r w1]. cbn [fst snd]. split.
  - intros Hnf. destruct r as [out | e]; simpl in Hnf.
    + destruct (ec2.Reservations out) as [|r0 rs]; [split; reflexivity|].
      destruct (ec2.Instances r0); [split; reflexivity | discriminate].
    + destruct e; try discriminate.
      unfold InstanceNotFound. rewrite Hnf. split; reflexivity.
  - intros e -> Hnf. simpl in Hnf.
    destruct e; try (split; reflexivity).
    unfold InstanceNotFound. rewrite Hnf. split; reflexivity.
Qed.

End Adapter.

Lemma describe_not_found_is_a_value_witness :
  (run (withDescribe notFound silent)
       (awsec2.DescribeInstance (aws.mkConfig "us-east-1" None) "i-0abc") tt).1.2
    = (None, false, None) /\
  (run (withDescribe notFound silent)
       (awsec2.DescribeInstanceStatus (aws.mkConfig "us-east-1" None) "i-0abc") tt).1.2
    = Done ("terminated", None) /\
  (run (withDescribe (Err (AwsErr "RequestLimitExceeded" "slow down")) silent)
       (awsec2.DescribeInstanceStatus (aws.mkConfig "us-east-1" None) "i-0abc") tt).1.2
    = Done ("", Some (AwsErr "RequestLimitExceeded" "slow down")).
Proof.
  split; [|split].
  - apply (describe_not_found_is_a_value (withDescribe notFound silent)
             (aws.mkConfig "us-east-1" None) "i-0abc" tt). reflexivity.
  - apply (describe_not_found_is_a_value (withDescribe notFound silent)
             (aws.mkConfig "us-east-1" None) "i-0abc" tt). reflexivity.
  - apply (describe_not_found_is_a_value
             (withDescribe (Err (AwsErr "RequestLimitExceeded" "slow down")) silent)
             (aws.mkConfig "us-east-1" None) "i-0abc" tt); reflexivity.
Defined.

(** ** The deletion protocol *)

Section Deletion.
Import machinev1 infrav1 awsec2 controllers.
Context {W : Type} (h : handler W).

Lemma run_DescribeInstanceStatus_calls (cfg : aws.Config) (id : string) (w : W) :
  calls (run h (DescribeInstanceStatus cfg id) w).1.1
    = [DescribeInstancesWithContext cfg (aws.StringSlice [id])] /\
  (run h (DescribeInstanceStatus cfg id) w).2
    = (h (DescribeInstancesWithContext cfg (aws.StringSlice [id])) w).2.
Proof.
  unfold DescribeInstanceStatus, mbind, prog_bind.
  rewrite run_bind, run_DescribeInstance. cbv zeta.
  destruct (h _ w) as [r w1]. cbn [fst snd].
  match goal with |- context [run h ?p w1] => assert (Hret : exists a, p = Ret a) end.
  { destruct r as [out | e].
    - destruct (ec2.Reservations out) as [|r0 rs]; [eexists; reflexivity|].
      destruct (ec2.Instances r0) as [|i is_]; [eexists; reflexivity|].
      cbn. destruct (ec2.State i); eexists; reflexivity.
    - destruct e; try (eexists; reflexivity).
      destruct (String.eqb code InstanceNotFound); eexists; reflexivity. }
  destruct Hret as [a ->]. split; reflexivity.
Qed.

(** C5: [reconcileDelete] maps the state that [DescribeInstanceStatus]
    returns to its outcome as the deletion protocol says. The only call
    before the branch is the describe call; pending, stopping and
    shutting-down return the requeue-after error of ten seconds and call
    nothing; running and stopped call [TerminateInstances] once and then
    return the same requeue-after error (the error of the call, should it
    fail); terminated returns nil and calls nothing; any other state
    returns the error that names the state. *)
Theorem reconcileDelete_follows_protocol (w w1 : W) (am : AWSMachine) (s : string)
    (p : awsutil.ProviderID) (state : string) (t : list event) :
  ProviderID (Spec am) = Some s ->
  awsutil.ParseProviderID s = (Some p, None) ->
  let cfg := aws.mkConfig (awsutil.Region p) None in
  let name := Name (Meta am) in
  run h (DescribeInstanceStatus cfg (awsutil.InstanceID p)) w = (t, Done (state, None), w1) ->
  calls t = [DescribeInstancesWithContext cfg (aws.StringSlice [awsutil.InstanceID p])] /\
  match deletionProtocol state with
  | RetryAfterDelay =>
      exists format,
        run h (reconcileDelete am) w
          = (t, Done (Some (ErrRequeueAfter (10 * Second) format name)), w1)
  | TerminateThenRetry =>
      let c := TerminateInstances cfg (aws.StringSlice [awsutil.InstanceID p]) in
      let terr : option error := (h c w1).1 in
      run h (reconcileDelete am) w
        = (t ++ [existT c terr],
           Done (Some (match terr with
                       | Some e => e
                       | None => ErrRequeueAfter (10 * Second) "machine %q terminating" name
                       end)),
           (h c w1).2)
  | ProtocolSuccess => run h (reconcileDelete am) w = (t, Done None, w1)
  | FatalUnknownState st =>
      run h (reconcileDelete am) w = (t, Done (Some (ErrUnknownState name st)), w1)
  end.
Proof.
  intros Hid Hparse cfg name Hrun. split.
  { pose proof (run_DescribeInstanceStatus_calls cfg (awsutil.InstanceID p) w) as [Hc _].
    rewrite Hrun in Hc. exact Hc. }
  unfold reconcileDelete. rewrite Hid, Hparse. unfold bindc, mbind, prog_bind.
  fold cfg. rewrite run_bind, Hrun. cbv beta iota. fold name.
  unfold deletionProtocol, ec2.InstanceStateNamePending, ec2.InstanceStateNameStopping,
    ec2.InstanceStateNameRunning, ec2.InstanceStateNameStopped,
    ec2.InstanceStateNameShuttingDown, ec2.InstanceStateNameTerminated, TenSeconds.
  destruct (String.eqb state "pending") eqn:E1.
  { cbn. rewrite app_nil_r. eexists. reflexivity. }
  destruct (String.eqb state "stopping") eqn:E2.
  { cbn. rewrite app_nil_r. eexists. reflexivity. }
  cbn [orb].
  destruct (String.eqb state "running" || String.eqb state "stopped") eqn:E3.
  { unfold TerminateInstance, perform. cbn [bind run]. cbv zeta.
    destruct (h _ w1) as [terr w2]. cbn [fst snd].
    destruct terr; reflexivity. }
  destruct (String.eqb state "shutting-down") eqn:E4.
  { cbn. rewrite app_nil_r. eexists. reflexivity. }
  destruct (String.eqb state "terminated") eqn:E5.
  { cbn. rewrite app_nil_r. reflexivity. }
  cbn. rewrite app_nil_r. reflexivity.
Qed.

End Deletion.

Lemma reconcileDelete_follows_protocol_witness :
  run (withDescribe (describes "running") silent) (controllers.reconcileDelete deletingMachine) tt
  = ([existT (DescribeInstancesWithContext usEast1 [Some "i-0abc"]) (describes "running");
      existT (TerminateInstances usEast1 [Some "i-0abc"]) None],
     Done (Some (ErrRequeueAfter (10 * Second) "machine %q terminating" "worker-0")),
     tt).
Proof.
  exact (proj2 (reconcileDelete_follows_protocol
                  (withDescribe (describes "running") silent) tt tt deletingMachine
                  "aws:///us-east-1a/i-0abc"
                  (awsutil.mkProviderID "us-east-1a" "us-east-1" "i-0abc") "running"
                  [existT (DescribeInstancesWithContext usEast1 [Some "i-0abc"])
                          (describes "running")]
                  eq_refl eq_refl eq_refl)).
Defined.

(** ** The deletion branch of [Reconcile] *)

Section DeletionBranch.
Import machinev1 infrav1 awsec2 controllers.
Context {W : Type} (h : handler W).

(** Whatever [reconcileDelete] returns, the finalizer is removed and the
    record is updated; only a panic prevents it. *)
Lemma Reconcile_deleting (w w1 : W) (req : ObjectKey) (am : AWSMachine) :
  h (ClientGetAWSMachine req) w = (Ok am, w1) ->
  IsZero (DeletionTimestamp (Meta am)) = false ->
  run h (Reconcile req) w =
  let '(t, c, w2) := run h (reconcileDelete am) w1 in
  match c with
  | Panic msg => (existT (ClientGetAWSMachine req) (Ok am) :: t, Panic msg, w2)
  | Done _ =>
      let update := ClientUpdate (controllerutil.RemoveFinalizer am MachineFinalizer) in
      let uerr : option error := (h update w2).1 in
      (existT (ClientGetAWSMachine req) (Ok am) :: t ++ [existT update uerr],
       Done (ResultZero, uerr), (h update w2).2)
  end.
Proof.
  intros Hget Hdel. unfold Reconcile, mbind, prog_bind, perform. cbn [bind run].
  rewrite Hget. cbv beta iota. rewrite Hdel. cbn [negb]. cbv iota.
  unfold bindc, mbind, prog_bind. rewrite run_bind.
  destruct (run h (reconcileDelete am) w1) as [[t c] w2].
  destruct c as [e | msg].
  - cbn [bind run]. destruct (h _ w2) as [uerr w3]. cbn [fst snd].
    destruct uerr; reflexivity.
  - cbn [run]. rewrite app_nil_r. reflexivity.
Qed.

(** C9: a record with a deletion marker and no provider identity makes
    [Reconcile] panic with a nil dereference right after it was read:
    nothing is called, nothing is returned, the finalizer stays. *)
Theorem Reconcile_delete_unlaunched_panics (w w1 : W) (req : ObjectKey) (am : AWSMachine) :
  h (ClientGetAWSMachine req) w = (Ok am, w1) ->
  IsZero (DeletionTimestamp (Meta am)) = false ->
  ProviderID (Spec am) = None ->
  run h (Reconcile req) w
    = ([existT (ClientGetAWSMachine req) (Ok am)], Panic NilDereference, w1).
Proof.
  intros Hget Hdel Hid. rewrite (Reconcile_deleting w w1 req am Hget Hdel).
  unfold reconcileDelete. rewrite Hid. reflexivity.
Qed.

End DeletionBranch.

Lemma Reconcile_delete_unlaunched_panics_witness :
  run (withAWSMachine deletingUnlaunched silent) (controllers.Reconcile worker0) tt
    = ([existT (ClientGetAWSMachine worker0) (Ok deletingUnlaunched)],
       Panic NilDereference, tt).
Proof.
  exact (Reconcile_delete_unlaunched_panics (withAWSMachine deletingUnlaunched silent)
           tt tt worker0 deletingUnlaunched eq_refl eq_refl eq_refl).
Defined.

(** C1 on the code: the record is being deleted, carries the finalizer,
    and the backend describes its instance as running. [Reconcile] calls
    [TerminateInstances] once, and in the same invocation updates the
    record without the finalizer and returns without error and without
    requeue. *)
Theorem Reconcile_running_removes_finalizer :
  let h := withAWSMachine deletingMachine (withDescribe (describes "running") silent) in
  Finalizers (infrav1.Meta deletingMachine) = [infrav1.MachineFinalizer] /\
  calls (run h (controllers.Reconcile worker0) tt).1.1
    = [ ClientGetAWSMachine worker0;
        DescribeInstancesWithContext usEast1 [Some "i-0abc"];
        TerminateInstances usEast1 [Some "i-0abc"];
        ClientUpdate (machineRecord (Some "aws:///us-east-1a/i-0abc") (Some 63700000000)
                                    [] true) ] /\
  (run h (controllers.Reconcile worker0) tt).1.2 = Done (ResultZero, None).
Proof. cbv zeta. repeat split. Qed.

(** ** The [exists] flag that is dropped *)

Section DroppedFlag.
Import machinev1 infrav1 awsec2 controllers.
Context {W : Type} (h : handler W).

Lemma find_no_match (n : Node) (Items : list AWSMachine) :
  Forall (fun m => ProviderID (Spec m) <> Some (NodeProviderID n)) Items ->
  find (fun m => match ProviderID (Spec m) with
                 | Some id => String.eqb id (NodeProviderID n)
                 | None => false
                 end) Items = None.
Proof.
  induction 1 as [|m Items Hm _ IH]; simpl; [reflexivity|].
  destruct (ProviderID (Spec m)) as [id|]; [|exact IH].
  destruct (String.eqb id (NodeProviderID n)) eqn:E; [|exact IH].
  apply String.eqb_eq in E. congruence.
Qed.


End DroppedFlag.


(** The same through [Reconcile]: the deferred patch is sent with the
    record as the panic left it, and the panic goes on. *)
Example Reconcile_not_found_panics :
  let h := withOwner ownerMachine
             (withAWSMachine launchedMachine (withDescribe notFound silent)) in
  calls (run h (controllers.Reconcile worker0) tt).1.1
    = [ ClientGetAWSMachine worker0;
        GetOwnerMachine (infrav1.Meta launchedMachine);
        PatchNewHelper launchedMachine;
        DescribeInstancesWithContext usEast1 [Some "i-0abc"];
        DescribeInstancesWithContext usEast1 [Some "i-0abc"];
        PatchHelperPatch launchedMachine
          (infrav1.setInstanceState
             (controllerutil.AddFinalizer launchedMachine infrav1.MachineFinalizer)
             "terminated") ] /\
  (run h (controllers.Reconcile worker0) tt).1.2 = Panic NilDereference.
Proof. cbv zeta. split; reflexivity. Qed.

(** ** Launching with security group names *)

(** C8 as stated fails: names are supplied, none resolves, and the launch
    succeeds. *)
Lemma launch_succeeds_without_security_group :
  awsec2.nonempty (infrav1.SecurityGroupNames (infrav1.Spec newMachine)) = true /\
  (launchingBackend (securityGroupLookup usEast1 newMachine) tt).1 = Ok [] /\
  (run launchingBackend (awsec2.LaunchInstance usEast1 newMachine "dXNlcg==") tt).1.2
    = Done (Some (instanceIn "pending"), None).
Proof. repeat split. Qed.

Section Launch.
Import machinev1 infrav1 awsec2.
Context {W : Type} (h : handler W).

(** The errors of [LaunchInstance]: those of its three calls, and the two
    it makes itself. *)
Lemma launchInSubnet_errors (cfg : aws.Config) (m : AWSMachine) (userData : string)
    (sgIds : list (option string)) (w w2 : W) (t : list event) (i : option ec2.Instance)
    (e : error) :
  run h (launchInSubnet cfg m userData sgIds) w = (t, Done (i, Some e), w2) ->
  e = ErrCannotDetermineSubnet (VPCID (Spec m)) \/ e = ErrNoInstances \/
  Exists (answeredWith e) t.
Proof.
  unfold launchInSubnet, random. run_simpl. cbv zeta.
  destruct (h _ w) as [sresp w1]. destruct sresp as [Subnets | err].
  - destruct (nonempty Subnets); cbn [negb].
    + destruct (nonempty _); cbn [negb].
      * cbn [bind run]. destruct (h _ w1) as [n w3].
        destruct (_ !! n) as [subnet|]; cbn [bind run].
        -- destruct (h _ w3) as [resp w4]. destruct resp as [[|inst insts] | err];
             cbn [run]; intros H; inversion H; subst; auto.
           right. right. apply Exists_cons_tl, Exists_cons_tl, Exists_cons_hd.
           reflexivity.
        -- intros H; inversion H.
      * cbn [run]. intros H; inversion H; subst; auto.
    + cbn [run]. intros H; inversion H; subst; auto.
  - cbn [run]. intros H; inversion H; subst.
    right. right. apply Exists_cons_hd. reflexivity.
Qed.

(** The errors of [LaunchInstance]: those of its three calls, and the two
    it makes itself. *)
Lemma LaunchInstance_errors (cfg : aws.Config) (m : AWSMachine) (userData : string)
    (w w2 : W) (t : list event) (i : option ec2.Instance) (e : error) :
  run h (LaunchInstance cfg m userData) w = (t, Done (i, Some e), w2) ->
  e = ErrCannotDetermineSubnet (VPCID (Spec m)) \/ e = ErrNoInstances \/
  Exists (answeredWith e) t.
Proof.
  unfold LaunchInstance. cbv zeta.
  destruct (nonempty (SecurityGroupNames (Spec m))).
  - run_simpl. destruct (h _ w) as [resp w1]. destruct resp as [groups | err].
    + destruct (run h (launchInSubnet _ _ _ _) w1) as [[t1 r1] w3] eqn:Hrun.
      intros H; inversion H; subst.
      destruct (launchInSubnet_errors _ _ _ _ _ _ _ _ _ Hrun) as [H1 | [H1 | H1]]; auto.
    + cbn [run]. intros H; inversion H; subst.
      right. right. apply Exists_cons_hd. reflexivity.
  - apply launchInSubnet_errors.
Qed.

(** C8, as the code has it: when names are supplied and none resolves,
    the launch goes on as a launch without names does (the ids given in
    the record are kept); and whenever [LaunchInstance] returns an error,
    it is the error of one of its calls, or the subnet error, or the
    no-instances error: there is no error for security groups. *)
Theorem launch_unresolved_names (cfg : aws.Config) (m : AWSMachine) (userData : string) :
  (forall w w1 : W,
     nonempty (SecurityGroupNames (Spec m)) = true ->
     h (securityGroupLookup cfg m) w = (Ok [], w1) ->
     run h (LaunchInstance cfg m userData) w =
     let '(t, r, w2) := run h (LaunchInstance cfg (withoutSecurityGroupNames m) userData) w1 in
     (existT (securityGroupLookup cfg m) (Ok []) :: t, r, w2)) /\
  (forall (w w2 : W) t i e,
     run h (LaunchInstance cfg m userData) w = (t, Done (i, Some e), w2) ->
     e = ErrCannotDetermineSubnet (VPCID (Spec m)) \/ e = ErrNoInstances \/
     Exists (answeredWith e) t).
Proof.
  split; [|intros w w2 t i e; apply LaunchInstance_errors].
  intros w w1 Hnames Hlookup. unfold LaunchInstance. cbv zeta.
  cbn [Spec withoutSecurityGroupNames SecurityGroupNames SecurityGroupIDs nonempty].
  rewrite Hnames. unfold securityGroupLookup in Hlookup. run_simpl.
  rewrite Hlookup. cbn [fmap list_fmap]. rewrite app_nil_r. reflexivity.
Qed.

End Launch.

Lemma launch_unresolved_names_witness :
  run launchingBackend (awsec2.LaunchInstance usEast1 newMachine "dXNlcg==") tt =
  (let '(t, r, w2) :=
     run launchingBackend
       (awsec2.LaunchInstance usEast1 (withoutSecurityGroupNames newMachine) "dXNlcg==") tt in
   (existT (securityGroupLookup usEast1 newMachine) (Ok []) :: t, r, w2)) /\
  (ErrNoInstances = ErrCannotDetermineSubnet "vpc-1" \/ ErrNoInstances = ErrNoInstances \/
   Exists (answeredWith ErrNoInstances)
     (run (withSubnets (Ok [privateSubnet]) silent)
          (awsec2.LaunchInstance usEast1 newMachine "dXNlcg==") tt).1.1).
Proof.
  split.
  - exact (proj1 (launch_unresolved_names launchingBackend usEast1 newMachine "dXNlcg==")
             tt tt eq_refl eq_refl).
  - exact (proj2 (launch_unresolved_names (withSubnets (Ok [privateSubnet]) silent)
                    usEast1 newMachine "dXNlcg==")
             tt tt _ None ErrNoInstances eq_refl).
Defined.

(** ** Records that are already provisioned *)

Section Provisioned.
Import machinev1 infrav1 awsec2 controllers.

Lemma AddFinalizer_finalizers (am : AWSMachine) :
  Finalizers (Meta (controllerutil.AddFinalizer am MachineFinalizer))
    = addFinalizer (Finalizers (Meta am)).
Proof.
  unfold controllerutil.AddFinalizer, addFinalizer.
  destruct (controllerutil.containsString _ _); reflexivity.
Qed.

Lemma addFinalizer_In (f : list string) : In MachineFinalizer (addFinalizer f).
Proof.
  unfold addFinalizer, controllerutil.containsString.
  destruct (existsb _ f) eqn:E.
  - apply existsb_exists in E as (x & Hx & Heq). apply String.eqb_eq in Heq. congruence.
  - apply in_or_app. right. left. reflexivity.
Qed.

Lemma addFinalizer_idem (f : list string) : addFinalizer (addFinalizer f) = addFinalizer f.
Proof.
  unfold addFinalizer at 1. unfold controllerutil.containsString.
  destruct (existsb _ (addFinalizer f)) eqn:E; [reflexivity|].
  assert (H : existsb (String.eqb MachineFinalizer) (addFinalizer f) = true);
    [|congruence].
  apply existsb_exists. exists MachineFinalizer.
  split; [apply addFinalizer_In | apply String.eqb_refl].
Qed.

Lemma refreshed_refl (am : AWSMachine) : refreshed am am.
Proof. unfold refreshed. repeat split; auto. Qed.

Lemma refreshed_AddFinalizer (am0 am : AWSMachine) :
  refreshed am0 am -> refreshed am0 (controllerutil.AddFinalizer am MachineFinalizer).
Proof.
  intros (H1 & H2 & H3 & H4 & H5 & H6 & H7 & H8 & H9).
  unfold refreshed. rewrite AddFinalizer_finalizers.
  assert (Hf : addFinalizer (Finalizers (Meta am)) = addFinalizer (Finalizers (Meta am0))).
  { destruct H7 as [-> | ->]; [reflexivity | apply addFinalizer_idem]. }
  unfold controllerutil.AddFinalizer.
  destruct (controllerutil.containsString _ _); cbn; repeat split; auto.
Qed.

Lemma refreshed_setters (am0 am : AWSMachine) :
  refreshed am0 am ->
  (forall s, refreshed am0 (setInstanceState am s)) /\
  (forall a, refreshed am0 (setAddresses am a)) /\
  (forall b, refreshed am0 (setReady am b)).
Proof. intros H. repeat split; apply H. Qed.

Ltac safe_step :=
  match goal with
  | |- safe _ _ _ (Ret _) => apply safe_ret
  | |- safe _ _ _ (Call _ _) => apply safe_call; [|intros ? ?]
  | |- safe _ _ _ (match ?x with _ => _ end) => destruct x eqn:?
  end.

Lemma safe_DescribeInstance R (G : call -> Prop) (cfg : aws.Config) (id : string) :
  (forall cfg ids, G (DescribeInstancesWithContext cfg ids)) ->
  safe R G (fun _ => True) (DescribeInstance cfg id).
Proof.
  intros HG. unfold DescribeInstance, mbind, prog_bind, perform. cbn [bind].
  apply safe_call; [apply HG|]. intros r _.
  repeat (safe_step; auto).
Qed.

Lemma safe_DescribeInstanceStatus R (G : call -> Prop) (cfg : aws.Config) (id : string) :
  (forall cfg ids, G (DescribeInstancesWithContext cfg ids)) ->
  safe R G (fun _ => True) (DescribeInstanceStatus cfg id).
Proof.
  intros HG. unfold DescribeInstanceStatus, mbind, prog_bind.
  apply safe_bind with (Q1 := fun _ => True); [apply safe_DescribeInstance; exact HG|].
  intros [[instance exists_] err] _. repeat (safe_step; auto).
Qed.

(** What [reconcileStatus] calls and what it leaves of the record. *)
Lemma safe_reconcileStatus R (G : call -> Prop) (P : AWSMachine -> Prop) (am : AWSMachine) :
  (forall cfg ids, G (DescribeInstancesWithContext cfg ids)) ->
  P am ->
  (forall a s, P a -> P (setInstanceState a s)) ->
  (forall a l, P a -> P (setAddresses a l)) ->
  (forall a b, P a -> P (setReady a b)) ->
  safe R G (fun x => P x.1) (reconcileStatus am).
Proof.
  intros HG HP Hstate Haddr Hready.
  unfold reconcileStatus, mbind, prog_bind.
  destruct (ProviderID (Spec am)) as [s|]; [|apply safe_ret; exact HP].
  destruct (awsutil.ParseProviderID s) as [[p|] [err|]]; try (apply safe_ret; exact HP).
  apply safe_bind with (Q1 := fun _ => True);
    [apply safe_DescribeInstanceStatus; exact HG|].
  intros [[state [err|]] | msg] _; try (apply safe_ret; exact HP).
  destruct (negb _); [|apply safe_ret; cbn [fst]; auto].
  apply safe_bind with (Q1 := fun _ => True); [apply safe_DescribeInstance; exact HG|].
  intros [[instance exists_] [err|]] _; [apply safe_ret; cbn [fst]; auto|].
  destruct (getInstanceAddresses instance); apply safe_ret; cbn [fst]; auto.
Qed.

(** An invocation on a stored record that is provisioned, not deleted and
    not failed reads, describes and patches, and patches a refreshed
    record. *)
Lemma safe_Reconcile_provisioned (am0 : AWSMachine) (id : string) (req : ObjectKey) :
  ProviderID (Spec am0) = Some id ->
  IsZero (DeletionTimestamp (Meta am0)) = true ->
  FailureMessage (Status am0) = None ->
  safe (answersRefreshed am0) (callsRefreshed am0) (fun _ => True) (Reconcile req).
Proof.
  intros Hid Hdel Hfail. unfold Reconcile, mbind, prog_bind, perform. cbn [bind].
  apply safe_call; [repeat split|]. intros [am | err] Hr.
  2: { destruct (IsNotFound err); apply safe_ret; exact I. }
  cbn in Hr. pose proof Hr as (_ & Hspec & _ & _ & Hd & _ & _ & _ & Hf).
  rewrite Hd, Hdel, Hf, Hfail. cbn [negb]. cbv iota.
  rewrite bool_decide_eq_false_2 by (intros H; apply H; reflexivity).
  apply safe_call; [repeat split|]. intros [[m|] | err] _; try (apply safe_ret; exact I).
  apply safe_call; [repeat split|]. intros [err|] _; [apply safe_ret; exact I|].
  unfold deferPatch, mbind, prog_bind.
  apply safe_bind with (Q1 := fun x => refreshed am0 x.1).
  - unfold ReconcileBody.
    assert (Hp : ProviderID (Spec (controllerutil.AddFinalizer am MachineFinalizer))
                 = Some id).
    { unfold controllerutil.AddFinalizer.
      destruct (controllerutil.containsString _ _); cbn; congruence. }
    rewrite Hp. unfold mbind, prog_bind.
    apply safe_bind with (Q1 := fun x => refreshed am0 x.1).
    + apply safe_reconcileStatus.
      * intros cfg ids. repeat split.
      * apply refreshed_AddFinalizer. exact Hr.
      * intros a s Ha. apply (refreshed_setters am0 a Ha).
      * intros a l Ha. apply (refreshed_setters am0 a Ha).
      * intros a b Ha. apply (refreshed_setters am0 a Ha).
    + intros [am' c] Ham'. cbn [fst] in Ham'.
      destruct c as [[e|] | msg]; apply safe_ret; exact Ham'.
  - intros [am' c] Ham'. cbn [fst] in Ham'. unfold perform. cbn [bind].
    apply safe_call; [split; [reflexivity | split; [reflexivity | exact Ham']]|].
    intros perr _.
    destruct c as [[res reterr] | msg]; [|apply safe_ret; exact I].
    destruct perr, reterr; apply safe_ret; exact I.
Qed.

(** The API server answers a read with the stored record and stores what
    a patch carries. *)
Lemma apiServer_refreshed {O : Type} (env : handler O) (am0 : AWSMachine) (c : call)
    (w : cluster O) :
  refreshed am0 (stored w) -> callsRefreshed am0 c ->
  answersRefreshed am0 c (apiServer env c w).1 /\ refreshed am0 (stored (apiServer env c w).2).
Proof.
  intros Hw (Hc & _ & Hpatch).
  destruct c; try discriminate; cbn [apiServer answersRefreshed];
    destruct (env _ (outside w)) as [r o]; cbn [fst snd stored]; auto.
  - destruct r; auto.
  - destruct r; auto.
Qed.

(** C4: on a stored record with a provider identity, no deletion marker
    and no failure message, any number of invocations of [Reconcile], in
    any environment, call nothing of [LaunchInstance] (they read the
    record and its owner, describe the instance and patch the record), and
    leave the stored record as it was but for the observed status and the
    finalizer: its [Spec], and with it the provider identity, is
    unchanged. *)
Theorem provisioned_never_relaunched {O : Type} (env : handler O) (req : ObjectKey) (n : nat)
    (am : AWSMachine) (id : string) (o : O) :
  ProviderID (Spec am) = Some id ->
  IsZero (DeletionTimestamp (Meta am)) = true ->
  FailureMessage (Status am) = None ->
  let result := reconcileTimes (apiServer env) req n (mkCluster am o) in
  Forall (fun c => launchCall c = false /\ refreshCall c = true) (calls result.1) /\
  ProviderID (Spec (stored result.2)) = Some id /\
  refreshed am (stored result.2).
Proof.
  intros Hid Hdel Hfail. cbv zeta.
  assert (H : forall w, refreshed am (stored w) ->
            Forall (fun c => launchCall c = false /\ refreshCall c = true)
                   (calls (reconcileTimes (apiServer env) req n w).1) /\
            refreshed am (stored (reconcileTimes (apiServer env) req n w).2)).
  { induction n as [|n IH]; intros w Hw; cbn [reconcileTimes].
    - split; [constructor | exact Hw].
    - pose proof (safe_run (apiServer env) _ _ _ (fun w => refreshed am (stored w))
                    (Reconcile req) (fun c w => apiServer_refreshed env am c w)
                    (safe_Reconcile_provisioned am id req Hid Hdel Hfail) w Hw)
        as (Hcalls & _ & Hw1).
      destruct (run (apiServer env) (Reconcile req) w) as [[t c] w1]. cbn [fst snd] in *.
      destruct (IH w1 Hw1) as [Hcalls' Hw2].
      destruct (reconcileTimes (apiServer env) req n w1) as [t' w2]. cbn [fst snd] in *.
      split; [|exact Hw2].
      unfold calls in *. rewrite fmap_app. apply Forall_app. split; [|exact Hcalls'].
      eapply Forall_impl; [exact Hcalls|]. intros c0 (H1 & H2 & _). auto. }
  destruct (H (mkCluster am o) (refreshed_refl am)) as [Hc Hr].
  split; [exact Hc|]. split; [|exact Hr].
  destruct Hr as (_ & -> & _). exact Hid.
Qed.

(** *** The finalizer *)

Lemma safe_any {A : Type} (p : prog A) :
  safe (fun _ _ => True) (fun _ => True) (fun _ => True) p.
Proof. induction p; constructor; auto. Qed.

(** [ReconcileBody] leaves the finalizers as they are, however it ends. *)
Lemma ReconcileBody_finalizers (am : AWSMachine) (m : Machine) :
  safe (fun _ _ => True) (fun _ => True)
       (fun x => Finalizers (Meta x.1) = Finalizers (Meta am)) (ReconcileBody am m).
Proof.
  assert (Hrefresh : forall a : AWSMachine,
            Finalizers (Meta a) = Finalizers (Meta am) ->
            safe (fun _ _ => True) (fun _ => True)
              (fun x => Finalizers (Meta x.1) = Finalizers (Meta am))
              (bind (reconcileStatus a)
                 (fun '(am, c) =>
                    match c with
                    | Panic msg => Ret (am, Panic msg)
                    | Done (Some err) => Ret (am, Done (ResultZero, Some err))
                    | Done None => Ret (am, Done (ResultZero, None))
                    end))).
  { intros a Ha.
    apply safe_bind
      with (Q1 := fun x : AWSMachine * completion (option error) =>
                    Finalizers (Meta x.1) = Finalizers (Meta am)).
    - apply (safe_reconcileStatus _ _ (fun a => Finalizers (Meta a) = Finalizers (Meta am)));
        auto.
    - intros [a' c] Ha'. destruct c as [[e|] | msg]; apply safe_ret; exact Ha'. }
  unfold ReconcileBody. cbv zeta. unfold mbind, prog_bind, perform.
  destruct (ProviderID (Spec am)); [apply Hrefresh; reflexivity|].
  cbn [bind]. apply safe_call; [exact I|]. intros [cfg | err] _; [|apply safe_ret; reflexivity].
  destruct (negb (machinev1.Ready cfg)); [apply safe_ret; reflexivity|].
  destruct (DataSecretName cfg) as [secretName|]; [|apply safe_ret; reflexivity].
  cbn [bind]. apply safe_call; [exact I|]. intros [s | err] _; [|apply safe_ret; reflexivity].
  destruct (Data s !! "cloud-config") as [userData|]; [|apply safe_ret; reflexivity].
  apply safe_bind with (Q1 := fun _ => True); [apply safe_any|].
  intros [awscfg | err] _; [|apply safe_ret; reflexivity].
  cbn [bind]. apply safe_call; [exact I|]. intros [data | err] _; [|apply safe_ret; reflexivity].
  cbn [bind]. apply safe_call; [exact I|]. intros encoded _.
  apply safe_bind with (Q1 := fun _ => True); [apply safe_any|].
  intros [[[instance|] [err|]] | msg] _; try (apply safe_ret; reflexivity).
  destruct (ec2.InstancePlacement instance); [|apply safe_ret; reflexivity].
  cbn [getInstanceAddresses]. apply Hrefresh. reflexivity.
Qed.

(** C6: an invocation that gets past the deletion, failure and owner
    checks makes its patch helper and then adds the finalizer, before any
    branch: if the helper cannot be made, the invocation returns that
    error and calls nothing more; otherwise the branches of [Reconcile]
    run on the record with the finalizer, the patch sent at the end
    carries the finalizers of that record whatever the branch did and
    however it ended, and when the invocation returns without error the
    stored record has the finalizer. *)
Theorem finalizer_added_first {O : Type} (env : handler O) (req : ObjectKey)
    (w w1 w2 : cluster O) (am : AWSMachine) (m : Machine) :
  let h := apiServer env in
  h (ClientGetAWSMachine req) w = (Ok am, w1) ->
  IsZero (DeletionTimestamp (Meta am)) = true ->
  FailureMessage (Status am) = None ->
  h (GetOwnerMachine (Meta am)) w1 = (Ok (Some m), w2) ->
  let checks := [ClientGetAWSMachine req; GetOwnerMachine (Meta am); PatchNewHelper am] in
  let out := run h (Reconcile req) w in
  match (h (PatchNewHelper am) w2).1 with
  | Some err => calls out.1.1 = checks /\ out.1.2 = Done (ResultZero, Some err)
  | None =>
      let am1 := controllerutil.AddFinalizer am MachineFinalizer in
      let body := run h (ReconcileBody am1 m) (h (PatchNewHelper am) w2).2 in
      let am' := body.1.2.1 in
      In MachineFinalizer (Finalizers (Meta am1)) /\
      Finalizers (Meta am') = Finalizers (Meta am1) /\
      calls out.1.1 = checks ++ calls body.1.1 ++ [PatchHelperPatch am am'] /\
      (forall res, out.1.2 = Done (res, None) ->
         In MachineFinalizer (Finalizers (Meta (stored out.2))))
  end.
Proof.
  intros h Hget Hdel Hfail Howner checks out.
  assert (Hout : out =
            let '(herr, w3) := h (PatchNewHelper am) w2 in
            let '(t, r, w4) :=
              run h (match herr with
                     | Some err => Ret (Done (ResultZero, Some err))
                     | None =>
                         deferPatch am
                           (ReconcileBody (controllerutil.AddFinalizer am MachineFinalizer) m)
                     end) w3 in
            (existT (ClientGetAWSMachine req) (Ok am)
             :: existT (GetOwnerMachine (Meta am)) (Ok (Some m))
             :: existT (PatchNewHelper am) herr :: t, r, w4)).
  { unfold out, Reconcile, mbind, prog_bind, perform. cbn [bind run].
    rewrite Hget. cbv beta iota. rewrite Hdel, Hfail. cbn [negb]. cbv iota.
    rewrite bool_decide_eq_false_2 by (intros H; apply H; reflexivity).
    cbn [bind run]. rewrite Howner. cbv beta iota. cbn [bind run].
    destruct (h (PatchNewHelper am) w2) as [herr w3].
    destruct (run h _ w3) as [[t r] w4]. reflexivity. }
  rewrite Hout. clear Hout out.
  destruct (h (PatchNewHelper am) w2) as [[err|] w3]; cbn [fst snd].
  { cbn [run]. split; reflexivity. }
  set (am1 := controllerutil.AddFinalizer am MachineFinalizer).
  assert (Ham1 : In MachineFinalizer (Finalizers (Meta am1))).
  { unfold am1. rewrite AddFinalizer_finalizers. apply addFinalizer_In. }
  pose proof (safe_run h _ _ _ (fun _ => True) (ReconcileBody am1 m)
                (fun c w _ _ => conj I I) (ReconcileBody_finalizers am1 m) w3 I)
    as (_ & Ham' & _).
  split; [exact Ham1|]. split; [exact Ham'|].
  unfold deferPatch, mbind, prog_bind, perform. rewrite run_bind.
  destruct (run h (ReconcileBody am1 m) w3) as [[t [a c]] w4]. cbn [fst snd] in *.
  cbn [bind run].
  destruct (env (PatchHelperPatch am a) (outside w4)) as [perr o5] eqn:Henv.
  assert (Hpatch : h (PatchHelperPatch am a) w4
                   = (perr, mkCluster (match perr with
                                       | None => a
                                       | Some _ => stored w4
                                       end) o5)).
  { unfold h. cbn [apiServer]. rewrite Henv. reflexivity. }
  rewrite Hpatch. clear Hpatch Henv.
  assert (Hcalls : forall t0 : list event,
            calls (existT (ClientGetAWSMachine req) (Ok am)
                   :: existT (GetOwnerMachine (Meta am)) (Ok (Some m))
                   :: existT (PatchNewHelper am) None
                   :: t ++ existT (PatchHelperPatch am a) perr :: t0)
            = checks ++ calls t ++ PatchHelperPatch am a :: calls t0).
  { intros t0. unfold calls. rewrite !fmap_cons, fmap_app. reflexivity. }
  destruct c as [[res' reterr] | msg].
  - destruct perr as [e|], reterr as [e'|]; cbn [run fst snd];
      (split; [apply (Hcalls [])|]); intros res Hres; try discriminate.
    change (In MachineFinalizer (Finalizers (Meta a))). rewrite Ham'. exact Ham1.
  - cbn [run fst snd]. split; [apply (Hcalls [])|]. intros res Hres. discriminate.
Qed.

End Provisioned.

Lemma provisioned_never_relaunched_witness :
  let result := reconcileTimes (apiServer running) worker0 2 (mkCluster launchedMachine tt) in
  Forall (fun c => launchCall c = false /\ refreshCall c = true) (calls result.1) /\
  infrav1.ProviderID (infrav1.Spec (stored result.2)) = Some "aws:///us-east-1a/i-0abc" /\
  refreshed launchedMachine (stored result.2).
Proof.
  exact (provisioned_never_relaunched running worker0 2 launchedMachine
           "aws:///us-east-1a/i-0abc" tt eq_refl eq_refl eq_refl).
Defined.

(** Two invocations on the launched record: the first fills in the
    addresses, the second only the state. *)
Example reconcile_twice :
  let result := reconcileTimes (apiServer running) worker0 2 (mkCluster launchedMachine tt) in
  let refreshedMachine :=
    infrav1.setReady
      (infrav1.setAddresses
         (infrav1.setInstanceState
            (controllerutil.AddFinalizer launchedMachine infrav1.MachineFinalizer) "running")
         [ {| machinev1.Type_ := machinev1.MachineInternalDNS;
              machinev1.Address := "ip-10-0-0-7.ec2.internal" |};
           {| machinev1.Type_ := machinev1.MachineInternalIP;
              machinev1.Address := "10.0.0.7" |} ])
      true in
  calls result.1
    = [ ClientGetAWSMachine worker0; GetOwnerMachine (infrav1.Meta launchedMachine);
        PatchNewHelper launchedMachine;
        DescribeInstancesWithContext usEast1 [Some "i-0abc"];
        DescribeInstancesWithContext usEast1 [Some "i-0abc"];
        PatchHelperPatch launchedMachine refreshedMachine;
        ClientGetAWSMachine worker0; GetOwnerMachine (infrav1.Meta refreshedMachine);
        PatchNewHelper refreshedMachine;
        DescribeInstancesWithContext usEast1 [Some "i-0abc"];
        PatchHelperPatch refreshedMachine refreshedMachine ] /\
  stored result.2 = refreshedMachine.
Proof. cbv zeta. split; reflexivity. Qed.

(** C6 as stated fails: the first reconciliation of a record whose owner
    is not set yet returns without error, writes nothing and leaves the
    stored record without the finalizer, and so does every later one
    while the owner is not set; the same holds of a record with a failure
    message, whose owner is set. *)
Lemma first_reconciliation_without_finalizer :
  (run (apiServer ownerless) (controllers.Reconcile worker0) (mkCluster newMachine tt)).1.2
    = Done (ResultZero, None) /\
  calls (run (apiServer ownerless) (controllers.Reconcile worker0)
           (mkCluster newMachine tt)).1.1
    = [ClientGetAWSMachine worker0; GetOwnerMachine (infrav1.Meta newMachine)] /\
  Finalizers (infrav1.Meta
    (stored (run (apiServer ownerless) (controllers.Reconcile worker0)
               (mkCluster newMachine tt)).2)) = [] /\
  Finalizers (infrav1.Meta
    (stored (reconcileTimes (apiServer ownerless) worker0 5 (mkCluster newMachine tt)).2))
    = [] /\
  (run (apiServer failed) (controllers.Reconcile worker0) (mkCluster failedMachine tt)).1.2
    = Done (ResultZero, None) /\
  Finalizers (infrav1.Meta
    (stored (run (apiServer failed) (controllers.Reconcile worker0)
               (mkCluster failedMachine tt)).2)) = [].
Proof. repeat split. Qed.

Lemma finalizer_added_first_witness :
  let h := apiServer provisioning in
  let w := mkCluster newMachine tt in
  In infrav1.MachineFinalizer
     (Finalizers (infrav1.Meta
        (controllerutil.AddFinalizer newMachine infrav1.MachineFinalizer))) /\
  In infrav1.MachineFinalizer
     (Finalizers (infrav1.Meta (stored (run h (controllers.Reconcile worker0) w).2))).
Proof.
  cbv zeta.
  pose proof (finalizer_added_first provisioning worker0
                (mkCluster newMachine tt) (mkCluster newMachine tt)
                (mkCluster newMachine tt)
                newMachine ownerMachine eq_refl eq_refl eq_refl eq_refl)
    as (H1 & _ & _ & H4).
  split; [exact H1 | exact (H4 ResultZero eq_refl)].
Defined.

(** The first invocation on a new record: the config and the secret are
    read, the instance is launched, and the patch carries the finalizer,
    the provider identity, the addresses and the state. *)
Example reconcile_new_machine :
  let out := run (apiServer provisioning) (controllers.Reconcile worker0)
                 (mkCluster newMachine tt) in
  out.1.2 = Done (ResultZero, None) /\
  Finalizers (infrav1.Meta (stored out.2)) = [infrav1.MachineFinalizer] /\
  infrav1.ProviderID (infrav1.Spec (stored out.2)) = Some "aws:///us-east-1a/i-0abc" /\
  infrav1.Ready (infrav1.Status (stored out.2)) = true /\
  infrav1.InstanceState (infrav1.Status (stored out.2)) = "pending" /\
  length (infrav1.Addresses (infrav1.Status (stored out.2))) = 2%nat /\
  Forall (fun c => refreshCall c = true \/ launchCall c = true \/
                   c = ClientGetConfig {| keyNamespace := "kube-system";
                                          keyName := "worker-0-config" |} \/
                   c = ClientGetSecret {| keyNamespace := "kube-system";
                                          keyName := "worker-0-data" |} \/
                   c = GzipWrite "#cloud-config" \/
                   c = Base64EncodeToString "#cloud-config")
         (calls out.1.1).
Proof.
  cbv zeta. repeat split. vm_compute.
  repeat (apply List.Forall_cons; [tauto|]). apply List.Forall_nil.
Qed.

(** * Further properties of the code *)

(** ** The codec *)

Section CodecMore.
Import regexp awsutil.

Lemma MatchString_Class (p : ascii -> bool) (s : string) :
  MatchString (Class p) s = true <-> exists c, s = String c "" /\ p c = true.
Proof.
  rewrite MatchString_lang. split.
  - inversion 1; subst. eauto.
  - intros (c & -> & Hc). constructor. exact Hc.
Qed.

Lemma ReplaceAllSuffix_Class (p : ascii -> bool) (t : string) (c : ascii) :
  ReplaceAllSuffix (Class p) (t +:+ String c "")
    = if p c then t else t +:+ String c "".
Proof.
  induction t as [|x t IH].
  - cbn. destruct (p c); reflexivity.
  - change (String x t +:+ String c "") with (String x (t +:+ String c "")).
    cbn [ReplaceAllSuffix].
    destruct (MatchString (Class p) (String x (t +:+ String c ""))) eqn:E.
    + apply MatchString_Class in E as (d & Hd & _). destruct t; discriminate.
    + rewrite IH. destruct (p c); reflexivity.
Qed.

(** X1: [ParseRegionFromAZ] cuts off a last byte that is a lower-case letter
    and nothing else: [us-east-1a] gives [us-east-1], and a string that
    ends in another byte, or the empty string, is returned as it is. *)
Theorem ParseRegionFromAZ_drops_zone_letter :
  ParseRegionFromAZ "" = "" /\
  forall (t : string) (c : ascii),
    ParseRegionFromAZ (t +:+ String c "")
      = if is_lower c then t else t +:+ String c "".
Proof.
  split; [reflexivity|]. intros t c. apply ReplaceAllSuffix_Class.
Qed.

Lemma Join_Split (s : string) (sep : ascii) : Join (gostrings.Split s sep) sep = s.
Proof.
  induction s as [|c s IH]; [reflexivity|]. cbn [gostrings.Split].
  destruct (Ascii.eqb c sep) eqn:E.
  - apply Ascii.eqb_eq in E as ->.
    pose proof (Split_nonempty s sep) as Hne.
    destruct (gostrings.Split s sep) as [|x l]; [congruence|].
    cbn [Join] in *. cbn. rewrite IH. reflexivity.
  - destruct (gostrings.Split s sep) as [|x l]; [discriminate IH || (cbn in IH; subst; reflexivity)|].
    destruct l; cbn [Join] in *; cbn; rewrite IH; reflexivity.
Qed.

Lemma Split_pieces (s : string) (sep : ascii) :
  Forall (fun piece => gostrings.ContainsByte piece sep = false) (gostrings.Split s sep).
Proof.
  induction s as [|c s IH]; cbn [gostrings.Split].
  - repeat constructor.
  - destruct (Ascii.eqb c sep) eqn:E.
    + constructor; [reflexivity | exact IH].
    + destruct (gostrings.Split s sep) as [|x l]; [repeat constructor; cbn; rewrite E; reflexivity|].
      inversion IH; subst. constructor; [|assumption].
      cbn. rewrite E. assumption.
Qed.

Lemma Join_app_two (init : list string) (a b : string) (sep : ascii) :
  init <> [] ->
  Join (init ++ [a; b]) sep = Join init sep +:+ String sep a +:+ String sep b.
Proof.
  induction init as [|x init IH]; [congruence|]. intros _.
  destruct init as [|y init].
  - reflexivity.
  - change (Join ((x :: y :: init) ++ [a; b]) sep)
      with (x +:+ String sep (Join ((y :: init) ++ [a; b]) sep)).
    rewrite IH by discriminate.
    change (Join (x :: y :: init) sep) with (x +:+ String sep (Join (y :: init) sep)).
    rewrite append_assoc. reflexivity.
Qed.

Lemma last_two {A : Type} (l : list A) :
  (3 <= length l)%nat -> exists init a b, l = init ++ [a; b] /\ init <> [].
Proof.
  intros Hl. destruct (rev l) as [|b [|a r]] eqn:E.
  - apply (f_equal (@length A)) in E. rewrite length_rev in E. simpl in E. lia.
  - apply (f_equal (@length A)) in E. rewrite length_rev in E. simpl in E. lia.
  - exists (rev r), a, b. split.
    + rewrite <- (rev_involutive l), E. cbn [rev]. rewrite <- app_assoc. reflexivity.
    + intros Hr. apply (f_equal (@length A)) in E. rewrite length_rev in E.
      apply (f_equal (@length A)) in Hr. rewrite length_rev in Hr. simpl in *. lia.
Qed.

(** X2: What a successful [ParseProviderID] returns: the identity ends in
    [/<zone>/<id>] for the zone and the id returned, neither holds a
    slash, the id is not empty, and the region is the zone without its
    letter. Nothing before the zone is kept. *)
Theorem ParseProviderID_fields (s : string) (p : ProviderID) :
  ParseProviderID s = (Some p, None) ->
  (exists front, s = front +:+ String "/" (AvailabilityZone p)
                        +:+ String "/" (InstanceID p)) /\
  gostrings.ContainsByte (AvailabilityZone p) "/" = false /\
  gostrings.ContainsByte (InstanceID p) "/" = false /\
  InstanceID p <> "" /\
  Region p = ParseRegionFromAZ (AvailabilityZone p).
Proof.
  unfold ParseProviderID. destruct (VerifyProviderID s) eqn:Hv; [|discriminate].
  cbn [negb]. intros H. injection H as <-. cbn [AvailabilityZone InstanceID Region].
  destruct (last_two _ (Split_verified_length s Hv)) as (init & a & b & Hss & Hinit).
  pose proof (Split_pieces s "/") as Hpieces.
  pose proof (Join_Split s "/") as Hjoin.
  rewrite Hss in *. rewrite length_app. cbn [length].
  replace (length init + 2 - 2)%nat with (length init) by lia.
  replace (length init + 2 - 1)%nat with (S (length init)) by lia.
  rewrite !app_nth2 by lia.
  replace (length init - length init)%nat with 0%nat by lia.
  replace (S (length init) - length init)%nat with 1%nat by lia.
  cbn [nth].
  apply Forall_app in Hpieces as [_ Hab].
  apply Forall_cons in Hab as [Ha Hab]. apply Forall_cons in Hab as [Hb _].
  rewrite (Join_app_two init a b "/" Hinit) in Hjoin.
  repeat split; auto.
  - exists (Join init "/"). symmetry. exact Hjoin.
  - intros ->. pose proof (verified_no_trailing_slash s Hv) as Hslash.
    rewrite <- Hjoin in Hslash.
    change (Join init "/" +:+ String "/" a +:+ String "/" "")
      with (Join init "/" +:+ (String "/" a +:+ String "/" "")) in Hslash.
    rewrite <- append_assoc, HasSuffixByte_append in Hslash. discriminate.
Qed.

Lemma allBytes_append (p : ascii -> bool) (a b : string) :
  allBytes p (a +:+ b) = allBytes p a && allBytes p b.
Proof.
  induction a as [|c a IH]; [reflexivity|]. cbn. rewrite IH. apply andb_assoc.
Qed.

Lemma string_last (s : string) : s <> "" -> exists front c, s = front +:+ String c "".
Proof.
  induction s as [|x s IH]; [congruence|]. intros _.
  destruct s as [|y s].
  - exists "", x. reflexivity.
  - destruct IH as (front & c & ->); [discriminate|].
    exists (String x front), c. reflexivity.
Qed.

(** X3: Formatting and then parsing: a zone and an id without slash and
    without newline, the id not empty, give an identity that
    [ParseProviderID] accepts and takes apart into the same zone and id. *)
Theorem parse_format_roundtrip (az id : string) :
  gostrings.ContainsByte az "/" = false ->
  gostrings.ContainsByte id "/" = false ->
  allBytes (notByte "010") az = true ->
  allBytes (notByte "010") id = true ->
  id <> "" ->
  ParseProviderID (formatProviderID az id)
    = (Some {| AvailabilityZone := az; Region := ParseRegionFromAZ az; InstanceID := id |},
       None).
Proof.
  intros Haz Hid Hnaz Hnid Hne.
  assert (Hv : VerifyProviderID (formatProviderID az id) = true).
  { destruct (string_last id Hne) as (id' & c & Hsplit).
    apply VerifyProviderID_shape. exists "aws", ("/" +:+ az +:+ "/" +:+ id'), c.
    rewrite Hsplit in Hid, Hnid |- *. rewrite allBytes_append in Hnid.
    apply andb_true_iff in Hnid as [Hnid' _].
    repeat split.
    - unfold formatProviderID. cbn. rewrite !append_assoc. reflexivity.
    - discriminate.
    - change ("/" +:+ az +:+ "/" +:+ id') with (String "/" (az +:+ String "/" id')).
      cbn [allBytes]. rewrite allBytes_append. cbn [allBytes].
      rewrite Hnaz, Hnid'. reflexivity.
    - intros ->. clear -Hid. induction id' as [|x l IH]; cbn in Hid; [discriminate|].
      apply orb_false_iff in Hid as [_ Hid]. auto. }
  unfold ParseProviderID. rewrite Hv. cbn [negb].
  assert (Hsplit : gostrings.Split (formatProviderID az id) "/" = ["aws:"; ""; ""; az; id]).
  { unfold formatProviderID.
    change ("aws:///" +:+ az +:+ "/" +:+ id)
      with ("aws:" +:+ String "/" ("" +:+ String "/" ("" +:+ String "/" (az +:+ String "/" id)))).
    rewrite !Split_cons by (reflexivity || assumption).
    rewrite (Split_whole id "/" Hid). reflexivity. }
  rewrite Hsplit. reflexivity.
Qed.

Lemma parse_format_roundtrip_witness :
  ParseProviderID (formatProviderID "eu-west-2b" "i-0f3")
    = (Some {| AvailabilityZone := "eu-west-2b"; Region := "eu-west-2";
               InstanceID := "i-0f3" |}, None).
Proof.
  exact (parse_format_roundtrip "eu-west-2b" "i-0f3" eq_refl eq_refl eq_refl eq_refl
           ltac:(discriminate)).
Defined.

Lemma ParseProviderID_fields_witness :
  (exists front, "aws://cluster-1/us-east-1a/i-0abc"
                 = front +:+ String "/" "us-east-1a" +:+ String "/" "i-0abc") /\
  gostrings.ContainsByte "us-east-1a" "/" = false /\
  gostrings.ContainsByte "i-0abc" "/" = false /\
  "i-0abc" <> "" /\
  "us-east-1" = ParseRegionFromAZ "us-east-1a".
Proof.
  exact (ParseProviderID_fields "aws://cluster-1/us-east-1a/i-0abc"
           (mkProviderID "us-east-1a" "us-east-1" "i-0abc") eq_refl).
Defined.

End CodecMore.

(** ** The adapter *)

Section AdapterMore.
Import machinev1 infrav1 awsec2 controllers.
Context {W : Type} (h : handler W).

(** X4: [DescribeInstance] makes one call; it says [exists] exactly when it
    returns an instance, and with an error it returns neither. *)
Theorem DescribeInstance_exists_iff_instance (cfg : aws.Config) (id : string) (w : W) :
  let out := run h (DescribeInstance cfg id) w in
  calls out.1.1 = [DescribeInstancesWithContext cfg [Some id]] /\
  (out.1.2.1.2 = true <-> is_Some out.1.2.1.1) /\
  (is_Some out.1.2.2 -> out.1.2.1.2 = false /\ out.1.2.1.1 = None).
Proof.
  cbv zeta. rewrite run_DescribeInstance. cbv zeta. cbn [fst snd calls fmap list_fmap projT1].
  split; [reflexivity|].
  destruct (h _ w) as [r w1]. cbn [fst snd].
  assert (Hnone : ~ is_Some (@None ec2.Instance)) by (intros [x Hx]; discriminate).
  assert (Hnoerr : ~ is_Some (@None error)) by (intros [x Hx]; discriminate).
  destruct r as [out | e].
  - destruct (ec2.Reservations out) as [|r0 rs]; cbn [fst snd].
    + split; [split; [discriminate | tauto] | tauto].
    + destruct (ec2.Instances r0); cbn [fst snd].
      * split; [split; [discriminate | tauto] | tauto].
      * split; [split; eauto | tauto].
  - destruct e; cbn [fst snd]; try (split; [split; [discriminate | tauto] | auto]).
    destruct (String.eqb code InstanceNotFound); cbn [fst snd];
      (split; [split; [discriminate | tauto] | auto]).
Qed.

Lemma launchInSubnet_run_instances (cfg : aws.Config) (m : AWSMachine) (userData : string)
    (sgIds : list (option string)) (w : W) (cfg' : aws.Config)
    (input : ec2.RunInstancesInput) :
  let t := (run h (launchInSubnet cfg m userData sgIds) w).1.1 in
  In (RunInstancesWithContext cfg' input) (calls t) ->
  cfg' = cfg /\
  exists filters Subnets subnet,
    In (existT (DescribeSubnetsWithContext cfg filters) (Ok Subnets)) t /\
    In subnet Subnets /\
    subnetEligible (PublicIP (Spec m)) subnet = true /\
    input = runInstancesInput m userData sgIds (aws.StringValue (ec2.SubnetId subnet)).
Proof.
  cbv zeta. unfold launchInSubnet, random. run_simpl. cbv zeta.
  match goal with |- context [DescribeSubnetsWithContext cfg ?f] => set (filters := f) end.
  destruct (h _ w) as [sresp w1]. destruct sresp as [Subnets | err].
  2: { cbn. intros [H | []]. discriminate. }
  destruct (nonempty Subnets); cbn [negb].
  2: { cbn. intros [H | []]. discriminate. }
  destruct (nonempty (_ <$> _)); cbn [negb].
  2: { cbn. intros [H | []]. discriminate. }
  cbn [bind run]. destruct (h _ w1) as [n w3].
  destruct (_ !! n) as [subnet|] eqn:Hn; cbn [bind run].
  2: { cbn. intros [H | [H | []]]; discriminate. }
  destruct (h _ w3) as [resp w4].
  assert (Hsub : exists sn, In sn Subnets /\ subnetEligible (PublicIP (Spec m)) sn = true /\
                            subnet = aws.StringValue (ec2.SubnetId sn)).
  { apply list_lookup_fmap_Some in Hn as (sn & -> & Hsn).
    apply list_elem_of_lookup_2, list_elem_of_filter in Hsn as [Hel Hin].
    exists sn. repeat split.
    - apply list_elem_of_In. exact Hin.
    - apply Is_true_true. exact Hel. }
  destruct Hsub as (sn & Hin & Hel & ->).
  assert (Hcalls : forall t0 : list event,
            In (RunInstancesWithContext cfg' input)
               (calls (existT (DescribeSubnetsWithContext cfg filters) (Ok Subnets)
                       :: existT (RandIntn _) n
                       :: existT (RunInstancesWithContext cfg
                                    (runInstancesInput m userData sgIds
                                       (aws.StringValue (ec2.SubnetId sn)))) resp
                       :: t0)) ->
            t0 = [] ->
            cfg' = cfg /\
            input = runInstancesInput m userData sgIds (aws.StringValue (ec2.SubnetId sn))).
  { intros t0 Hc ->. cbn in Hc. destruct Hc as [H | [H | [H | []]]]; try discriminate.
    injection H as -> ->. split; reflexivity. }
  destruct resp as [[|inst insts] | err]; cbn [run fst snd]; intros Hc;
    destruct (Hcalls [] Hc eq_refl) as [-> ->]; (split; [reflexivity|]);
    exists filters, Subnets, sn; (split; [left; reflexivity | auto]).
Qed.

(** X5: What [LaunchInstance] asks the backend to run: one instance, in a
    subnet that [DescribeSubnetsWithContext] returned in this invocation,
    whose public-address setting is that of the record and which has a
    free address; with the security group ids of the record followed by
    those of the groups that the lookup by name returned. *)
Theorem launch_runs_in_eligible_subnet (cfg : aws.Config) (m : AWSMachine)
    (userData : string) (w : W) (cfg' : aws.Config) (input : ec2.RunInstancesInput) :
  let t := (run h (LaunchInstance cfg m userData) w).1.1 in
  In (RunInstancesWithContext cfg' input) (calls t) ->
  cfg' = cfg /\ ec2.MinCount input = 1 /\ ec2.MaxCount input = 1 /\
  (exists filters Subnets subnet,
     In (existT (DescribeSubnetsWithContext cfg filters) (Ok Subnets)) t /\
     In subnet Subnets /\
     aws.BoolValue (ec2.MapPublicIpOnLaunch subnet) = PublicIP (Spec m) /\
     1 <= aws.Int64Value (ec2.AvailableIpAddressCount subnet) /\
     ec2.InputSubnetId input = Some (aws.StringValue (ec2.SubnetId subnet))) /\
  (exists SecurityGroups,
     ec2.SecurityGroupIds input
       = aws.StringSlice (SecurityGroupIDs (Spec m)) ++ (ec2.GroupId <$> SecurityGroups) /\
     (SecurityGroups = [] /\ SecurityGroupNames (Spec m) = [] \/
      In (existT (securityGroupLookup cfg m) (Ok SecurityGroups)) t)).
Proof.
  cbv zeta.
  assert (Hids : (if nonempty (SecurityGroupIDs (Spec m))
                  then aws.StringSlice (SecurityGroupIDs (Spec m)) else [])
                 = aws.StringSlice (SecurityGroupIDs (Spec m))).
  { destruct (SecurityGroupIDs (Spec m)); reflexivity. }
  assert (Hsub : forall sgIds w0 (t0 : list event),
            In (RunInstancesWithContext cfg' input)
               (calls (run h (launchInSubnet cfg m userData sgIds) w0).1.1) ->
            incl (run h (launchInSubnet cfg m userData sgIds) w0).1.1 t0 ->
            cfg' = cfg /\ ec2.MinCount input = 1 /\ ec2.MaxCount input = 1 /\
            (exists filters Subnets subnet,
               In (existT (DescribeSubnetsWithContext cfg filters) (Ok Subnets)) t0 /\
               In subnet Subnets /\
               aws.BoolValue (ec2.MapPublicIpOnLaunch subnet) = PublicIP (Spec m) /\
               1 <= aws.Int64Value (ec2.AvailableIpAddressCount subnet) /\
               ec2.InputSubnetId input = Some (aws.StringValue (ec2.SubnetId subnet))) /\
            ec2.SecurityGroupIds input = sgIds).
  { intros sgIds w0 t0 Hc Hincl.
    destruct (launchInSubnet_run_instances cfg m userData sgIds w0 cfg' input Hc)
      as (-> & filters & Subnets & subnet & Hev & Hin & Hel & ->).
    repeat split; try reflexivity.
    exists filters, Subnets, subnet. unfold subnetEligible in Hel.
    apply andb_true_iff in Hel as [Hpub Hfree].
    apply Bool.eqb_prop in Hpub. apply negb_true_iff, Z.ltb_ge in Hfree.
    repeat split; auto. }
  unfold LaunchInstance. cbv zeta. rewrite Hids.
  destruct (SecurityGroupNames (Spec m)) as [|name names] eqn:Hnames; cbn [nonempty].
  - intros Hc. destruct (Hsub _ w _ Hc (incl_refl _)) as (H1 & H2 & H3 & H4 & H5).
    repeat split; auto. exists []. rewrite app_nil_r. auto.
  - run_simpl. unfold securityGroupLookup. rewrite Hnames.
    destruct (h _ w) as [resp w1]. destruct resp as [groups | err].
    + destruct (run h (launchInSubnet _ _ _ _) w1) as [[t1 r1] w2] eqn:Hrun.
      cbn [fst snd]. intros Hc. cbn in Hc. destruct Hc as [Hc | Hc]; [discriminate|].
      pose proof (Hsub (aws.StringSlice (SecurityGroupIDs (Spec m)) ++ (ec2.GroupId <$> groups))
                    w1 (existT (DescribeSecurityGroupsWithContext cfg
                                  [ {| ec2.FilterName := "group-name";
                                       ec2.Values := aws.StringSlice (name :: names) |} ])
                               (Ok groups) :: t1)) as H.
      rewrite Hrun in H. cbn [fst snd] in H.
      destruct (H Hc (incl_tl _ (incl_refl _))) as (H1 & H2 & H3 & H4 & H5).
      repeat split; auto. exists groups. split; [exact H5|]. right. left. reflexivity.
    + cbn. intros [H | []]. discriminate.
Qed.

(** X6: When no subnet that the backend returns is eligible, [LaunchInstance]
    returns the subnet error and asks for no instance. *)
Theorem launch_without_eligible_subnet (cfg : aws.Config) (m : AWSMachine)
    (userData : string) (w : W) (filters : list ec2.Filter) (Subnets : list ec2.Subnet) :
  let out := run h (LaunchInstance cfg m userData) w in
  In (existT (DescribeSubnetsWithContext cfg filters) (Ok Subnets)) out.1.1 ->
  Forall (fun subnet => subnetEligible (PublicIP (Spec m)) subnet = false) Subnets ->
  out.1.2 = Done (None, Some (ErrCannotDetermineSubnet (VPCID (Spec m)))) /\
  Forall (fun c => forall cfg' input, c <> RunInstancesWithContext cfg' input) (calls out.1.1).
Proof.
  cbv zeta. intros Hev Hnone.
  assert (Hfilter : filter (fun subnet => subnetEligible (PublicIP (Spec m)) subnet) Subnets
                    = []).
  { clear Hev. induction Hnone as [|sn l Hsn _ IH]; [reflexivity|].
    rewrite filter_cons, Hsn, IH. reflexivity. }
  assert (Hsub : forall sgIds w0,
            In (existT (DescribeSubnetsWithContext cfg filters) (Ok Subnets))
               (run h (launchInSubnet cfg m userData sgIds) w0).1.1 ->
            (run h (launchInSubnet cfg m userData sgIds) w0).1.2
              = Done (None, Some (ErrCannotDetermineSubnet (VPCID (Spec m)))) /\
            Forall (fun c => forall cfg' input, c <> RunInstancesWithContext cfg' input)
                   (calls (run h (launchInSubnet cfg m userData sgIds) w0).1.1)).
  { intros sgIds w0. unfold launchInSubnet, random. run_simpl. cbv zeta.
    destruct (h _ w0) as [sresp w1].
    assert (Hans : forall t0 : list event,
              Forall (fun ev => subnetsAnswer ev = None) t0 ->
              In (existT (DescribeSubnetsWithContext cfg filters) (Ok Subnets))
                 (existT (DescribeSubnetsWithContext cfg _) sresp :: t0) ->
              sresp = Ok Subnets).
    { intros t0 Ht0 [Hin | Hin].
      - apply (f_equal subnetsAnswer) in Hin. cbn in Hin. congruence.
      - rewrite List.Forall_forall in Ht0. apply Ht0 in Hin. discriminate. }
    destruct sresp as [Subnets' | err].
    2: { cbn [run fst snd]. intros Hin. apply (Hans []) in Hin; [discriminate | constructor]. }
    destruct (nonempty Subnets') eqn:Hne; cbn [negb].
    2: { cbn [run fst snd]. intros _. split; [reflexivity|].
         repeat constructor. discriminate. }
    destruct (nonempty (_ <$> filter _ Subnets')) eqn:Hel; cbn [negb].
    2: { cbn [run fst snd]. intros _. split; [reflexivity|].
         repeat constructor. discriminate. }
    cbn [bind run]. destruct (h _ w1) as [n w3]. intros Hin. exfalso.
    assert (Hin' : Ok Subnets' = Ok Subnets).
    { destruct (_ !! n); cbn [bind run] in Hin.
      - destruct (h _ w3) as [resp w4].
        destruct resp as [[|? ?] | ?]; cbn [run fst snd] in Hin;
          (eapply Hans; [|exact Hin]); repeat constructor.
      - cbn [run fst snd] in Hin. eapply Hans; [|exact Hin]. repeat constructor. }
    injection Hin' as ->. rewrite Hfilter in Hel. discriminate. }
  revert Hev. unfold LaunchInstance. cbv zeta.
  destruct (nonempty (SecurityGroupNames (Spec m))).
  - run_simpl. destruct (h _ w) as [resp w1]. destruct resp as [groups | err].
    + match goal with
      | |- context [run h (launchInSubnet _ _ _ ?ids) w1] => specialize (Hsub ids w1)
      end.
      destruct (run h (launchInSubnet _ _ _ _) w1) as [[t1 r1] w2].
      cbn [fst snd In] in *. intros [Hev | Hev].
      { apply (f_equal subnetsAnswer) in Hev. discriminate. }
      destruct (Hsub Hev) as [H1 H2]. split; [exact H1|].
      unfold calls. rewrite fmap_cons. constructor; [discriminate | exact H2].
    + cbn [run fst snd In]. intros [Hev | []].
      apply (f_equal subnetsAnswer) in Hev. discriminate.
  - apply Hsub.
Qed.

End AdapterMore.

Lemma launch_runs_in_eligible_subnet_witness :
  ec2.MinCount (awsec2.runInstancesInput newMachine "dXNlcg==" [] "subnet-1") = 1 /\
  ec2.MaxCount (awsec2.runInstancesInput newMachine "dXNlcg==" [] "subnet-1") = 1 /\
  exists filters Subnets subnet,
    In (existT (DescribeSubnetsWithContext usEast1 filters) (Ok Subnets))
       (run launchingBackend (awsec2.LaunchInstance usEast1 newMachine "dXNlcg==") tt).1.1 /\
    In subnet Subnets /\
    aws.BoolValue (ec2.MapPublicIpOnLaunch subnet) = false /\
    1 <= aws.Int64Value (ec2.AvailableIpAddressCount subnet) /\
    Some "subnet-1" = Some (aws.StringValue (ec2.SubnetId subnet)).
Proof.
  pose proof (launch_runs_in_eligible_subnet launchingBackend usEast1 newMachine "dXNlcg==" tt
                usEast1 (awsec2.runInstancesInput newMachine "dXNlcg==" [] "subnet-1")
                ltac:(vm_compute; tauto)) as (_ & H1 & H2 & H3 & _).
  exact (conj H1 (conj H2 H3)).
Defined.

Lemma launch_without_eligible_subnet_witness :
  (run publicOnly (awsec2.LaunchInstance usEast1 newMachine "dXNlcg==") tt).1.2
    = Done (None, Some (ErrCannotDetermineSubnet "vpc-1")) /\
  Forall (fun c => forall cfg' input, c <> RunInstancesWithContext cfg' input)
         (calls (run publicOnly (awsec2.LaunchInstance usEast1 newMachine "dXNlcg==") tt).1.1).
Proof.
  exact (launch_without_eligible_subnet publicOnly usEast1 newMachine "dXNlcg==" tt
           scenarioFilters [publicSubnet]
           ltac:(vm_compute; tauto)
           ltac:(repeat constructor)).
Defined.

Section Conversions.
Import machinev1 infrav1 awsec2 controllers.

Lemma addressesOf_app (ty : MachineAddressType) (l1 l2 : list MachineAddress) :
  addressesOf ty (l1 ++ l2) = addressesOf ty l1 ++ addressesOf ty l2.
Proof. unfold addressesOf. rewrite filter_app, fmap_app. reflexivity. Qed.

(** X7: The addresses of an instance, by type: every network interface gives
    its private DNS name and its private address, in the order of the
    interfaces; only the interfaces with an association give a public DNS
    name and a public address; a field that is nil gives the empty
    string. *)
Theorem getInstanceAddresses_by_type (i : ec2.Instance) :
  exists l,
    getInstanceAddresses (Some i) = Done l /\
    addressesOf MachineInternalDNS l
      = (fun eni => aws.StringValue (ec2.PrivateDnsName eni)) <$> ec2.NetworkInterfaces i /\
    addressesOf MachineInternalIP l
      = (fun eni => aws.StringValue (ec2.PrivateIpAddress eni)) <$> ec2.NetworkInterfaces i /\
    addressesOf MachineExternalDNS l
      = (fun a => aws.StringValue (ec2.PublicDnsName a))
          <$> omap ec2.Association (ec2.NetworkInterfaces i) /\
    addressesOf MachineExternalIP l
      = (fun a => aws.StringValue (ec2.PublicIp a))
          <$> omap ec2.Association (ec2.NetworkInterfaces i) /\
    length l = (2 * length (ec2.NetworkInterfaces i)
                + 2 * length (omap ec2.Association (ec2.NetworkInterfaces i)))%nat.
Proof.
  eexists. split; [reflexivity|].
  induction (ec2.NetworkInterfaces i) as [|eni enis IH].
  - repeat split.
  - destruct IH as (H1 & H2 & H3 & H4 & H5).
    cbn [fmap list_fmap concat]. fold (fmap (M := list) eniAddresses enis).
    rewrite !addressesOf_app, length_app, H1, H2, H3, H4, H5.
    unfold eniAddresses. cbn [omap list_omap].
    fold (omap (M := list) ec2.Association enis).
    destruct (ec2.Association eni) as [assoc|]; cbn; repeat split; lia.
Qed.

(** X8: The tags sent to the backend are the entries of the record's tag
    map: one tag for every key, with the value of that key. *)
Theorem convertTags_entries (tags : gmap string string) :
  (forall key value,
     In {| ec2.Key := key; ec2.Value := value |} (convertTags tags)
     <-> tags !! key = Some value) /\
  length (convertTags tags) = size tags /\
  NoDup (ec2.Key <$> convertTags tags).
Proof.
  unfold convertTags. repeat split.
  - intros Hin. apply list_elem_of_In, list_elem_of_fmap in Hin as ([k v] & Heq & Hkv).
    injection Heq as -> ->. apply elem_of_map_to_list. exact Hkv.
  - intros Hkv. apply list_elem_of_In, list_elem_of_fmap. exists (key, value).
    split; [reflexivity | apply elem_of_map_to_list; exact Hkv].
  - rewrite length_fmap. apply length_map_to_list.
  - rewrite <- list_fmap_compose.
    replace (ec2.Key ∘ (fun kv : string * string => {| ec2.Key := kv.1; ec2.Value := kv.2 |}))
      with (@fst string string) by reflexivity.
    apply NoDup_fst_map_to_list.
Qed.

End Conversions.

(** ** The reconciler's use of the backend *)

Section BackendUse.
Import machinev1 infrav1 awsec2 controllers.
Context {W : Type} (h : handler W).

Lemma run_DescribeInstanceStatus_trace (cfg : aws.Config) (id : string) (w : W) :
  (run h (DescribeInstanceStatus cfg id) w).1.1
    = [existT (DescribeInstancesWithContext cfg [Some id])
              (h (DescribeInstancesWithContext cfg [Some id]) w).1] /\
  (run h (DescribeInstanceStatus cfg id) w).2
    = (h (DescribeInstancesWithContext cfg [Some id]) w).2.
Proof.
  unfold DescribeInstanceStatus, mbind, prog_bind.
  rewrite run_bind, run_DescribeInstance. cbv zeta.
  change (aws.StringSlice [id]) with [Some id].
  destruct (h _ w) as [r w1]. cbn [fst snd].
  match goal with |- context [run h ?p w1] => assert (Hret : exists a, p = Ret a) end.
  { destruct r as [out | e].
    - destruct (ec2.Reservations out) as [|r0 rs]; [eexists; reflexivity|].
      destruct (ec2.Instances r0) as [|i is_]; [eexists; reflexivity|].
      cbn. destruct (ec2.State i); eexists; reflexivity.
    - destruct e; try (eexists; reflexivity).
      destruct (String.eqb code InstanceNotFound); eexists; reflexivity. }
  destruct Hret as [a ->]. split; reflexivity.
Qed.

(** X9: What [reconcileDelete] and [reconcileStatus] ask of the backend, for a
    record whose identity parses: [reconcileDelete] describes the instance
    once and terminates it at most once, after the describe;
    [reconcileStatus] describes it once or twice. Every call goes to the
    region parsed from the identity, for the instance id parsed from it,
    and without credentials of its own. *)
Theorem reconcile_backend_calls (w : W) (am : AWSMachine) (s : string)
    (p : awsutil.ProviderID) :
  ProviderID (Spec am) = Some s ->
  awsutil.ParseProviderID s = (Some p, None) ->
  let cfg := aws.mkConfig (awsutil.Region p) None in
  let describe := DescribeInstancesWithContext cfg [Some (awsutil.InstanceID p)] in
  let terminate := TerminateInstances cfg [Some (awsutil.InstanceID p)] in
  (calls (run h (reconcileDelete am) w).1.1 = [describe] \/
   calls (run h (reconcileDelete am) w).1.1 = [describe; terminate]) /\
  (calls (run h (reconcileStatus am) w).1.1 = [describe] \/
   calls (run h (reconcileStatus am) w).1.1 = [describe; describe]).
Proof.
  intros Hid Hparse cfg describe terminate. split.
  - unfold reconcileDelete. rewrite Hid, Hparse. unfold bindc, mbind, prog_bind.
    rewrite run_bind.
    pose proof (run_DescribeInstanceStatus_trace cfg (awsutil.InstanceID p) w) as [Ht _].
    destruct (run h (DescribeInstanceStatus _ _) w) as [[t c] w1].
    cbn [fst snd] in Ht. subst t.
    destruct c as [[state [e|]] | msg]; try (left; reflexivity).
    destruct (String.eqb state ec2.InstanceStateNamePending); [left; reflexivity|].
    destruct (String.eqb state ec2.InstanceStateNameStopping); [left; reflexivity|].
    destruct (_ || _).
    { right. unfold TerminateInstance, perform. cbn [bind run].
      destruct (h _ w1) as [terr w2]. destruct terr; reflexivity. }
    destruct (String.eqb state ec2.InstanceStateNameShuttingDown); [left; reflexivity|].
    destruct (String.eqb state ec2.InstanceStateNameTerminated); left; reflexivity.
  - unfold reconcileStatus. rewrite Hid, Hparse. unfold mbind, prog_bind.
    rewrite run_bind.
    pose proof (run_DescribeInstanceStatus_trace cfg (awsutil.InstanceID p) w) as [Ht _].
    destruct (run h (DescribeInstanceStatus _ _) w) as [[t c] w1].
    cbn [fst snd] in Ht. subst t.
    destruct c as [[state [e|]] | msg]; try (left; reflexivity).
    destruct (negb _); [|left; reflexivity].
    right. rewrite run_bind, run_DescribeInstance. cbv zeta.
    destruct (h _ w1) as [r w2]. cbn [fst snd].
    match goal with |- context [run h ?q w2] => assert (Hret : exists a, q = Ret a) end.
    { destruct r as [out | e].
      - destruct (ec2.Reservations out) as [|r0 rs]; [eexists; reflexivity|].
        destruct (ec2.Instances r0) as [|i is_]; eexists; reflexivity.
      - destruct e; try (eexists; reflexivity).
        destruct (String.eqb code InstanceNotFound); eexists; reflexivity. }
    destruct Hret as [a ->]. reflexivity.
Qed.

(** X10: Once a record is ready, [reconcileStatus] describes the instance at
    most once and writes nothing but the instance state: the addresses are
    not read again, and ready stays set. *)
Theorem reconcileStatus_when_ready (w : W) (am : AWSMachine) :
  Ready (Status am) = true ->
  let out := run h (reconcileStatus am) w in
  (length (calls out.1.1) <= 1)%nat /\
  (out.1.2.1 = am \/ exists state, out.1.2.1 = setInstanceState am state) /\
  Addresses (Status out.1.2.1) = Addresses (Status am) /\
  Ready (Status out.1.2.1) = true.
Proof.
  intros Hready. cbv zeta. unfold reconcileStatus.
  assert (Hsame : forall (t : list event) (c : completion (option error)) (w' : W),
            (length (calls t) <= 1)%nat ->
            (length (calls (t, (am, c), w').1.1) <= 1)%nat /\
            ((t, (am, c), w').1.2.1 = am \/
             exists state, (t, (am, c), w').1.2.1 = setInstanceState am state) /\
            Addresses (Status (t, (am, c), w').1.2.1) = Addresses (Status am) /\
            Ready (Status (t, (am, c), w').1.2.1) = true).
  { intros t c w' Ht. cbn [fst snd]. auto. }
  destruct (ProviderID (Spec am)) as [s|]; [|apply Hsame; cbn; lia].
  destruct (awsutil.ParseProviderID s) as [[p|] [err|]]; try (apply Hsame; cbn; lia).
  unfold mbind, prog_bind. rewrite run_bind.
  pose proof (run_DescribeInstanceStatus_trace
                (aws.mkConfig (awsutil.Region p) None) (awsutil.InstanceID p) w) as [Ht _].
  destruct (run h (DescribeInstanceStatus _ _) w) as [[t c] w1].
  cbn [fst snd] in Ht. subst t.
  destruct c as [[state [e|]] | msg]; try (apply Hsame; cbn; lia).
  cbn [Ready Status setInstanceState setStatus]. rewrite Hready. cbn.
  repeat split; eauto.
Qed.

End BackendUse.

Lemma reconcile_backend_calls_witness :
  (calls (run running (controllers.reconcileDelete deletingMachine) tt).1.1
     = [DescribeInstancesWithContext usEast1 [Some "i-0abc"]] \/
   calls (run running (controllers.reconcileDelete deletingMachine) tt).1.1
     = [DescribeInstancesWithContext usEast1 [Some "i-0abc"];
        TerminateInstances usEast1 [Some "i-0abc"]]) /\
  (calls (run running (controllers.reconcileStatus deletingMachine) tt).1.1
     = [DescribeInstancesWithContext usEast1 [Some "i-0abc"]] \/
   calls (run running (controllers.reconcileStatus deletingMachine) tt).1.1
     = [DescribeInstancesWithContext usEast1 [Some "i-0abc"];
        DescribeInstancesWithContext usEast1 [Some "i-0abc"]]).
Proof.
  exact (reconcile_backend_calls running tt deletingMachine "aws:///us-east-1a/i-0abc"
           (awsutil.mkProviderID "us-east-1a" "us-east-1" "i-0abc") eq_refl eq_refl).
Defined.

Lemma reconcileStatus_when_ready_witness :
  let out := run running (controllers.reconcileStatus deletingMachine) tt in
  (length (calls out.1.1) <= 1)%nat /\
  (out.1.2.1 = deletingMachine \/
   exists state, out.1.2.1 = infrav1.setInstanceState deletingMachine state) /\
  infrav1.Addresses (infrav1.Status out.1.2.1)
    = infrav1.Addresses (infrav1.Status deletingMachine) /\
  infrav1.Ready (infrav1.Status out.1.2.1) = true.
Proof.
  exact (reconcileStatus_when_ready running tt deletingMachine eq_refl).
Defined.

(** ** The branches of [Reconcile] *)

Section ReconcileBranches.
Import machinev1 infrav1 awsec2 controllers.
Context {W : Type} (h : handler W).

Lemma RemoveFinalizer_not_In (am : AWSMachine) :
  ~ In MachineFinalizer (Finalizers (Meta (controllerutil.RemoveFinalizer am MachineFinalizer))).
Proof.
  unfold controllerutil.RemoveFinalizer. cbn [Meta setFinalizers Finalizers].
  intros Hin. apply list_elem_of_In, list_elem_of_filter in Hin as [Hneq _].
  rewrite String.eqb_refl in Hneq. exact Hneq.
Qed.

Lemma AddFinalizer_Spec (am : AWSMachine) :
  Spec (controllerutil.AddFinalizer am MachineFinalizer) = Spec am.
Proof.
  unfold controllerutil.AddFinalizer.
  destruct (controllerutil.containsString _ _); reflexivity.
Qed.

(** X11: The deletion branch: unless [reconcileDelete] panics, [Reconcile]
    ends with one update of the record without the finalizer, whatever
    [reconcileDelete] returned (a backend error, a state that asks for a
    retry, an unknown state), and returns the error of that update and
    nothing else; it never asks for a requeue. *)
Theorem Reconcile_deletion_always_finalizes (w w1 : W) (req : ObjectKey) (am : AWSMachine) :
  h (ClientGetAWSMachine req) w = (Ok am, w1) ->
  IsZero (DeletionTimestamp (Meta am)) = false ->
  let out := run h (Reconcile req) w in
  let am' := controllerutil.RemoveFinalizer am MachineFinalizer in
  (exists msg, out.1.2 = Panic msg) \/
  (exists t uerr,
     out.1.1 = t ++ [existT (ClientUpdate am') uerr] /\
     out.1.2 = Done (ResultZero, uerr) /\
     ~ In MachineFinalizer (Finalizers (Meta am'))).
Proof.
  intros Hget Hdel. cbv zeta. rewrite (Reconcile_deleting h w w1 req am Hget Hdel).
  destruct (run h (reconcileDelete am) w1) as [[t c] w2].
  destruct c as [e | msg]; [right | left; eauto].
  cbv zeta. cbn [fst snd].
  exists (existT (ClientGetAWSMachine req) (Ok am) :: t), (h (ClientUpdate _) w2).1.
  repeat split. apply RemoveFinalizer_not_In.
Qed.

(** X12: A record with a failure message, and a record whose owner is not set
    yet, are left alone: [Reconcile] returns without error and without
    requeue, and calls nothing but the reads of the record and of its
    owner; no finalizer is added and nothing is written. *)
Theorem Reconcile_leaves_alone (w w1 : W) (req : ObjectKey) (am : AWSMachine) :
  h (ClientGetAWSMachine req) w = (Ok am, w1) ->
  IsZero (DeletionTimestamp (Meta am)) = true ->
  FailureMessage (Status am) <> None \/ (h (GetOwnerMachine (Meta am)) w1).1 = Ok None ->
  let out := run h (Reconcile req) w in
  out.1.2 = Done (ResultZero, None) /\
  Forall (fun c => c = ClientGetAWSMachine req \/ c = GetOwnerMachine (Meta am))
         (calls out.1.1).
Proof.
  intros Hget Hdel Hcase. cbv zeta.
  unfold Reconcile, mbind, prog_bind, perform. cbn [bind run].
  rewrite Hget. cbv beta iota. rewrite Hdel. cbn [negb]. cbv iota.
  destruct (bool_decide (FailureMessage (Status am) <> None)) eqn:Hfail.
  - cbn [run fst snd]. split; [reflexivity|].
    apply List.Forall_cons; [left; reflexivity | apply List.Forall_nil].
  - apply bool_decide_eq_false in Hfail. destruct Hcase as [Hcase | Howner]; [tauto|].
    cbn [bind run]. destruct (h (GetOwnerMachine (Meta am)) w1) as [owner w2].
    cbn [fst] in Howner. subst owner. cbn [run fst snd].
    split; [reflexivity|].
    apply List.Forall_cons; [left; reflexivity|].
    apply List.Forall_cons; [right; reflexivity | apply List.Forall_nil].
Qed.

(** X13: While the owner's config is not ready, [Reconcile] asks to be run
    again after five seconds: it reads the config, calls nothing of the
    backend, and its only write is the patch of the record with the
    finalizer added; the error returned is that of the patch. *)
Theorem Reconcile_waits_for_config (w w1 w2 w3 w4 : W) (req : ObjectKey) (am : AWSMachine)
    (m : Machine) (cfg : machinev1.Config) :
  h (ClientGetAWSMachine req) w = (Ok am, w1) ->
  IsZero (DeletionTimestamp (Meta am)) = true ->
  FailureMessage (Status am) = None ->
  ProviderID (Spec am) = None ->
  h (GetOwnerMachine (Meta am)) w1 = (Ok (Some m), w2) ->
  h (PatchNewHelper am) w2 = (None, w3) ->
  let getConfig := ClientGetConfig {| keyNamespace := MachineNamespace m;
                                      keyName := ConfigRefName m |} in
  h getConfig w3 = (Ok cfg, w4) ->
  machinev1.Ready cfg = false ->
  let patch := PatchHelperPatch am (controllerutil.AddFinalizer am MachineFinalizer) in
  let out := run h (Reconcile req) w in
  calls out.1.1
    = [ClientGetAWSMachine req; GetOwnerMachine (Meta am); PatchNewHelper am; getConfig; patch] /\
  out.1.2 = Done ({| Requeue := false; RequeueAfter := 5 * Second |}, (h patch w4).1).
Proof.
  intros Hget Hdel Hfail Hid Howner Hhelper getConfig Hcfg Hready patch. cbv zeta.
  unfold Reconcile, mbind, prog_bind, perform. cbn [bind run].
  rewrite Hget. cbv beta iota. rewrite Hdel, Hfail. cbn [negb]. cbv iota.
  rewrite bool_decide_eq_false_2 by (intros H; apply H; reflexivity).
  cbn [bind run]. rewrite Howner. cbv beta iota.
  cbn [bind run]. rewrite Hhelper. cbv beta iota.
  unfold deferPatch, ReconcileBody, mbind, prog_bind, perform. cbv zeta.
  rewrite AddFinalizer_Spec, Hid. cbn [bind run].
  unfold getConfig in Hcfg. rewrite Hcfg. cbv beta iota. rewrite Hready.
  cbn [negb bind run]. fold patch.
  destruct (h patch w4) as [perr w5]. cbn [fst snd].
  destruct perr; split; reflexivity.
Qed.

End ReconcileBranches.

Lemma Reconcile_deletion_always_finalizes_witness :
  let out := run (withAWSMachine deletingMachine (withDescribe (describes "rebooting") silent))
                 (controllers.Reconcile worker0) tt in
  let am' := controllerutil.RemoveFinalizer deletingMachine infrav1.MachineFinalizer in
  (exists msg, out.1.2 = Panic msg) \/
  (exists t uerr,
     out.1.1 = t ++ [existT (ClientUpdate am') uerr] /\
     out.1.2 = Done (ResultZero, uerr) /\
     ~ In infrav1.MachineFinalizer (Finalizers (infrav1.Meta am'))).
Proof.
  exact (Reconcile_deletion_always_finalizes
           (withAWSMachine deletingMachine (withDescribe (describes "rebooting") silent))
           tt tt worker0 deletingMachine eq_refl eq_refl).
Defined.

Lemma Reconcile_leaves_alone_witness :
  let out := run (withAWSMachine newMachine silent) (controllers.Reconcile worker0) tt in
  out.1.2 = Done (ResultZero, None) /\
  Forall (fun c => c = ClientGetAWSMachine worker0 \/
                   c = GetOwnerMachine (infrav1.Meta newMachine))
         (calls out.1.1).
Proof.
  exact (Reconcile_leaves_alone (withAWSMachine newMachine silent) tt tt worker0 newMachine
           eq_refl eq_refl (or_intror eq_refl)).
Defined.

Lemma Reconcile_waits_for_config_witness :
  let h := withAWSMachine newMachine
             (withOwner ownerMachine
                (withConfig {| machinev1.Ready := false; machinev1.DataSecretName := None |}
                   silent)) in
  let out := run h (controllers.Reconcile worker0) tt in
  calls out.1.1
    = [ ClientGetAWSMachine worker0; GetOwnerMachine (infrav1.Meta newMachine);
        PatchNewHelper newMachine;
        ClientGetConfig {| keyNamespace := "kube-system"; keyName := "worker-0-config" |};
        PatchHelperPatch newMachine
          (controllerutil.AddFinalizer newMachine infrav1.MachineFinalizer) ] /\
  out.1.2 = Done ({| Requeue := false; RequeueAfter := 5 * Second |}, None).
Proof.
  exact (Reconcile_waits_for_config
           (withAWSMachine newMachine
              (withOwner ownerMachine
                 (withConfig {| machinev1.Ready := false; machinev1.DataSecretName := None |}
                    silent)))
           tt tt tt tt tt worker0 newMachine ownerMachine
           {| machinev1.Ready := false; machinev1.DataSecretName := None |}
           eq_refl eq_refl eq_refl eq_refl eq_refl eq_refl eq_refl eq_refl).
Defined.

(** ** What [Reconcile] writes *)

Section Writes.
Import machinev1 infrav1 awsec2 controllers.

Ltac safe_walk HG :=
  repeat (cbn [bind];
          match goal with
          | |- safe _ _ _ (Ret _) => apply safe_ret; try exact I
          | |- safe _ _ _ (Call _ _) => apply safe_call; [apply HG; reflexivity | intros ? _]
          | |- safe _ _ _ (bind (match ?x with _ => _ end) _) => destruct x eqn:?
          | |- safe _ _ _ (match ?x with _ => _ end) => destruct x eqn:?
          end).

Section NoWrite.
Context (R : forall c, resp c -> Prop) (G : call -> Prop).
Hypothesis HG : forall c, isWrite c = false -> G c.

Lemma LaunchInstance_no_write (cfg : aws.Config) (m : AWSMachine) (userData : string) :
  safe R G (fun _ => True) (LaunchInstance cfg m userData).
Proof.
  unfold LaunchInstance, launchInSubnet, random, bindc, mbind, prog_bind, perform. cbv zeta.
  safe_walk HG.
Qed.

Lemma DescribeInstance_no_write (cfg : aws.Config) (id : string) :
  safe R G (fun _ => True) (DescribeInstance cfg id).
Proof.
  unfold DescribeInstance, mbind, prog_bind, perform. safe_walk HG.
Qed.

Lemma DescribeInstanceStatus_no_write (cfg : aws.Config) (id : string) :
  safe R G (fun _ => True) (DescribeInstanceStatus cfg id).
Proof.
  unfold DescribeInstanceStatus, mbind, prog_bind.
  apply safe_bind with (Q1 := fun _ => True); [apply DescribeInstance_no_write|].
  intros [[instance exists_] err] _. safe_walk HG.
Qed.

Lemma reconcileDelete_no_write (am : AWSMachine) :
  safe R G (fun _ => True) (reconcileDelete am).
Proof.
  unfold reconcileDelete, bindc, mbind, prog_bind.
  destruct (ProviderID (Spec am)) as [s|]; [|apply safe_ret; exact I].
  destruct (awsutil.ParseProviderID s) as [[p|] [err|]]; try (apply safe_ret; exact I).
  apply safe_bind with (Q1 := fun _ => True); [apply DescribeInstanceStatus_no_write|].
  intros [[state [e|]] | msg] _; try (apply safe_ret; exact I).
  unfold TerminateInstance, perform. safe_walk HG.
Qed.

(** [reconcileStatus] keeps every property of the record that its three
    assignments keep on a record with a provider identity. *)
Lemma reconcileStatus_keeps (P : AWSMachine -> Prop) (am : AWSMachine) :
  P am ->
  (forall a s, P a -> ProviderID (Spec a) <> None -> P (setInstanceState a s)) ->
  (forall a l, P a -> ProviderID (Spec a) <> None -> P (setAddresses a l)) ->
  (forall a, P a -> ProviderID (Spec a) <> None -> P (setReady a true)) ->
  safe R G (fun x => P x.1) (reconcileStatus am).
Proof.
  intros HP Hstate Haddr Hready.
  unfold reconcileStatus, mbind, prog_bind.
  destruct (ProviderID (Spec am)) as [s|] eqn:Hid; [|apply safe_ret; exact HP].
  assert (Hsome : ProviderID (Spec am) <> None) by congruence.
  destruct (awsutil.ParseProviderID s) as [[p|] [err|]]; try (apply safe_ret; exact HP).
  apply safe_bind with (Q1 := fun _ => True); [apply DescribeInstanceStatus_no_write|].
  intros [[state [err|]] | msg] _; try (apply safe_ret; exact HP).
  destruct (negb _); [|apply safe_ret; cbn [fst]; auto].
  apply safe_bind with (Q1 := fun _ => True); [apply DescribeInstance_no_write|].
  intros [[instance exists_] [err|]] _; [apply safe_ret; cbn [fst]; auto|].
  destruct (getInstanceAddresses instance); apply safe_ret; cbn [fst]; auto.
Qed.

(** [ReconcileBody] writes nothing, and keeps every property of the
    record that the assignments of the status keep and that holds of the
    record once a launch has filled it in. *)
Lemma ReconcileBody_keeps (P : AWSMachine -> Prop) (am : AWSMachine) (m : Machine) :
  P am ->
  (forall a s, P a -> ProviderID (Spec a) <> None -> P (setInstanceState a s)) ->
  (forall a l, P a -> ProviderID (Spec a) <> None -> P (setAddresses a l)) ->
  (forall a, P a -> ProviderID (Spec a) <> None -> P (setReady a true)) ->
  (ProviderID (Spec am) = None ->
   forall az id addresses,
     P (setReady (setAddresses (setProviderID am (Some (formatProviderID az id)))
                               addresses) true)) ->
  safe R G (fun x => P x.1) (ReconcileBody am m).
Proof.
  intros HP Hstate Haddr Hready Hlaunch.
  assert (Hrefresh : forall a : AWSMachine, P a ->
            safe R G (fun x => P x.1)
              (bind (reconcileStatus a)
                 (fun '(am, c) =>
                    match c with
                    | Panic msg => Ret (am, Panic msg)
                    | Done (Some err) => Ret (am, Done (ResultZero, Some err))
                    | Done None => Ret (am, Done (ResultZero, None))
                    end))).
  { intros a Ha.
    apply safe_bind with (Q1 := fun x : AWSMachine * completion (option error) => P x.1).
    - apply reconcileStatus_keeps; auto.
    - intros [a' c] Ha'. destruct c as [[e|] | msg]; apply safe_ret; exact Ha'. }
  unfold ReconcileBody. cbv zeta. unfold mbind, prog_bind, perform.
  destruct (ProviderID (Spec am)) eqn:Hid; [apply Hrefresh; exact HP|].
  specialize (Hlaunch eq_refl).
  cbn [bind]. apply safe_call; [apply HG; reflexivity|].
  intros [cfg | err] _; [|apply safe_ret; exact HP].
  destruct (negb (machinev1.Ready cfg)); [apply safe_ret; exact HP|].
  destruct (DataSecretName cfg) as [secretName|]; [|apply safe_ret; exact HP].
  cbn [bind]. apply safe_call; [apply HG; reflexivity|].
  intros [s | err] _; [|apply safe_ret; exact HP].
  destruct (Data s !! "cloud-config") as [userData|]; [|apply safe_ret; exact HP].
  apply safe_bind with (Q1 := fun _ => True).
  { destruct (SecretRef (Spec am)); [|apply safe_ret; exact I]. safe_walk HG. }
  intros [awscfg | err] _; [|apply safe_ret; exact HP].
  cbn [bind]. apply safe_call; [apply HG; reflexivity|].
  intros [data | err] _; [|apply safe_ret; exact HP].
  cbn [bind]. apply safe_call; [apply HG; reflexivity|]. intros encoded _.
  apply safe_bind with (Q1 := fun _ => True); [apply LaunchInstance_no_write|].
  intros [[[instance|] [err|]] | msg] _; try (apply safe_ret; exact HP).
  destruct (ec2.InstancePlacement instance); [|apply safe_ret; exact HP].
  cbn [getInstanceAddresses]. apply Hrefresh. apply Hlaunch.
Qed.

End NoWrite.

Lemma written_setters (am a : AWSMachine) :
  written am a ->
  (forall s, written am (setInstanceState a s)) /\
  (forall l, written am (setAddresses a l)) /\
  (forall b, written am (setReady a b)) /\
  (forall f, written am (setFinalizers a f)).
Proof. intros H. repeat split; apply H. Qed.

Lemma written_refl (am : AWSMachine) : written am am.
Proof.
  unfold written. repeat split; auto.
  destruct am as [api meta spec status]. destruct spec. reflexivity.
Qed.

Lemma written_launch (am : AWSMachine) (id : string) l :
  ProviderID (Spec am) = None ->
  forall a, written am a -> Spec a = Spec am ->
  written am (setReady (setAddresses (setProviderID a (Some id)) l) true).
Proof.
  intros Hnone a Ha Hspec. destruct Ha as (H1 & H2 & H3 & H4 & H5 & H6 & H7 & H8 & H9).
  unfold written. cbn. rewrite Hspec. repeat split; auto.
  intros x Hx. congruence.
Qed.

Lemma written_AddFinalizer (am : AWSMachine) :
  written am (controllerutil.AddFinalizer am MachineFinalizer).
Proof.
  unfold controllerutil.AddFinalizer. destruct (controllerutil.containsString _ _).
  - apply written_refl.
  - apply (written_setters am am (written_refl am)).
Qed.

(** X14: Whatever the environment answers, a record that [Reconcile] sends in
    an update or a patch is the record it read, but for the finalizers,
    the observed status, and a provider identity where the record read
    had none: name, namespace, deletion marker, annotations, the failure
    reason and message and the rest of the spec are as read, and an
    identity that was set is still set to the same value. [Reconcile]
    creates no record and patches no node. *)
Theorem Reconcile_writes {W : Type} (h : handler W) (w w1 : W) (req : ObjectKey)
    (am : AWSMachine) :
  h (ClientGetAWSMachine req) w = (Ok am, w1) ->
  Forall (writesOnly am) (calls (run h (Reconcile req) w).1.1).
Proof.
  intros Hget.
  assert (HG : forall c, isWrite c = false -> writesOnly am c).
  { intros c Hc. destruct c; try discriminate; exact I. }
  unfold Reconcile, mbind, prog_bind, perform. cbn [bind run].
  rewrite Hget. cbv beta iota.
  match goal with
  | |- context [run h ?p w1] =>
      assert (Hsafe : safe (fun _ _ => True) (writesOnly am) (fun _ => True) p)
  end.
  { destruct (negb (IsZero _)).
    - unfold bindc, mbind, prog_bind.
      apply safe_bind with (Q1 := fun _ => True); [apply reconcileDelete_no_write; exact HG|].
      intros [e | msg] _; [|apply safe_ret; exact I].
      cbn [bind]. apply safe_call.
      + apply (written_setters am am (written_refl am)).
      + intros [err|] _; apply safe_ret; exact I.
    - destruct (bool_decide _); [apply safe_ret; exact I|].
      cbn [bind]. apply safe_call; [exact I|].
      intros [[m|] | err] _; try (apply safe_ret; exact I).
      cbn [bind]. apply safe_call; [exact I|].
      intros [err|] _; [apply safe_ret; exact I|].
      unfold deferPatch, mbind, prog_bind, perform.
      apply safe_bind
        with (Q1 := fun x : AWSMachine * completion (Result * option error) =>
                      written am x.1).
      + apply ReconcileBody_keeps.
        * exact HG.
        * apply written_AddFinalizer.
        * intros a s Ha _. apply (written_setters am a Ha).
        * intros a l Ha _. apply (written_setters am a Ha).
        * intros a Ha _. apply (written_setters am a Ha).
        * intros Hnone az id addresses.
          rewrite AddFinalizer_Spec in Hnone.
          apply (written_launch am _ _ Hnone); [apply written_AddFinalizer|].
          apply AddFinalizer_Spec.
      + intros [a c] Ha. cbn [fst] in Ha. cbn [bind].
        apply safe_call; [exact Ha|]. intros perr _.
        destruct c as [[res reterr] | msg]; [|apply safe_ret; exact I].
        destruct perr, reterr; apply safe_ret; exact I. }
  pose proof (safe_run h _ _ _ (fun _ => True) _ (fun c w _ _ => conj I I) Hsafe w1 I)
    as (Hcalls & _).
  destruct (run h _ w1) as [[t r] w2]. cbn [fst snd] in *.
  unfold calls. rewrite fmap_cons. constructor; [exact I | exact Hcalls].
Qed.

(** X15: A provider identity is written together with the ready flag: when
    the record read has no identity, the patch at the end of [Reconcile]
    carries either no identity and the status as read, or an identity of
    the form [aws:///<zone>/<id>] and ready set, also when the refresh
    after the launch fails or panics. *)
Theorem Reconcile_identity_with_ready {W : Type} (h : handler W) (w w1 : W) (req : ObjectKey)
    (am : AWSMachine) :
  h (ClientGetAWSMachine req) w = (Ok am, w1) ->
  ProviderID (Spec am) = None ->
  Forall (patchesIdentityWithReady am) (calls (run h (Reconcile req) w).1.1).
Proof.
  intros Hget Hnone.
  assert (HG : forall c, isWrite c = false -> patchesIdentityWithReady am c).
  { intros c Hc. destruct c; try discriminate; exact I. }
  unfold Reconcile, mbind, prog_bind, perform. cbn [bind run].
  rewrite Hget. cbv beta iota.
  match goal with
  | |- context [run h ?p w1] =>
      assert (Hsafe : safe (fun _ _ => True) (patchesIdentityWithReady am) (fun _ => True) p)
  end.
  { destruct (negb (IsZero _)).
    - unfold bindc, mbind, prog_bind.
      apply safe_bind with (Q1 := fun _ => True); [apply reconcileDelete_no_write; exact HG|].
      intros [e | msg] _; [|apply safe_ret; exact I].
      cbn [bind]. apply safe_call; [exact I|].
      intros [err|] _; apply safe_ret; exact I.
    - destruct (bool_decide _); [apply safe_ret; exact I|].
      cbn [bind]. apply safe_call; [exact I|].
      intros [[m|] | err] _; try (apply safe_ret; exact I).
      cbn [bind]. apply safe_call; [exact I|].
      intros [err|] _; [apply safe_ret; exact I|].
      unfold deferPatch, mbind, prog_bind, perform.
      apply safe_bind
        with (Q1 := fun x : AWSMachine * completion (Result * option error) =>
                      identityWithReady am x.1).
      + assert (Hstart : identityWithReady am
                           (controllerutil.AddFinalizer am MachineFinalizer)).
        { left. rewrite AddFinalizer_Spec. split; [exact Hnone|].
          unfold controllerutil.AddFinalizer.
          destruct (controllerutil.containsString _ _); reflexivity. }
        apply ReconcileBody_keeps; try exact HG; try exact Hstart.
        * intros a s [[Ha _] | (az & id & Ha & Hr)] Hsome; [congruence|].
          right. exists az, id. split; [exact Ha | exact Hr].
        * intros a l [[Ha _] | (az & id & Ha & Hr)] Hsome; [congruence|].
          right. exists az, id. split; [exact Ha | exact Hr].
        * intros a [[Ha _] | (az & id & Ha & Hr)] Hsome; [congruence|].
          right. exists az, id. split; [exact Ha | reflexivity].
        * intros _ az id addresses. right. exists az, id. split; reflexivity.
      + intros [a c] Ha. cbn [fst] in Ha. cbn [bind].
        apply safe_call; [exact Ha|]. intros perr _.
        destruct c as [[res reterr] | msg]; [|apply safe_ret; exact I].
        destruct perr, reterr; apply safe_ret; exact I. }
  pose proof (safe_run h _ _ _ (fun _ => True) _ (fun c w _ _ => conj I I) Hsafe w1 I)
    as (Hcalls & _).
  destruct (run h _ w1) as [[t r] w2]. cbn [fst snd] in *.
  unfold calls. rewrite fmap_cons. constructor; [exact I | exact Hcalls].
Qed.

End Writes.

Lemma Reconcile_writes_witness :
  Forall (writesOnly newMachine)
         (calls (run provisioning (controllers.Reconcile worker0) tt).1.1).
Proof. exact (Reconcile_writes provisioning tt tt worker0 newMachine eq_refl). Defined.

Lemma Reconcile_identity_with_ready_witness :
  Forall (patchesIdentityWithReady newMachine)
         (calls (run provisioning (controllers.Reconcile worker0) tt).1.1).
Proof.
  exact (Reconcile_identity_with_ready provisioning tt tt worker0 newMachine eq_refl eq_refl).
Defined.

(** ** The credentials of a launch *)

Section Credentials.
Import machinev1 infrav1 awsec2 controllers.

Lemma LaunchInstance_config R (G : call -> Prop) (cfg : aws.Config) (m : AWSMachine)
    (userData : string) :
  (forall c, launchesWith cfg c -> G c) ->
  safe R G (fun _ => True) (LaunchInstance cfg m userData).
Proof.
  intros HG.
  unfold LaunchInstance, launchInSubnet, random, bindc, mbind, prog_bind, perform. cbv zeta.
  repeat (cbn [bind];
          match goal with
          | |- safe _ _ _ (Ret _) => apply safe_ret; exact I
          | |- safe _ _ _ (Call _ _) =>
              apply safe_call; [apply HG; cbn; auto | intros ? _]
          | |- safe _ _ _ (bind (match ?x with _ => _ end) _) => destruct x eqn:?
          | |- safe _ _ _ (match ?x with _ => _ end) => destruct x eqn:?
          end).
Qed.

Lemma reconcileStatus_launchesWith R (cfg : aws.Config) (am : AWSMachine) :
  safe R (launchesWith cfg) (fun _ => True) (reconcileStatus am).
Proof.
  apply safe_weaken with (Q1 := fun x => True); [|auto].
  apply (safe_reconcileStatus R (launchesWith cfg) (fun _ => True)); auto.
  intros cfg' ids. exact I.
Qed.

(** X16: Both keys or neither: the backend calls of a launch use the region of
    the record; they carry static credentials exactly when the record
    refers to a secret in which the access key id and the secret access
    key are both present and not empty, and then those two; with no
    reference, or with one of the keys missing, they carry none. *)
Theorem launch_credentials {W : Type} (h : handler W) (am : AWSMachine) (m : Machine) (w : W) :
  match SecretRef (Spec am) with
  | None =>
      Forall (launchesWith (aws.mkConfig (Region (Spec am)) None))
             (calls (run h (ReconcileBody am m) w).1.1)
  | Some ref =>
      forall s0 : Secret,
        (forall w' s,
           (h (ClientGetSecret {| keyNamespace := MachineNamespace m;
                                  keyName := refName ref |}) w').1 = Ok s -> s = s0) ->
        Forall (launchesWith (aws.mkConfig (Region (Spec am)) (staticCredentials s0)))
               (calls (run h (ReconcileBody am m) w).1.1)
  end.
Proof.
  assert (Hbody : forall (cfg0 : aws.Config) (R : forall c, resp c -> Prop),
            (forall ref s, SecretRef (Spec am) = Some ref ->
               R (ClientGetSecret {| keyNamespace := MachineNamespace m;
                                     keyName := refName ref |}) (Ok s) ->
               aws.mkConfig (Region (Spec am)) (staticCredentials s) = cfg0) ->
            (SecretRef (Spec am) = None -> aws.mkConfig (Region (Spec am)) None = cfg0) ->
            safe R (launchesWith cfg0) (fun _ => True) (ReconcileBody am m)).
  { intros cfg0 R Hsome Hnone.
    assert (Hrefresh : forall a : AWSMachine,
              safe R (launchesWith cfg0) (fun _ => True)
                (bind (reconcileStatus a)
                   (fun '(am, c) =>
                      match c with
                      | Panic msg => Ret (am, Panic msg)
                      | Done (Some err) => Ret (am, Done (ResultZero, Some err))
                      | Done None => Ret (am, Done (ResultZero, None))
                      end))).
    { intros a. apply safe_bind with (Q1 := fun _ => True).
      - apply reconcileStatus_launchesWith.
      - intros [a' c] _. destruct c as [[e|] | msg]; apply safe_ret; exact I. }
    unfold ReconcileBody. cbv zeta. unfold mbind, prog_bind, perform.
    destruct (ProviderID (Spec am)); [apply Hrefresh|].
    cbn [bind]. apply safe_call; [exact I|].
    intros [cfg | err] _; [|apply safe_ret; exact I].
    destruct (negb (machinev1.Ready cfg)); [apply safe_ret; exact I|].
    destruct (DataSecretName cfg) as [secretName|]; [|apply safe_ret; exact I].
    cbn [bind]. apply safe_call; [exact I|].
    intros [s | err] _; [|apply safe_ret; exact I].
    destruct (Data s !! "cloud-config") as [userData|]; [|apply safe_ret; exact I].
    apply safe_bind with (Q1 := fun r => match r with
                                         | Ok awscfg => awscfg = cfg0
                                         | Err _ => True
                                         end).
    { destruct (SecretRef (Spec am)) as [ref|] eqn:Href.
      - cbn [bind]. apply safe_call; [exact I|].
        intros [s' | err] Hr; [|apply safe_ret; exact I].
        specialize (Hsome ref s' eq_refl Hr). unfold staticCredentials in Hsome.
        cbv zeta in Hsome.
        destruct (negb _ && negb _); apply safe_ret; exact Hsome.
      - apply safe_ret. apply Hnone. reflexivity. }
    intros [awscfg | err] Hcfg; [|apply safe_ret; exact I]. subst awscfg.
    cbn [bind]. apply safe_call; [exact I|].
    intros [data | err] _; [|apply safe_ret; exact I].
    cbn [bind]. apply safe_call; [exact I|]. intros encoded _.
    apply safe_bind with (Q1 := fun _ => True); [apply LaunchInstance_config; auto|].
    intros [[[instance|] [err|]] | msg] _; try (apply safe_ret; exact I).
    destruct (ec2.InstancePlacement instance); [|apply safe_ret; exact I].
    cbn [getInstanceAddresses]. apply Hrefresh. }
  destruct (SecretRef (Spec am)) as [ref|] eqn:Href.
  - intros s0 Hs0.
    set (key := {| keyNamespace := MachineNamespace m; keyName := refName ref |}) in *.
    pose proof (Hbody (aws.mkConfig (Region (Spec am)) (staticCredentials s0))
                  (answersSecret key s0)) as Hsafe.
    pose proof (safe_run h (answersSecret key s0)
                  (launchesWith (aws.mkConfig (Region (Spec am)) (staticCredentials s0)))
                  (fun _ => True) (fun _ => True) (ReconcileBody am m)) as Hrun.
    apply Hrun; auto.
    + intros c w' _ _. split; [|exact I].
      destruct c; try exact I. cbn [answersSecret].
      destruct (h (ClientGetSecret key0) w').1 as [s|e] eqn:Hk; [|exact I].
      intros ->. apply (Hs0 w'). exact Hk.
    + apply Hsafe; [|discriminate].
      intros ref' s Heq Hr. injection Heq as <-. cbn [answersSecret] in Hr.
      rewrite (Hr eq_refl). reflexivity.
  - pose proof (Hbody (aws.mkConfig (Region (Spec am)) None) (fun _ _ => True)) as Hsafe.
    apply (safe_run h (fun _ _ => True)
             (launchesWith (aws.mkConfig (Region (Spec am)) None))
             (fun _ => True) (fun _ => True) (ReconcileBody am m)); auto.
    apply Hsafe; [discriminate | reflexivity].
Qed.

End Credentials.

Lemma launch_credentials_witness :
  Forall (launchesWith (aws.mkConfig "us-east-1" (Some ("AKIAEXAMPLE", "s3cr3t"))))
         (calls (run (provisioningWith fullCredentials)
                     (controllers.ReconcileBody machineWithSecretRef ownerMachine) tt).1.1) /\
  Forall (launchesWith (aws.mkConfig "us-east-1" None))
         (calls (run (provisioningWith halfCredentials)
                     (controllers.ReconcileBody machineWithSecretRef ownerMachine) tt).1.1) /\
  Forall (launchesWith (aws.mkConfig "us-east-1" None))
         (calls (run (provisioningWith fullCredentials)
                     (controllers.ReconcileBody newMachine ownerMachine) tt).1.1).
Proof.
  split; [|split].
  - exact (launch_credentials (provisioningWith fullCredentials) machineWithSecretRef
             ownerMachine tt fullCredentials
             (fun w' s H => eq_sym (f_equal (fun r => match r with
                                                        | Ok x => x
                                                        | Err _ => fullCredentials
                                                        end) H))).
  - exact (launch_credentials (provisioningWith halfCredentials) machineWithSecretRef
             ownerMachine tt halfCredentials
             (fun w' s H => eq_sym (f_equal (fun r => match r with
                                                        | Ok x => x
                                                        | Err _ => halfCredentials
                                                        end) H))).
  - exact (launch_credentials (provisioningWith fullCredentials) newMachine ownerMachine tt).
Defined.

(** In the scenario with both keys the launch is made with them. *)
Example launch_with_both_keys :
  In (DescribeSubnetsWithContext (aws.mkConfig "us-east-1" (Some ("AKIAEXAMPLE", "s3cr3t")))
        scenarioFilters)
     (calls (run (provisioningWith fullCredentials)
                 (controllers.ReconcileBody machineWithSecretRef ownerMachine) tt).1.1).
Proof. vm_compute. tauto. Qed.

(** ** Route 53 *)

Section Route53.
Import route53.

Lemma SplitAfterN2_whole (s : string) (sep : ascii) :
  gostrings.ContainsByte s sep = false -> SplitAfterN2 s sep = [s].
Proof.
  induction s as [|c s IH]; [reflexivity|]. cbn [gostrings.ContainsByte SplitAfterN2].
  intros H. apply orb_false_iff in H as [Hc Hs]. rewrite Hc, (IH Hs). reflexivity.
Qed.

Lemma SplitAfterN2_first (host rest : string) (sep : ascii) :
  gostrings.ContainsByte host sep = false ->
  SplitAfterN2 (host +:+ String sep rest) sep = [host +:+ String sep ""; rest].
Proof.
  induction host as [|c host IH]; cbn [gostrings.ContainsByte]; intros H.
  - cbn. rewrite Ascii.eqb_refl. reflexivity.
  - apply orb_false_iff in H as [Hc Hs].
    change (String c host +:+ String sep rest) with (String c (host +:+ String sep rest)).
    cbn [SplitAfterN2]. rewrite Hc, (IH Hs). reflexivity.
Qed.

(** X17: [ParseDomain] returns what follows the first dot of a name, which may
    be empty, and fails with the invalid-name error exactly on the names
    without a dot. *)
Theorem ParseDomain_after_first_dot :
  (forall name : string,
     gostrings.ContainsByte name "." = false ->
     ParseDomain name = ("", Some (ErrInvalidName name))) /\
  (forall host domain : string,
     gostrings.ContainsByte host "." = false ->
     ParseDomain (host +:+ String "." domain) = (domain, None)).
Proof.
  split.
  - intros name H. unfold ParseDomain. rewrite (SplitAfterN2_whole name "." H). reflexivity.
  - intros host domain H. unfold ParseDomain.
    rewrite (SplitAfterN2_first host domain "." H). reflexivity.
Qed.

Lemma eachPage_zones (pages : list (list HostedZone)) (failure : option error)
    (zones : gmap string string) :
  eachPage pages failure
    (fun (page : list HostedZone) (lastPage : bool) (zones : gmap string string) =>
       (foldl insertZone zones page, negb lastPage)) zones
  = (foldl insertZone zones (concat pages), failure).
Proof.
  revert zones. induction pages as [|page rest IH]; intros zones; [reflexivity|].
  cbn [eachPage concat]. rewrite foldl_app.
  destruct rest as [|page' rest'].
  - destruct failure; reflexivity.
  - cbn [negb andb]. rewrite IH. reflexivity.
Qed.

Lemma foldl_insertZone_other (l : list HostedZone) (zones : gmap string string)
    (domain : string) :
  Forall (fun z => zoneKey z <> domain) l ->
  foldl insertZone zones l !! domain = zones !! domain.
Proof.
  revert zones. induction l as [|z l IH]; intros zones Hl; [reflexivity|].
  apply Forall_cons in Hl as [Hz Hl]. cbn [foldl]. rewrite (IH _ Hl).
  unfold insertZone. apply lookup_insert_ne. exact Hz.
Qed.

(** X18: [LookupZoneID] looks for the zone whose name, without one dot at its
    end, is all of the name after its first dot: it returns the id,
    without the prefix [/hostedzone/], of the last zone listed under that
    name, and the no-hosted-zone error when none is; when the listing
    fails, the error is that of the listing, for every name. *)
Theorem LookupZoneID_last_zone_of_parent (pages : list (list HostedZone))
    (host domain : string) :
  gostrings.ContainsByte host "." = false ->
  let name := host +:+ String "." domain in
  (forall err, LookupZoneID {| Pages := pages; Failure := Some err |} name
               = ("", Some (ErrRequest err))) /\
  (forall before zone after,
     concat pages = before ++ zone :: after ->
     zoneKey zone = domain ->
     Forall (fun z => zoneKey z <> domain) after ->
     LookupZoneID {| Pages := pages; Failure := None |} name
       = (TrimPrefix (aws.StringValue (ZoneId zone)) "/hostedzone/", None)) /\
  (Forall (fun z => zoneKey z <> domain) (concat pages) ->
   LookupZoneID {| Pages := pages; Failure := None |} name
     = ("", Some (ErrNoHostedZone name))).
Proof.
  intros Hhost name. unfold LookupZoneID. cbn [Pages Failure].
  change (fun (page : list HostedZone) (lastPage : bool) (zones : gmap string string) =>
            (foldl (fun zones zone =>
                      <[ TrimSuffix (aws.StringValue (ZoneName zone)) "."
                         := TrimPrefix (aws.StringValue (ZoneId zone)) "/hostedzone/" ]> zones)
                   zones page, negb lastPage))
    with (fun (page : list HostedZone) (lastPage : bool) (zones : gmap string string) =>
            (foldl insertZone zones page, negb lastPage)).
  unfold name. rewrite (SplitAfterN2_first host domain "." Hhost).
  repeat split.
  - intros err. rewrite eachPage_zones. reflexivity.
  - intros before zone after Hall Hkey Hafter. rewrite eachPage_zones, Hall, foldl_app.
    cbn [foldl]. rewrite (foldl_insertZone_other _ _ _ Hafter).
    unfold insertZone at 1. rewrite Hkey, lookup_insert_eq. reflexivity.
  - intros Hnone. rewrite eachPage_zones, (foldl_insertZone_other _ _ _ Hnone).
    rewrite lookup_empty. reflexivity.
Qed.

Lemma appendRecords_takeWhile (page : list ResourceRecordSet) (name : string)
    (addrs : list string) :
  appendRecords page name addrs
  = (addrs ++ recordValues (takeWhile (namedAs name) page), forallb (namedAs name) page).
Proof.
  revert addrs. induction page as [|rs page IH]; intros addrs; cbn [appendRecords].
  - cbn. rewrite app_nil_r. reflexivity.
  - cbn [takeWhile forallb]. unfold namedAs at 1 3.
    destruct (String.eqb _ name); cbn [negb andb].
    + rewrite IH. unfold recordValues. cbn [fmap list_fmap concat].
      rewrite app_assoc. reflexivity.
    + cbn. rewrite app_nil_r. reflexivity.
Qed.

Lemma takeWhile_app {A : Type} (f : A -> bool) (l1 l2 : list A) :
  takeWhile f (l1 ++ l2)
  = if forallb f l1 then l1 ++ takeWhile f l2 else takeWhile f l1.
Proof.
  induction l1 as [|x l1 IH]; [reflexivity|]. cbn.
  destruct (f x); cbn; [|reflexivity]. rewrite IH.
  destruct (forallb f l1); reflexivity.
Qed.

Lemma recordValues_app (l1 l2 : list ResourceRecordSet) :
  recordValues (l1 ++ l2) = recordValues l1 ++ recordValues l2.
Proof. unfold recordValues. rewrite fmap_app, concat_app. reflexivity. Qed.

Lemma takeWhile_all {A : Type} (f : A -> bool) (l : list A) :
  forallb f l = true -> takeWhile f l = l.
Proof.
  induction l as [|x l IH]; [reflexivity|]. cbn.
  destruct (f x); cbn; [|discriminate]. intros H. rewrite (IH H). reflexivity.
Qed.

(** X19: [List] returns the values of the record sets that come before the
    first set with another name, over all pages in order, and asks for no
    page after that set; only when every set delivered has the name does
    an error of the listing come back, in place of the values. *)
Theorem List_values_until_other_name (pages : list (list ResourceRecordSet))
    (failure : option error) (name : string) :
  List {| Pages := pages; Failure := failure |} name =
  if forallb (namedAs name) (concat pages)
  then match failure with
       | Some err => ([], Some (ErrRequest err))
       | None => (recordValues (concat pages), None)
       end
  else (recordValues (takeWhile (namedAs name) (concat pages)), None).
Proof.
  unfold List. cbn [Pages Failure].
  assert (Hpages : forall addrs : list string,
            eachPage pages failure
              (fun (page : list ResourceRecordSet) (lastPage : bool) (addrs : list string) =>
                 let '(addrs1, complete) := appendRecords page name addrs in
                 (addrs1, complete && negb lastPage)) addrs
            = if forallb (namedAs name) (concat pages)
              then (addrs ++ recordValues (concat pages), failure)
              else (addrs ++ recordValues (takeWhile (namedAs name) (concat pages)), None)).
  { induction pages as [|page rest IH]; intros addrs.
    - cbn. rewrite app_nil_r. reflexivity.
    - cbn [eachPage concat]. rewrite appendRecords_takeWhile.
      rewrite forallb_app, takeWhile_app.
      destruct (forallb (namedAs name) page) eqn:Hpage; cbn [andb].
      + rewrite (takeWhile_all _ _ Hpage).
        destruct rest as [|page' rest'].
        * cbn [concat forallb takeWhile]. rewrite !app_nil_r.
          destruct failure; reflexivity.
        * cbn [negb andb]. rewrite IH, !recordValues_app.
          destruct (forallb _ (concat (page' :: rest'))); rewrite app_assoc; reflexivity.
      + reflexivity. }
  rewrite Hpages. cbn [app].
  destruct (forallb _ _); [destruct failure|]; reflexivity.
Qed.

End Route53.

Lemma ParseDomain_after_first_dot_witness :
  route53.ParseDomain "localhost" = ("", Some (route53.ErrInvalidName "localhost")) /\
  route53.ParseDomain "node-1.cluster.example.com" = ("cluster.example.com", None).
Proof.
  split.
  - exact (proj1 ParseDomain_after_first_dot "localhost" eq_refl).
  - exact (proj2 ParseDomain_after_first_dot "node-1" "cluster.example.com" eq_refl).
Defined.

Lemma LookupZoneID_last_zone_of_parent_witness :
  route53.LookupZoneID
    {| route53.Pages := [ [zoneOf "example.com." "/hostedzone/Z1"];
                          [zoneOf "example.com." "/hostedzone/Z2";
                           zoneOf "example.org." "/hostedzone/Z3"] ];
       route53.Failure := None |}
    "api.example.com"
  = ("Z2", None).
Proof.
  exact (proj1 (proj2 (LookupZoneID_last_zone_of_parent
                         [ [zoneOf "example.com." "/hostedzone/Z1"];
                           [zoneOf "example.com." "/hostedzone/Z2";
                            zoneOf "example.org." "/hostedzone/Z3"] ]
                         "api" "example.com" eq_refl))
           [zoneOf "example.com." "/hostedzone/Z1"]
           (zoneOf "example.com." "/hostedzone/Z2")
           [zoneOf "example.org." "/hostedzone/Z3"]
           eq_refl eq_refl
           ltac:(repeat constructor; discriminate)).
Defined.

(** A listing that goes on to another name, on the second page. *)
Example List_stops_at_other_name :
  route53.List
    {| route53.Pages := [ [recordSet "api.example.com." ["10.0.0.1"; "10.0.0.2"]];
                          [recordSet "api.example.com." ["10.0.0.3"];
                           recordSet "db.example.com." ["10.0.1.1"]];
                          [recordSet "api.example.com." ["10.0.0.9"]] ];
       route53.Failure := Some (OtherErr "timeout") |}
    "api.example.com"
  = (["10.0.0.1"; "10.0.0.2"; "10.0.0.3"], None).
Proof. reflexivity. Qed.

(** ** Nodes without a record *)

Section NodeRecords.
Import machinev1 infrav1 awsec2 controllers.
Context {W : Type} (h : handler W).

Lemma find_first_match (n : Node) (before after_ : list AWSMachine) (m : AWSMachine) :
  Forall (fun m' => ~ recordOf n m') before ->
  recordOf n m ->
  find (fun m => match ProviderID (Spec m) with
                 | Some id => String.eqb id (NodeProviderID n)
                 | None => false
                 end) (before ++ m :: after_) = Some m.
Proof.
  unfold recordOf. intros Hbefore Hm.
  induction Hbefore as [|m' before Hm' _ IH]; simpl.
  - rewrite Hm, String.eqb_refl. reflexivity.
  - destruct (ProviderID (Spec m')) as [id|]; [|exact IH].
    destruct (String.eqb id (NodeProviderID n)) eqn:E; [|exact IH].
    apply String.eqb_eq in E. congruence.
Qed.

Lemma annotates_more (n : Node) (m : AWSMachine) (t t' : list event) (c : call) :
  annotates n m t c -> annotates n m (t' ++ t) c.
Proof.
  destruct c; cbn [annotates]; auto.
  intros (Hname & Hkey & Hdata). repeat split; auto.
  apply Exists_app. right. exact Hdata.
Qed.

Lemma run_setAWSMachineAnnotation (n : Node) (m : AWSMachine) (w : W) :
  let out := run h (setAWSMachineAnnotation m (NodeName n)) w in
  annotation_run n m out.1.1 out.1.2.
Proof.
  cbv zeta. unfold annotation_run, setAWSMachineAnnotation. run_simpl.
  change {| refAPIVersion := APIVersion m; refKind := "AWSMachine";
            refName := Name (Meta m); refNamespace := Namespace (Meta m) |}
    with (referenceTo m).
  destruct (h (JsonMarshal _) w) as [[data | e] w1];
    cbn [run fst snd calls fmap list_fmap projT1].
  2: { rewrite !Exists_cons, Exists_nil. cbn [readsNilMap].
       repeat split; try tauto; try discriminate.
       - repeat constructor.
       - intros [msg Hmsg]. discriminate. }
  destruct (h KubernetesNewForConfig w1) as [[e|] w2];
    cbn [run fst snd calls fmap list_fmap projT1].
  { rewrite !Exists_cons, Exists_nil. cbn [readsNilMap].
    repeat split; try tauto; try discriminate.
    - repeat constructor.
    - intros [msg Hmsg]. discriminate. }
  destruct (h (PatchNodeGet _) w2) as [[[annotations|] | e] w3];
    cbn [run fst snd calls fmap list_fmap projT1].
  - destruct (h (PatchNode _ _ _) w3) as [r w4].
    cbn [run fst snd calls fmap list_fmap projT1].
    rewrite !Exists_cons, Exists_nil. cbn [readsNilMap].
    split; [|split; [|split]].
    + repeat constructor.
    + intros _. exists data. reflexivity.
    + split; [intros [msg Hmsg]; discriminate|].
      intros [[]|[[]|[Hnil|[[]|[]]]]]. discriminate.
    + intros [[]|[[]|[Hnil|[[]|[]]]]]. discriminate.
  - rewrite !Exists_cons, Exists_nil. cbn [readsNilMap].
    split; [|split; [|split]].
    + repeat constructor.
    + discriminate.
    + split; [intros _; tauto | intros _; eauto].
    + intros _. split; [reflexivity|]. repeat constructor; intros [].
  - rewrite !Exists_cons, Exists_nil. cbn [readsNilMap].
    split; [|split; [|split]].
    + repeat constructor.
    + discriminate.
    + split; [intros [msg Hmsg]; discriminate|].
      intros [[]|[[]|[Hnil|[]]]]. discriminate.
    + intros [[]|[[]|[Hnil|[]]]]. discriminate.
Qed.

(** The events before the annotation is written read no node. *)
Lemma annotation_run_after (n : Node) (m : AWSMachine) (t0 t : list event)
    (r : completion (option error)) :
  Forall (fun ev => ~ readsNilMap ev) t0 ->
  annotation_run n m t r ->
  Forall (annotates n m (t0 ++ t)) (calls t) /\
  (r = Done None ->
   exists data, last (calls t) = Some (PatchNode (NodeName n) NodeOwnerLabelName data)) /\
  ((exists msg, r = Panic msg) <-> Exists readsNilMap (t0 ++ t)) /\
  (Exists readsNilMap (t0 ++ t) ->
   r = Panic NilMapAssignment /\ Forall (fun c => ~ patchesNode c) (calls t)).
Proof.
  intros Ht0 (Hcalls & Hlast & Hpanic & Hnil).
  assert (Hsame : Exists readsNilMap (t0 ++ t) <-> Exists readsNilMap t).
  { rewrite Exists_app. split; [|tauto].
    intros [H0 | H1]; [|exact H1].
    apply Exists_exists in H0 as (ev & Hin & Hev).
    rewrite Forall_forall in Ht0. destruct (Ht0 ev Hin Hev). }
  split; [|split; [exact Hlast|split]].
  - eapply Forall_impl; [exact Hcalls|]. intros c Hc. apply annotates_more. exact Hc.
  - rewrite Hsame. exact Hpanic.
  - rewrite Hsame. exact Hnil.
Qed.

(** X20: When a record with the node's provider identity is listed,
    [ensureAWSMachineForNode] creates nothing and asks the backend
    nothing: after the list it only writes the annotation, for the first
    such record, on the node, and the value it patches is what the
    marshalling of the reference to that record returned. It returns
    without error only when the patch of the node was its last call. It
    panics exactly when the node that [PatchNode] read has a nil
    annotation map, on the assignment to that map, and then sends no
    patch. *)
Theorem ensureAWSMachineForNode_annotates_existing (w w1 : W) (n : Node)
    (before after_ : list AWSMachine) (m : AWSMachine) :
  NodeAnnotations n !! NodeOwnerLabelName = None ->
  h ClientList w = (Ok (before ++ m :: after_), w1) ->
  Forall (fun m' => ~ recordOf n m') before ->
  recordOf n m ->
  let out := run h (ensureAWSMachineForNode n) w in
  exists rest,
    calls out.1.1 = ClientList :: rest /\
    Forall (annotates n m out.1.1) rest /\
    (out.1.2 = Done None ->
     exists data, last rest = Some (PatchNode (NodeName n) NodeOwnerLabelName data)) /\
    ((exists msg, out.1.2 = Panic msg) <-> Exists readsNilMap out.1.1) /\
    (Exists readsNilMap out.1.1 ->
     out.1.2 = Panic NilMapAssignment /\ Forall (fun c => ~ patchesNode c) rest).
Proof.
  intros Hann Hlist Hbefore Hm. cbv zeta.
  unfold ensureAWSMachineForNode. rewrite Hann.
  rewrite bool_decide_eq_false_2 by (intros [x Hx]; discriminate).
  unfold mbind, prog_bind, perform. cbn [bind run]. rewrite Hlist. cbv beta iota.
  rewrite (find_first_match n before after_ m Hbefore Hm).
  pose proof (run_setAWSMachineAnnotation n m w1) as Hset. cbv zeta in Hset.
  destruct (run h (setAWSMachineAnnotation m (NodeName n)) w1) as [[t r] w2].
  cbn [fst snd] in *.
  exists (calls t). split; [reflexivity|].
  apply (annotation_run_after n m [existT ClientList (Ok (before ++ m :: after_))] t r);
    [|exact Hset].
  repeat constructor. intros [].
Qed.

(** X21: When no listed record has the node's provider identity and the
    backend describes the instance, [ensureAWSMachineForNode] asks for the
    instance of the identity in the region of its zone and creates one
    record: named as the node, in [kube-system], with the node's provider
    identity and the addresses of the instance, not ready and without
    finalizer. When the creation fails it returns that error and leaves
    the node as it is; otherwise it writes the annotation for that
    record, and the value it patches is what the marshalling of the
    reference to that record returned. It panics exactly when the node
    that [PatchNode] read has a nil annotation map, after the record was
    created, and then sends no patch. *)
Theorem ensureAWSMachineForNode_creates_record (w w1 : W) (n : Node)
    (Items : list AWSMachine) (p : awsutil.ProviderID) (i : ec2.Instance) :
  NodeAnnotations n !! NodeOwnerLabelName = None ->
  h ClientList w = (Ok Items, w1) ->
  Forall (fun m => ~ recordOf n m) Items ->
  awsutil.ParseProviderID (NodeProviderID n) = (Some p, None) ->
  let c := DescribeInstancesWithContext (aws.mkConfig (awsutil.Region p) None)
             [Some (awsutil.InstanceID p)] in
  firstInstance (h c w1).1 = Some i ->
  let out := run h (ensureAWSMachineForNode n) w in
  exists am rest,
    calls out.1.1 = ClientList :: c :: ClientCreate am :: rest /\
    Name (Meta am) = NodeName n /\ Namespace (Meta am) = NamespaceSystem /\
    recordOf n am /\
    getInstanceAddresses (Some i) = Done (Addresses (Status am)) /\
    Finalizers (Meta am) = [] /\ Ready (Status am) = false /\
    match (h (ClientCreate am) (h c w1).2).1 with
    | Some e => rest = [] /\ out.1.2 = Done (Some e)
    | None =>
        Forall (annotates n am out.1.1) rest /\
        (out.1.2 = Done None ->
         exists data, last rest = Some (PatchNode (NodeName n) NodeOwnerLabelName data)) /\
        ((exists msg, out.1.2 = Panic msg) <-> Exists readsNilMap out.1.1) /\
        (Exists readsNilMap out.1.1 ->
         out.1.2 = Panic NilMapAssignment /\ Forall (fun c => ~ patchesNode c) rest)
    end.
Proof.
  intros Hann Hlist Hnone Hparse c Hfirst. unfold c in *. clear c. cbv zeta.
  unfold ensureAWSMachineForNode. rewrite Hann.
  rewrite bool_decide_eq_false_2 by (intros [x Hx]; discriminate).
  unfold mbind, prog_bind, perform. cbn [bind run]. rewrite Hlist. cbv beta iota.
  rewrite (find_no_match n Items Hnone), Hparse.
  rewrite run_bind, run_DescribeInstance. cbv zeta.
  change (aws.StringSlice [awsutil.InstanceID p]) with [Some (awsutil.InstanceID p)].
  destruct (h (DescribeInstancesWithContext _ _) w1) as [r w2]. cbn [fst snd] in *.
  destruct r as [out | e]; [|discriminate]. cbn [firstInstance] in Hfirst.
  destruct (ec2.Reservations out) as [|r0 rs]; [discriminate|].
  destruct (ec2.Instances r0) as [|i0 is_]; [discriminate|].
  cbn [head] in Hfirst. injection Hfirst as ->.
  run_simpl. cbn [getInstanceAddresses bind run].
  match goal with |- context [ClientCreate ?a] => set (am := a) end.
  destruct (h (ClientCreate am) w2) as [[e|] w3] eqn:Hcreate; cbn [run fst snd].
  - exists am, []. rewrite Hcreate. cbn [app calls fmap list_fmap projT1 fst].
    repeat (split; [reflexivity|]). split; reflexivity.
  - pose proof (run_setAWSMachineAnnotation n am w3) as Hset. cbv zeta in Hset.
    destruct (run h (setAWSMachineAnnotation am (NodeName n)) w3) as [[t r] w4].
    cbn [fst snd] in *.
    exists am, (calls t). rewrite Hcreate.
    cbn [app calls fmap list_fmap projT1 fst].
    repeat (split; [reflexivity|]).
    apply (annotation_run_after n am
             [existT ClientList (Ok Items);
              existT (DescribeInstancesWithContext
                        (aws.mkConfig (awsutil.Region p) None)
                        [Some (awsutil.InstanceID p)]) (Ok out);
              existT (ClientCreate am) None] t r); [|exact Hset].
    repeat constructor; intros [].
Qed.

End NodeRecords.

Lemma ensureAWSMachineForNode_annotates_existing_witness :
  let out := run (withList [newMachine; launchedMachine] silent)
               (controllers.ensureAWSMachineForNode node0) tt in
  exists rest,
    calls out.1.1 = ClientList :: rest /\
    Forall (annotates node0 launchedMachine out.1.1) rest /\
    (out.1.2 = Done None ->
     exists data,
       last rest = Some (PatchNode (NodeName node0) infrav1.NodeOwnerLabelName data)) /\
    ((exists msg, out.1.2 = Panic msg) <-> Exists readsNilMap out.1.1) /\
    (Exists readsNilMap out.1.1 ->
     out.1.2 = Panic NilMapAssignment /\ Forall (fun c => ~ patchesNode c) rest).
Proof.
  exact (ensureAWSMachineForNode_annotates_existing
           (withList [newMachine; launchedMachine] silent) tt tt node0
           [newMachine] [] launchedMachine eq_refl eq_refl
           ltac:(repeat constructor; discriminate) eq_refl).
Defined.

Lemma ensureAWSMachineForNode_creates_record_witness :
  let h := withDescribe (describes "running") silent in
  let c := DescribeInstancesWithContext usEast1 [Some "i-0abc"] in
  let out := run h (controllers.ensureAWSMachineForNode node0) tt in
  exists am rest,
    calls out.1.1 = ClientList :: c :: ClientCreate am :: rest /\
    Name (infrav1.Meta am) = NodeName node0 /\
    Namespace (infrav1.Meta am) = NamespaceSystem /\
    recordOf node0 am /\
    controllers.getInstanceAddresses (Some (instanceIn "running"))
      = Done (infrav1.Addresses (infrav1.Status am)) /\
    Finalizers (infrav1.Meta am) = [] /\ infrav1.Ready (infrav1.Status am) = false /\
    match (h (ClientCreate am) (h c tt).2).1 with
    | Some e => rest = [] /\ out.1.2 = Done (Some e)
    | None =>
        Forall (annotates node0 am out.1.1) rest /\
        (out.1.2 = Done None ->
         exists data,
           last rest = Some (PatchNode (NodeName node0) infrav1.NodeOwnerLabelName data)) /\
        ((exists msg, out.1.2 = Panic msg) <-> Exists readsNilMap out.1.1) /\
        (Exists readsNilMap out.1.1 ->
         out.1.2 = Panic NilMapAssignment /\ Forall (fun c => ~ patchesNode c) rest)
    end.
Proof.
  exact (ensureAWSMachineForNode_creates_record
           (withDescribe (describes "running") silent) tt tt node0 []
           (awsutil.mkProviderID "us-east-1a" "us-east-1" "i-0abc") (instanceIn "running")
           eq_refl eq_refl (List.Forall_nil _) eq_refl eq_refl).
Defined.

(** A node of an instance that is running, without a record: the record
    is created and the node annotated with its reference. *)
Example ensure_new_node :
  calls (run (withDescribe (describes "running") silent)
           (controllers.ensureAWSMachineForNode node0) tt).1.1
  = [ ClientList;
      DescribeInstancesWithContext usEast1 [Some "i-0abc"];
      ClientCreate
        {| infrav1.APIVersion := "";
           infrav1.Meta := {| Name := "ip-10-0-0-7"; Namespace := "kube-system";
                              DeletionTimestamp := None; Finalizers := [];
                              Annotations := ∅ |};
           infrav1.Spec := controllers.emptySpec (Some "aws:///us-east-1a/i-0abc");
           infrav1.Status :=
             {| infrav1.Ready := false;
                infrav1.Addresses :=
                  [ {| machinev1.Type_ := machinev1.MachineInternalDNS;
                       machinev1.Address := "ip-10-0-0-7.ec2.internal" |};
                    {| machinev1.Type_ := machinev1.MachineInternalIP;
                       machinev1.Address := "10.0.0.7" |} ];
                infrav1.InstanceState := ""; infrav1.FailureReason := None;
                infrav1.FailureMessage := None |} |};
      JsonMarshal {| refAPIVersion := ""; refKind := "AWSMachine";
                     refName := "ip-10-0-0-7"; refNamespace := "kube-system" |};
      KubernetesNewForConfig;
      PatchNodeGet "ip-10-0-0-7";
      PatchNode "ip-10-0-0-7" "infrastructure.crit.sh/awsmachine" "ip-10-0-0-7" ].
Proof. reflexivity. Qed.

(** The same node, read by [PatchNode] with a nil annotation map: the
    record is created, and the assignment panics. *)
Example ensure_new_node_nil_map :
  let out := run (withNodeRead (Ok None) (withDescribe (describes "running") silent))
               (controllers.ensureAWSMachineForNode node0) tt in
  last (calls out.1.1) = Some (PatchNodeGet "ip-10-0-0-7") /\
  out.1.2 = Panic NilMapAssignment.
Proof. cbv zeta. split; reflexivity. Qed.

(** ** The node reconciler *)

Section NodeReconcile.
Import machinev1 infrav1 awsec2 controllers nodes.
Context {W : Type} (h : nhandler W).

Lemma nrun_bind {A B : Type} (p : nprog A) (f : A -> nprog B) (w : W) :
  nrun h (nbind p f) w =
  let '(t1, a, w1) := nrun h p w in
  let '(t2, b, w2) := nrun h (f a) w1 in
  (t1 ++ t2, b, w2).
Proof.
  revert w. induction p as [a | c k IH]; intros w; simpl.
  - destruct (nrun h (f a) w) as [[t2 b] w2]. reflexivity.
  - destruct (h c w) as [r w1]. rewrite IH.
    destruct (nrun h (k r) w1) as [[t1 a] w2].
    destruct (nrun h (f a) w2) as [[t2 b] w3]. reflexivity.
Qed.

(** A lifted program runs as the program does, on the calls of the
    record reconciler. *)
Lemma nrun_lift {A : Type} (p : prog A) (w : W) :
  ncalls (nrun h (lift p) w).1.1 = Base <$> calls (run (baseOf h) p w).1.1 /\
  (nrun h (lift p) w).1.2 = (run (baseOf h) p w).1.2 /\
  (nrun h (lift p) w).2 = (run (baseOf h) p w).2.
Proof.
  revert w. induction p as [a | c k IH]; intros w; simpl.
  - repeat split.
  - unfold baseOf at 1 3 5. destruct (h (Base c) w) as [r w1].
    specialize (IH r w1).
    destruct (nrun h (lift (k r)) w1) as [[t a] w2].
    destruct (run (baseOf h) (k r) w1) as [[t' a'] w2'].
    simpl in *. destruct IH as (-> & -> & ->). repeat split.
Qed.

Lemma safe_setAWSMachineAnnotation (m : AWSMachine) (name : string) :
  safe (fun _ _ => True) ensureCall (fun _ => True) (setAWSMachineAnnotation m name).
Proof.
  unfold setAWSMachineAnnotation. run_simpl.
  apply safe_call; [exact I|]. intros [data | e] _; [|apply safe_ret; exact I].
  apply safe_call; [exact I|]. intros [e|] _; [apply safe_ret; exact I|].
  apply safe_call; [exact I|].
  intros [[annotations|] | e] _; try (apply safe_ret; exact I).
  apply safe_call; [exact I|]. intros r _. apply safe_ret; exact I.
Qed.

Lemma safe_ensureAWSMachineForNode (n : Node) :
  safe (fun _ _ => True) ensureCall (fun _ => True) (ensureAWSMachineForNode n).
Proof.
  unfold ensureAWSMachineForNode.
  destruct (bool_decide _); [apply safe_ret; exact I|].
  unfold mbind, prog_bind, perform. cbn [bind].
  apply safe_call; [exact I|]. intros [Items | e] _; [|apply safe_ret; exact I].
  destruct (find _ Items) as [m|].
  - apply safe_setAWSMachineAnnotation.
  - destruct (awsutil.ParseProviderID _) as [[p|] [e|]]; try (apply safe_ret; exact I).
    apply safe_bind with (Q1 := fun _ => True);
      [apply safe_DescribeInstance; intros; exact I|].
    intros [[instance exists_] [e|]] _; [apply safe_ret; exact I|].
    unfold bindc. destruct (getInstanceAddresses instance) as [addresses | msg];
      cbn [bind]; [|apply safe_ret; exact I].
    apply safe_call; [exact I|]. intros [e|] _; [apply safe_ret; exact I|].
    apply safe_setAWSMachineAnnotation.
Qed.

Variable machineOwnerLabelName : string.

(** X22: A node that the machine has annotated and that lacks the annotation
    of its record: [Reconcile] never returns without error for it, and
    does not read or update the machine, even when
    [ensureAWSMachineForNode] has just written the annotation, for the
    annotations are those read at its start. After a successful
    [ensureAWSMachineForNode] and a decoded machine reference, the error
    is that the infra annotation is missing. *)
Theorem Reconcile_node_annotated_in_passing (req : ObjectKey) (w w1 : W) (n : Node)
    (refData : string) :
  h (ClientGetNode req) w = (Ok n, w1) ->
  NodeAnnotations n !! NodeOwnerLabelName = None ->
  NodeAnnotations n !! machineOwnerLabelName = Some refData ->
  let out := nrun h (Reconcile machineOwnerLabelName req) w in
  let ensured := run (baseOf h) (ensureAWSMachineForNode n) w1 in
  (forall r, out.1.2 <> Done (r, None)) /\
  Forall seeksRecord (ncalls out.1.1) /\
  (ensured.1.2 = Done None ->
   forall ref, (h (JsonUnmarshal refData) ensured.2).1 = Ok ref ->
   out.1.2 = Done (ResultZero, Some MissingInfraAnnotation)).
Proof.
  intros Hnode Hinfra Hmachine. cbv zeta.
  unfold Reconcile, nperform. cbn [nbind nrun]. rewrite Hnode. cbv beta iota.
  rewrite Hinfra, Hmachine. rewrite nrun_bind.
  destruct (nrun_lift (ensureAWSMachineForNode n) w1) as (Hcalls & Hval & Hstate).
  pose proof (safe_run (baseOf h) _ _ _ (fun _ => True) _
                (fun c w _ _ => conj I I) (safe_ensureAWSMachineForNode n) w1 I)
    as (Hsafe & _ & _).
  destruct (nrun h (lift (ensureAWSMachineForNode n)) w1) as [[t ens] w2].
  destruct (run (baseOf h) (ensureAWSMachineForNode n) w1) as [[t' ens'] w2'].
  cbn [fst snd] in *. subst ens' w2'.
  assert (Ht : Forall seeksRecord (ncalls t)).
  { rewrite Hcalls. apply Forall_fmap. eapply Forall_impl; [exact Hsafe|].
    intros c Hc. exact Hc. }
  destruct ens as [[e|] | msg]; cbn [nrun nbind].
  - rewrite app_nil_r. cbn [fst snd ncalls fmap list_fmap projT1].
    split; [intros r; discriminate|]. split; [constructor; [exact I | exact Ht]|].
    discriminate.
  - destruct (h (JsonUnmarshal refData) w2) as [[ref | e] w3]; cbn [nrun fst snd].
    + split; [intros r; discriminate|]. split.
      * unfold ncalls in *. cbn [fmap list_fmap projT1]. rewrite fmap_app.
        constructor; [exact I|]. apply Forall_app. split; [exact Ht|].
        repeat constructor.
      * reflexivity.
    + split; [intros r; discriminate|]. split.
      * unfold ncalls in *. cbn [fmap list_fmap projT1]. rewrite fmap_app.
        constructor; [exact I|]. apply Forall_app. split; [exact Ht|].
        repeat constructor.
      * intros _ ref. discriminate.
  - rewrite app_nil_r. cbn [fst snd ncalls fmap list_fmap projT1].
    split; [intros r; discriminate|]. split; [constructor; [exact I | exact Ht]|].
    discriminate.
Qed.

Lemma linked_eqb (m : Machine) (am : AWSMachine) :
  String.eqb (refKind (InfrastructureRef m)) "AWSMachine"
  && String.eqb (refName (InfrastructureRef m)) (Name (Meta am)) = true <-> linked m am.
Proof.
  unfold linked. rewrite andb_true_iff, !String.eqb_eq. reflexivity.
Qed.

(** X23: A node with the annotation of its record: [Reconcile] does not
    panic, asks the backend nothing and creates no record; it reads in
    [kube-system] and its only write is an update of a machine to a
    reference of kind [AWSMachine]. Without the annotation of a machine it
    only reads the node. When it returns without error for a node with
    both annotations, it has read the record named in the one and the
    machine named in the other, and the machine names the record already
    or has been updated, without error, to the reference of the record. *)
Theorem Reconcile_node_links_machine (req : ObjectKey) (w w1 : W) (n : Node)
    (awsRefData : string) :
  h (ClientGetNode req) w = (Ok n, w1) ->
  NodeAnnotations n !! NodeOwnerLabelName = Some awsRefData ->
  let out := nrun h (Reconcile machineOwnerLabelName req) w in
  (exists r, out.1.2 = Done r) /\
  Forall linksMachine (ncalls out.1.1) /\
  (NodeAnnotations n !! machineOwnerLabelName = None ->
   out = ([answered (ClientGetNode req) (Ok n)], Done (ResultZero, None), w1)) /\
  (forall refData r,
     NodeAnnotations n !! machineOwnerLabelName = Some refData ->
     out.1.2 = Done (r, None) ->
     exists ref amRef am m,
       In (answered (JsonUnmarshal refData) (Ok ref)) out.1.1 /\
       In (answered (JsonUnmarshal awsRefData) (Ok amRef)) out.1.1 /\
       In (answered (Base (ClientGetAWSMachine (systemKey (refName amRef)))) (Ok am))
          out.1.1 /\
       In (answered (ClientGetMachine (systemKey (refName ref))) (Ok m)) out.1.1 /\
       (linked m am \/
        In (answered (ClientUpdateMachine (setInfrastructureRef m (referenceTo am))) None)
           out.1.1)).
Proof.
  intros Hnode Hinfra. cbv zeta.
  unfold Reconcile, ensureMachineHasInfraRef, nperform. cbn [nbind nrun].
  rewrite Hnode. cbv beta iota. rewrite Hinfra. cbn [nbind nrun].
  destruct (NodeAnnotations n !! machineOwnerLabelName) as [refData|] eqn:Hmachine;
    cbn [nbind nrun].
  2: { cbn [fst snd ncalls fmap list_fmap projT1].
       split; [eauto|]. split; [repeat constructor|]. split; [reflexivity|].
       intros ? ? Hx; discriminate. }
  destruct (h (JsonUnmarshal refData) w1) as [[ref | e] w2] eqn:Href; cbn [nbind nrun].
  2: { cbn [fst snd ncalls fmap list_fmap projT1].
       split; [eauto|]. split; [repeat constructor|]. split; [discriminate|].
       intros ? ? _ Hx; discriminate. }
  destruct (h (JsonUnmarshal awsRefData) w2) as [[amRef | e] w3] eqn:HamRef;
    cbn [nbind nrun].
  2: { cbn [fst snd ncalls fmap list_fmap projT1].
       split; [eauto|]. split; [repeat constructor|]. split; [discriminate|].
       intros ? ? _ Hx; discriminate. }
  destruct (h (Base (ClientGetAWSMachine _)) w3) as [[am | e] w4] eqn:Ham;
    cbn [nbind nrun].
  2: { cbn [fst snd ncalls fmap list_fmap projT1].
       split; [eauto|]. split; [repeat constructor|]. split; [discriminate|].
       intros ? ? _ Hx; discriminate. }
  destruct (h (ClientGetMachine _) w4) as [[m | e] w5] eqn:Hm; cbn [nbind nrun].
  2: { cbn [fst snd ncalls fmap list_fmap projT1].
       split; [eauto|]. split; [repeat constructor|]. split; [discriminate|].
       intros ? ? _ Hx; discriminate. }
  destruct (String.eqb (refKind (InfrastructureRef m)) "AWSMachine"
            && String.eqb (refName (InfrastructureRef m)) (Name (Meta am))) eqn:Hlinked;
    cbn [nbind nrun].
  - cbn [fst snd ncalls fmap list_fmap projT1].
    split; [eauto|]. split; [repeat constructor|]. split; [discriminate|].
    intros refData' r Heq _. injection Heq as <-.
    exists ref, amRef, am, m. unfold answered, systemKey.
    split; [cbn; tauto|]. split; [cbn; tauto|]. split; [cbn; tauto|].
    split; [cbn; tauto|]. left. apply linked_eqb. exact Hlinked.
  - destruct (h (ClientUpdateMachine _) w5) as [err w6] eqn:Hupdate; cbn [nbind nrun].
    cbn [fst snd ncalls fmap list_fmap projT1].
    split; [eauto|]. split; [repeat constructor|]. split; [discriminate|].
    intros refData' r Heq Hdone. injection Heq as <-. injection Hdone as _ ->.
    exists ref, amRef, am, m. unfold answered, systemKey.
    split; [cbn; tauto|]. split; [cbn; tauto|]. split; [cbn; tauto|].
    split; [cbn; tauto|]. right. cbn. tauto.
Qed.

(** X24: Against an API server that stores the machine an update carries:
    once [ensureMachineHasInfraRef] has returned without error, the
    stored machine names the record, and every later invocation for a
    record of that name only reads the machine and leaves it as it is. *)
Theorem ensureMachineHasInfraRef_settles (am : AWSMachine) (ref : ObjectReference)
    (m0 : Machine) (w : W) :
  let first := nrun (machineServer h) (ensureMachineHasInfraRef am ref) (m0, w) in
  first.1.2 = None ->
  linked first.2.1 am /\
  forall (am' : AWSMachine) (ref' : ObjectReference) (w' : W),
    Name (Meta am') = Name (Meta am) ->
    let second := nrun (machineServer h) (ensureMachineHasInfraRef am' ref')
                    (first.2.1, w') in
    ncalls second.1.1 = [ClientGetMachine (systemKey (refName ref'))] /\
    second.2.1 = first.2.1.
Proof.
  cbv zeta. intros Hfirst.
  assert (Hlinked : linked (nrun (machineServer h) (ensureMachineHasInfraRef am ref)
                              (m0, w)).2.1 am).
  { revert Hfirst. unfold ensureMachineHasInfraRef, nperform. cbn [nbind nrun].
    unfold machineServer at 1 3. cbn [fst snd].
    destruct (h (ClientGetMachine _) w) as [[m | e] w1]; cbn [nbind nrun fst snd];
      [|discriminate].
    destruct (String.eqb (refKind (InfrastructureRef m0)) "AWSMachine"
              && String.eqb (refName (InfrastructureRef m0)) (Name (Meta am))) eqn:E;
      cbn [nbind nrun fst snd].
    - intros _. apply linked_eqb. exact E.
    - unfold machineServer. cbn [fst snd].
      destruct (h (ClientUpdateMachine _) w1) as [[e|] w2]; cbn [fst snd];
        [discriminate|].
      intros _. split; reflexivity. }
  split; [exact Hlinked|].
  intros am' ref' w' Hname.
  set (m1 := (nrun (machineServer h) (ensureMachineHasInfraRef am ref) (m0, w)).2.1) in *.
  clearbody m1.
  unfold ensureMachineHasInfraRef, nperform. cbn [nbind nrun].
  unfold machineServer. cbn [fst snd].
  destruct (h (ClientGetMachine _) w') as [[m | e] w1]; cbn [nbind nrun fst snd].
  - assert (E : String.eqb (refKind (InfrastructureRef m1)) "AWSMachine"
                && String.eqb (refName (InfrastructureRef m1)) (Name (Meta am')) = true).
    { apply linked_eqb. unfold linked in *. rewrite Hname. exact Hlinked. }
    rewrite E. cbn [nbind nrun fst snd ncalls fmap list_fmap projT1].
    split; reflexivity.
  - cbn [ncalls fmap list_fmap projT1]. split; reflexivity.
Qed.

End NodeReconcile.

Lemma Reconcile_node_annotated_in_passing_witness :
  let h := nodeEnv ownedNode unlinkedMachine (withDescribe (describes "running") silent) in
  let out := nodes.nrun h (nodes.Reconcile machineLabel (systemKey "ip-10-0-0-7")) tt in
  let ensured := run (baseOf h) (controllers.ensureAWSMachineForNode ownedNode) tt in
  (forall r, out.1.2 <> Done (r, None)) /\
  Forall seeksRecord (nodes.ncalls out.1.1) /\
  (ensured.1.2 = Done None ->
   forall ref, (h (nodes.JsonUnmarshal "worker-0") ensured.2).1 = Ok ref ->
   out.1.2 = Done (ResultZero, Some nodes.MissingInfraAnnotation)).
Proof.
  exact (Reconcile_node_annotated_in_passing
           (nodeEnv ownedNode unlinkedMachine (withDescribe (describes "running") silent))
           machineLabel (systemKey "ip-10-0-0-7") tt tt ownedNode "worker-0"
           eq_refl eq_refl eq_refl).
Defined.

(** The node of a machine, of an instance that is running: the record is
    created and the node annotated, and the invocation ends with the
    error of the missing annotation. *)
Example reconcile_owned_node :
  let h := nodeEnv ownedNode unlinkedMachine (withDescribe (describes "running") silent) in
  let out := nodes.nrun h (nodes.Reconcile machineLabel (systemKey "ip-10-0-0-7")) tt in
  last (nodes.ncalls out.1.1) = Some (nodes.JsonUnmarshal "worker-0") /\
  In (nodes.Base (PatchNode "ip-10-0-0-7" "infrastructure.crit.sh/awsmachine" "ip-10-0-0-7"))
     (nodes.ncalls out.1.1) /\
  out.1.2 = Done (ResultZero, Some nodes.MissingInfraAnnotation).
Proof. cbv zeta. split; [reflexivity|]. split; [vm_compute; tauto | reflexivity]. Qed.

Lemma Reconcile_node_links_machine_witness :
  let h := nodeEnv annotatedNode unlinkedMachine (withAWSMachine launchedMachine silent) in
  let out := nodes.nrun h (nodes.Reconcile machineLabel (systemKey "ip-10-0-0-7")) tt in
  (exists r, out.1.2 = Done r) /\
  Forall linksMachine (nodes.ncalls out.1.1) /\
  (NodeAnnotations annotatedNode !! machineLabel = None ->
   out = ([answered (nodes.ClientGetNode (systemKey "ip-10-0-0-7")) (Ok annotatedNode)],
          Done (ResultZero, None), tt)) /\
  (forall refData r,
     NodeAnnotations annotatedNode !! machineLabel = Some refData ->
     out.1.2 = Done (r, None) ->
     exists ref amRef am m,
       In (answered (nodes.JsonUnmarshal refData) (Ok ref)) out.1.1 /\
       In (answered (nodes.JsonUnmarshal "ip-10-0-0-7") (Ok amRef)) out.1.1 /\
       In (answered (nodes.Base (ClientGetAWSMachine (systemKey (refName amRef)))) (Ok am))
          out.1.1 /\
       In (answered (nodes.ClientGetMachine (systemKey (refName ref))) (Ok m)) out.1.1 /\
       (linked m am \/
        In (answered (nodes.ClientUpdateMachine
                        (nodes.setInfrastructureRef m (referenceTo am))) None)
           out.1.1)).
Proof.
  exact (Reconcile_node_links_machine
           (nodeEnv annotatedNode unlinkedMachine (withAWSMachine launchedMachine silent))
           machineLabel (systemKey "ip-10-0-0-7") tt tt annotatedNode "ip-10-0-0-7"
           eq_refl eq_refl).
Defined.

Lemma ensureMachineHasInfraRef_settles_witness :
  let h := machineServer (nodeEnv annotatedNode unlinkedMachine silent) in
  let ref := {| refAPIVersion := ""; refKind := "Machine"; refName := "worker-0";
                refNamespace := "kube-system" |} in
  let first := nodes.nrun h (nodes.ensureMachineHasInfraRef launchedMachine ref)
                 (unlinkedMachine, tt) in
  linked first.2.1 launchedMachine /\
  forall (am' : infrav1.AWSMachine) (ref' : ObjectReference) (w' : unit),
    Name (infrav1.Meta am') = Name (infrav1.Meta launchedMachine) ->
    let second := nodes.nrun h (nodes.ensureMachineHasInfraRef am' ref') (first.2.1, w') in
    nodes.ncalls second.1.1 = [nodes.ClientGetMachine (systemKey (refName ref'))] /\
    second.2.1 = first.2.1.
Proof.
  exact (ensureMachineHasInfraRef_settles
           (nodeEnv annotatedNode unlinkedMachine silent) launchedMachine
           {| refAPIVersion := ""; refKind := "Machine"; refName := "worker-0";
              refNamespace := "kube-system" |}
           unlinkedMachine tt eq_refl).
Defined.
